(** * cf-convert-html-markdown: the cache-and-convert worker

    A shallow embedding of the three worker variants of the repository
    (src/index.ts, worker-md-final.ts and worker-md-accept-presence-logs.ts)
    and the properties of the decision engine they implement.

    JavaScript strings are sequences of UTF-16 code units; the object store,
    the origin, the converter and the clock are external and appear as the
    fields of a [World] record.  What the console receives is not modelled:
    nothing below observes it.  A log call appears only where computing its
    arguments can throw (worker-md-final.ts, line 84). *)

From Stdlib Require Import ZArith NArith List Lia Bool String Ascii DecimalString.
From stdpp Require Import base option list gmap.
Import ListNotations.

Local Open Scope N_scope.

(** ** JavaScript strings and the built-ins the workers call *)

Abbreviation jsstring := (list N).

Module JS.

(** A literal of the source, as code units. *)
Definition lit (s : string) : jsstring := map N_of_ascii (list_ascii_of_string s).

(** [s.startsWith(p)] *)
Fixpoint startsWith (s p : jsstring) {struct p} : bool :=
  match p, s with
  | [], _ => true
  | c :: p', d :: s' => (c =? d) && startsWith s' p'
  | _ :: _, [] => false
  end.

(** [s.endsWith(p)] *)
Definition endsWith (s p : jsstring) : bool := startsWith (rev s) (rev p).

(** [s.slice(from, to)], with negative indices counted from the end. *)
Definition slice (s : jsstring) (from to : Z) : jsstring :=
  let len := Z.of_nat (length s) in
  let rel i := if (i <? 0)%Z then Z.max (len + i) 0 else Z.min i len in
  let a := rel from in
  let b := rel to in
  firstn (Z.to_nat (Z.max (b - a) 0)) (skipn (Z.to_nat a) s).

(** WhiteSpace and LineTerminator code points of ECMAScript, the set that
    [trim] strips. *)
Definition isWhiteSpace (c : N) : bool :=
  (c =? 9) || (c =? 10) || (c =? 11) || (c =? 12) || (c =? 13) || (c =? 32)
  || (c =? 160) || (c =? 5760) || ((8192 <=? c) && (c <=? 8202))
  || (c =? 8232) || (c =? 8233) || (c =? 8239) || (c =? 8287)
  || (c =? 12288) || (c =? 65279).

Fixpoint trimStart (s : jsstring) : jsstring :=
  match s with
  | c :: s' => if isWhiteSpace c then trimStart s' else s
  | [] => []
  end.

Definition trimEnd (s : jsstring) : jsstring := rev (trimStart (rev s)).

(** [s.trim()] *)
Definition trim (s : jsstring) : jsstring := trimEnd (trimStart s).

(** Lower-case form of one code unit.  The table is exact on U+0000..U+00FF
    and on the two code points above that range whose lower-case form starts
    with an ASCII letter (KELVIN SIGN and LATIN CAPITAL I WITH DOT ABOVE);
    every other unit is left as it is: its lower-case form is outside ASCII
    too, so a comparison with an ASCII literal cannot tell the difference. *)
Definition lowerUnit (c : N) : jsstring :=
  if (65 <=? c) && (c <=? 90) then [c + 32]
  else if (192 <=? c) && (c <=? 222) && negb (c =? 215) then [c + 32]
  else if c =? 8490 then [107]
  else if c =? 304 then [105; 775]
  else [c].

(** A string with its ASCII capital letters in lower case, as header names
    and media types are compared. *)
Definition asciiLowerUnit (c : N) : N :=
  if (65 <=? c) && (c <=? 90) then c + 32 else c.

Definition asciiLowerCase (s : jsstring) : jsstring := map asciiLowerUnit s.

(** [s.toLowerCase()] *)
Definition toLowerCase (s : jsstring) : jsstring := flat_map lowerUnit s.

(** [s.split(sep)] for a one-unit separator. *)
Fixpoint split (sep : N) (s : jsstring) : list jsstring :=
  match s with
  | [] => [[]]
  | c :: s' =>
      if c =? sep then [] :: split sep s'
      else match split sep s' with
           | w :: ws => (c :: w) :: ws
           | [] => [[c]]
           end
  end.

(** [parts.filter(Boolean)]: the empty string is the only falsy string. *)
Definition filterBoolean (parts : list jsstring) : list jsstring :=
  List.filter (fun p => negb (Nat.eqb (length p) 0)) parts.

(** [parts.join(sep)] *)
Fixpoint join (sep : jsstring) (parts : list jsstring) : jsstring :=
  match parts with
  | [] => []
  | [p] => p
  | p :: rest => p ++ sep ++ join sep rest
  end.

(** [String(n)] for a non-negative integer. *)
Definition numberToString (n : N) : jsstring :=
  lit (NilZero.string_of_uint (N.to_uint n)).

(** [a || b] on strings: the empty string is falsy. *)
Definition orElse (a b : jsstring) : jsstring :=
  match a with [] => b | _ => a end.

(** *** decodeURIComponent

    The Decode operation of ECMAScript with an empty reserved set: every
    well-formed escape is decoded, and an ill-formed one is a URIError
    ([None]). *)

Definition hexDigit (c : N) : option N :=
  if (48 <=? c) && (c <=? 57) then Some (c - 48)
  else if (65 <=? c) && (c <=? 70) then Some (c - 55)
  else if (97 <=? c) && (c <=? 102) then Some (c - 87)
  else None.

(** Number of octets announced by the first octet of a UTF-8 sequence. *)
Definition utf8Length (b : N) : option nat :=
  if b <? 128 then Some 1%nat
  else if (192 <=? b) && (b <? 224) then Some 2%nat
  else if (224 <=? b) && (b <? 240) then Some 3%nat
  else if (240 <=? b) && (b <? 248) then Some 4%nat
  else None.

(** Code point of a complete UTF-8 sequence, [None] when the sequence is not
    the encoding of a Unicode scalar value. *)
Definition utf8CodePoint (octets : list N) : option N :=
  let cont b := (128 <=? b) && (b <? 192) in
  match octets with
  | [b0] => if b0 <? 128 then Some b0 else None
  | [b0; b1] =>
      let cp := (b0 - 192) * 64 + (b1 - 128) in
      if cont b1 && (128 <=? cp) then Some cp else None
  | [b0; b1; b2] =>
      let cp := (b0 - 224) * 4096 + (b1 - 128) * 64 + (b2 - 128) in
      if cont b1 && cont b2 && (2048 <=? cp)
         && negb ((55296 <=? cp) && (cp <=? 57343))
      then Some cp else None
  | [b0; b1; b2; b3] =>
      let cp := (b0 - 240) * 262144 + (b1 - 128) * 4096
                + (b2 - 128) * 64 + (b3 - 128) in
      if cont b1 && cont b2 && cont b3 && (65536 <=? cp) && (cp <=? 1114111)
      then Some cp else None
  | _ => None
  end.

(** UTF-16 code units of a code point. *)
Definition utf16Encode (cp : N) : jsstring :=
  if cp <? 65536 then [cp]
  else [55296 + (cp - 65536) / 1024; 56320 + (cp - 65536) mod 1024].

(** [decodeFrom need octets s]: [need] more escaped octets complete the
    sequence whose first octets, latest first, are [octets]. *)
Fixpoint decodeFrom (need : nat) (octets : list N) (s : jsstring)
  : option jsstring :=
  match s with
  | [] => match need with O => Some [] | S _ => None end
  | 37 :: h1 :: h2 :: rest =>
      match hexDigit h1, hexDigit h2 with
      | Some d1, Some d2 =>
          let b := d1 * 16 + d2 in
          match need with
          | O =>
              match utf8Length b with
              | Some 1%nat => option_map (cons b) (decodeFrom 0 [] rest)
              | Some (S n) => decodeFrom n [b] rest
              | _ => None
              end
          | S O =>
              match utf8CodePoint (rev (b :: octets)) with
              | Some cp => option_map (app (utf16Encode cp)) (decodeFrom 0 [] rest)
              | None => None
              end
          | S n => decodeFrom n (b :: octets) rest
          end
      | _, _ => None
      end
  | c :: rest =>
      match need with
      | O => if c =? 37 then None else option_map (cons c) (decodeFrom 0 [] rest)
      | S _ => None
      end
  end.

Definition decodeURIComponent (s : jsstring) : option jsstring :=
  decodeFrom 0 [] s.

End JS.

(** ** Regular expressions

    The fragment of ECMAScript patterns the workers use: pattern characters,
    one-character classes, [^], [$], [\b], sequence, alternation and a greedy
    [+] over a one-character class.  A match state is the input split at the
    current position, the part before it reversed. *)

Module Regex.

Inductive cset :=
| CsChar (c : N)        (* a pattern character *)
| CsNot (c : N).        (* a negated class holding one character *)

Inductive regex :=
| RSet (cs : cset)
| RBol                  (* ^ *)
| REol                  (* $ *)
| RWordB                (* \b *)
| RSeq (r1 r2 : regex)
| RAlt (r1 r2 : regex)
| RPlus (cs : cset)     (* cs+ *)
| REmpty.               (* the empty pattern *)

(** Canonicalize of ECMAScript without the unicode flag: under ignoreCase a
    code unit is compared through its upper-case form, except that a unit
    from U+0080 upwards never takes an ASCII form.  The patterns below are
    ASCII, for which folding the ASCII letters is the whole of the rule. *)
Definition canonicalize (ignoreCase : bool) (c : N) : N :=
  if ignoreCase && (97 <=? c) && (c <=? 122) then c - 32 else c.

Definition inSet (ignoreCase : bool) (cs : cset) (c : N) : bool :=
  match cs with
  | CsChar p => canonicalize ignoreCase p =? canonicalize ignoreCase c
  | CsNot p => negb (canonicalize ignoreCase p =? canonicalize ignoreCase c)
  end.

(** The word characters of [\b]: ASCII letters, digits and the underscore. *)
Definition isWordChar (c : N) : bool :=
  ((97 <=? c) && (c <=? 122)) || ((65 <=? c) && (c <=? 90))
  || ((48 <=? c) && (c <=? 57)) || (c =? 95).

Definition wordBefore (before : jsstring) : bool :=
  match before with c :: _ => isWordChar c | [] => false end.

Definition wordAfter (after : jsstring) : bool :=
  match after with c :: _ => isWordChar c | [] => false end.

Definition mstate : Type := jsstring * jsstring.

(** Ends of the matches of [cs+] from a position, longest first. *)
Fixpoint plusEnds (ic : bool) (cs : cset) (before after : jsstring) : list mstate :=
  match after with
  | c :: after' =>
      if inSet ic cs c
      then plusEnds ic cs (c :: before) after' ++ [(c :: before, after')]
      else []
  | [] => []
  end.

(** Ends of the matches of [r] from a state, in the order in which the
    backtracking matcher tries them. *)
Fixpoint ends (ic : bool) (r : regex) (st : mstate) : list mstate :=
  match r with
  | RSet cs =>
      match snd st with
      | c :: after' => if inSet ic cs c then [(c :: fst st, after')] else []
      | [] => []
      end
  | RBol => match fst st with [] => [st] | _ :: _ => [] end
  | REol => match snd st with [] => [st] | _ :: _ => [] end
  | RWordB =>
      if xorb (wordBefore (fst st)) (wordAfter (snd st)) then [st] else []
  | RSeq r1 r2 => flat_map (ends ic r2) (ends ic r1 st)
  | RAlt r1 r2 => ends ic r1 st ++ ends ic r2 st
  | RPlus cs => plusEnds ic cs (fst st) (snd st)
  | REmpty => [st]
  end.

(** First match at or after a position: its start and its end. *)
Fixpoint search (ic : bool) (r : regex) (before after : jsstring)
  : option (mstate * mstate) :=
  match ends ic r (before, after) with
  | e :: _ => Some ((before, after), e)
  | [] =>
      match after with
      | c :: after' => search ic r (c :: before) after'
      | [] => None
      end
  end.

(** [re.test(s)] for a pattern without the global and sticky flags. *)
Definition test (ic : bool) (r : regex) (s : jsstring) : bool :=
  match search ic r [] s with Some _ => true | None => false end.

(** [s.replace(re, repl)] for a pattern without the global flag and a
    replacement without [$] patterns. *)
Definition replace (ic : bool) (r : regex) (s repl : jsstring) : jsstring :=
  match search ic r [] s with
  | Some ((before, _), (_, rest)) => rev before ++ repl ++ rest
  | None => s
  end.

(** The pattern matching a literal string, character by character. *)
Fixpoint str (s : jsstring) : regex :=
  match s with
  | [] => REmpty
  | c :: s' => RSeq (RSet (CsChar c)) (str s')
  end.

End Regex.

(** ** The runtime: values, responses, the store and the outside world *)

(** What the platform provides and the repository does not define: the URL
    class, the ISO rendering of a time value and JSON.stringify on the small
    objects the debug headers carry. *)
Inductive Json :=
| JString (s : jsstring)
| JNumber (n : N)
| JUndefined.

Class Platform := {
  URL : Type;
  url_parse : jsstring -> option URL;               (* new URL(s), None: TypeError *)
  url_pathname : URL -> jsstring;                   (* u.pathname *)
  url_set_pathname : URL -> jsstring -> URL;        (* u.pathname = p *)
  url_searchParams_get : URL -> jsstring -> option jsstring;
  url_toString : URL -> jsstring;
  date_toISOString : Z -> jsstring;                 (* of a valid time value *)
  JSON_stringify : list (jsstring * Json) -> jsstring;
}.

(** A thrown JavaScript value: an Error object or anything else, the latter
    kept as its [String(...)] rendering. *)
Inductive Thrown :=
| ThrownError (name message : jsstring) (stack : option jsstring)
| ThrownValue (text : jsstring).

(** [String(err)]: Error.prototype.toString for an Error object. *)
Definition String_of_thrown (err : Thrown) : jsstring :=
  match err with
  | ThrownError [] message _ => message
  | ThrownError name [] _ => name
  | ThrownError name message _ => name ++ JS.lit ": " ++ message
  | ThrownValue text => text
  end.

(** [String(h)] for a header value that may be null. *)
Definition String_of_nullable (h : option jsstring) : jsstring :=
  match h with Some s => s | None => JS.lit "null" end.

(** The result of an operation that may throw (or a promise that may
    reject). *)
Inductive Res (A : Type) :=
| Ok (a : A)
| Throw (err : Thrown).
Arguments Ok {A} a.
Arguments Throw {A} err.

Definition URIError_malformed : Thrown :=
  ThrownError (JS.lit "URIError") (JS.lit "URI malformed") None.

(** *** Headers

    Names are compared without regard to ASCII case.  [set] is
    [h.set(name, value)]: the value is stripped of its outer blanks, and a
    value that holds a line feed, a carriage return or a NUL is refused with
    a TypeError.  [put] is what [set] does with a value that is a field
    value already.  The workers use it with a UUID, a header received from
    the client, a serialized URL, a number, a content type that the store
    returned and fixed texts, which are taken to be field values; the catch
    block of worker-md-final.ts sets the text and the stack of an error,
    which need not be, and is modelled with [set]. *)
Module Headers.

Definition t : Type := list (jsstring * jsstring).

Definition sameName (a b : jsstring) : bool :=
  bool_decide (JS.asciiLowerCase a = JS.asciiLowerCase b).

(** [h.get(name)]: the values under the name, joined by a comma and a space. *)
Fixpoint get (h : t) (name : jsstring) : option jsstring :=
  match h with
  | [] => None
  | (n, v) :: h' =>
      if sameName n name
      then match get h' name with
           | Some more => Some (v ++ JS.lit ", " ++ more)
           | None => Some v
           end
      else get h' name
  end.

Definition remove (name : jsstring) (h : t) : t :=
  List.filter (fun nv => negb (sameName (fst nv) name)) h.

(** The list after [h.set(name, value)] for a field value. *)
Fixpoint put (name value : jsstring) (h : t) : t :=
  match h with
  | [] => [(name, value)]
  | (n, v) :: h' =>
      if sameName n name then (n, value) :: remove name h'
      else (n, v) :: put name value h'
  end.

(** HTTP whitespace: tab, line feed, carriage return and space. *)
Definition isBlank (c : N) : bool :=
  (c =? 9) || (c =? 10) || (c =? 13) || (c =? 32).

Fixpoint stripStart (s : jsstring) : jsstring :=
  match s with
  | c :: s' => if isBlank c then stripStart s' else s
  | [] => []
  end.

(** A value without its leading and trailing blanks. *)
Definition normalize (value : jsstring) : jsstring :=
  rev (stripStart (rev (stripStart value))).

(** A field value holds no NUL, no line feed and no carriage return. *)
Definition isValue (value : jsstring) : bool :=
  forallb (fun c => negb ((c =? 0) || (c =? 10) || (c =? 13))) value.

Definition invalidValue : Thrown :=
  ThrownError (JS.lit "TypeError") (JS.lit "Invalid header value.") None.

(** [h.set(name, value)] *)
Definition set (name value : jsstring) (h : t) : Res t :=
  let v := normalize value in
  if isValue v then Ok (put name v h) else Throw invalidValue.

Definition has (h : t) (name : jsstring) : bool :=
  existsb (fun nv => sameName (fst nv) name) h.

End Headers.

(** *** Responses *)

Inductive Body :=
| BodyText (s : jsstring)               (* a string *)
| BodyBytes (b : list N)                (* an ArrayBuffer *)
| BodyStream (read : Res (list N))      (* a body not read yet *)
| BodyNull.                             (* no body *)

Record Response := {
  status : N;
  statusText : jsstring;
  headers : Headers.t;
  body : Body;
}.

Definition isNullBodyStatus (st : N) : bool :=
  (st =? 101) || (st =? 103) || (st =? 204) || (st =? 205) || (st =? 304).

(** The headers of a new response: a string body without a declared type is
    given the type of plain text. *)
Definition withDefaultType (b : Body) (h : Headers.t) : Headers.t :=
  match b with
  | BodyText _ =>
      if Headers.has h (JS.lit "Content-Type") then h
      else h ++ [(JS.lit "content-type", JS.lit "text/plain;charset=UTF-8")]
  | _ => h
  end.

(** A body of length zero. *)
Definition isEmptyBody (b : Body) : bool :=
  match b with
  | BodyText [] | BodyBytes [] | BodyNull => true
  | _ => false
  end.

(** [new Response(body, { status, statusText, headers })]: the status must
    lie in 200..599.  With a status that admits no body (204, 205, 304) a
    body of length zero is taken as no body, and any other body is refused
    with a TypeError; the workers come here with a byte body only, which
    brings no content type. *)
Definition newResponse (b : Body) (st : N) (stText : jsstring) (h : Headers.t)
  : Res Response :=
  if negb ((200 <=? st) && (st <=? 599)) then
    Throw (ThrownError (JS.lit "RangeError") (JS.lit "Invalid status") None)
  else if isNullBodyStatus st then
    if isEmptyBody b then
      Ok {| status := st; statusText := stText; headers := h; body := BodyNull |}
    else
      Throw (ThrownError (JS.lit "TypeError") (JS.lit "Null body status") None)
  else
    Ok {| status := st;
          statusText := stText;
          headers := withDefaultType b h;
          body := b |}.

(** A response obtained from [fetch], its body not read yet. *)
Record Fetched := {
  f_status : N;
  f_statusText : jsstring;
  f_headers : Headers.t;
  f_body : Res (list N);            (* await r.arrayBuffer() *)
}.

(** [r.ok] *)
Definition ok (r : Fetched) : bool := (200 <=? f_status r) && (f_status r <=? 299).

(** A fetched response returned to the client as it is. *)
Definition passThrough (r : Fetched) : Response :=
  {| status := f_status r;
     statusText := f_statusText r;
     headers := f_headers r;
     body := BodyStream (f_body r) |}.

(** *** The object store *)

(** [existing.uploaded]: a Date carrying the upload time that the store
    recorded, in milliseconds, or, for a malformed object, a Date without a
    time (an invalid Date) or a value that is not a Date (or no value at
    all). *)
Inductive Uploaded :=
| UploadedDate (time : Z)
| UploadedInvalidDate
| UploadedNotDate.

(** What [getTime()] returns: a time in milliseconds, or NaN for an invalid
    Date. *)
Inductive TimeValue :=
| Finite (time : Z)
| NaN.

(** [d.getTime()] of a value that is a Date. *)
Definition getTime (u : Uploaded) : option TimeValue :=
  match u with
  | UploadedDate time => Some (Finite time)
  | UploadedInvalidDate => Some NaN
  | UploadedNotDate => None
  end.

(** [existing.httpMetadata?.contentType] *)
Inductive Declared :=
| DeclaredString (s : jsstring)
| DeclaredOther                  (* a value that is not a string *)
| DeclaredAbsent.                (* undefined or null, or no httpMetadata *)

Record R2Object := {
  uploaded : Uploaded;
  contentType : Declared;
  payload : Body;
  customMetadata : list (jsstring * jsstring);
}.

Record Blob := { blob_bytes : list N; blob_type : jsstring }.

(** [new Blob([bytes], { type })]: the type is put in ASCII lower case, and
    a type with a unit outside U+0020..U+007E is replaced by the empty
    type. *)
Definition newBlob (bytes : list N) (type : jsstring) : Blob :=
  {| blob_bytes := bytes;
     blob_type :=
       if forallb (fun c => (32 <=? c) && (c <=? 126)) type
       then JS.asciiLowerCase type else [] |}.

(** One entry of the converter's result and the shapes the result can have. *)
Record AiEntry := {
  ai_name : option jsstring;
  ai_mimeType : option jsstring;
  ai_format : option jsstring;
  ai_tokens : option N;
  ai_data : option jsstring;      (* None: data is not a string *)
}.

Inductive AiValue :=
| AiNotArray
| AiArray (first : option AiEntry).   (* None: results[0] is falsy *)

(** Calls that leave the worker, in the order they are made. *)
Inductive Effect :=
| EProxy                                              (* fetch(request) *)
| EGet (key : jsstring)                               (* MARKDOWN_BUCKET.get *)
| EText (key : jsstring)                              (* existing.text() *)
| EFetch (target userAgent : jsstring)                (* fetch(target, ...) *)
| EPut (key : jsstring) (content : Body) (contentType : jsstring)
| EToMarkdown (name : jsstring) (blob : Blob).        (* env.AI.toMarkdown *)

(** The outside world during one request.  The clock is read once for the
    time stamps written into metadata. *)
Record World := {
  w_reqId : jsstring;                                 (* crypto.randomUUID() *)
  w_now : Z;                                          (* Date.now() *)
  w_nowIso : jsstring;                                (* new Date().toISOString() *)
  w_bucket : bool;                                    (* env.MARKDOWN_BUCKET is bound *)
  w_get : jsstring -> option Thrown;                  (* a failing read *)
  w_text : jsstring -> R2Object -> Res jsstring;      (* existing.text() *)
  w_put : jsstring -> Body -> option Thrown;          (* a failing write *)
  w_proxy : Res Fetched;                              (* fetch(request) *)
  w_fetch : jsstring -> jsstring -> Res Fetched;      (* fetch(target, ...) *)
  w_toMarkdown : jsstring -> Blob -> Res AiValue;
  w_fetchMs : N;                                      (* measured durations *)
  w_aiMs : N;
  w_totalMs : N;
  w_stack : jsstring;            (* the stack of an error that the runtime raises *)
}.

Record State := {
  store : gmap jsstring R2Object;
  trace : list Effect;
}.

(** *** The monad of a request: state and exceptions *)

Definition M (A : Type) : Type := State -> Res A * State.

Definition ret {A} (a : A) : M A := fun s => (Ok a, s).

Definition bind {A B} (m : M A) (k : A -> M B) : M B :=
  fun s =>
    match m s with
    | (Ok a, s') => k a s'
    | (Throw err, s') => (Throw err, s')
    end.

Definition throw {A} (err : Thrown) : M A := fun s => (Throw err, s).

Definition liftRes {A} (r : Res A) : M A := fun s => (r, s).

(** [try { m } catch (err) { handler err }] *)
Definition tryCatch {A} (m : M A) (handler : Thrown -> M A) : M A :=
  fun s =>
    match m s with
    | (Ok a, s') => (Ok a, s')
    | (Throw err, s') => handler err s'
    end.

Definition emit (e : Effect) : M unit :=
  fun s => (Ok tt, {| store := store s; trace := trace s ++ [e] |}).

Declare Scope req_scope.
Delimit Scope req_scope with req.
Notation "x <- m ;; k" := (bind m (fun x => k))
  (at level 100, m at next level, right associativity) : req_scope.
Notation "m ;;; k" := (bind m (fun _ => k))
  (at level 100, k at level 200, right associativity) : req_scope.

Local Open Scope req_scope.

(** [await env.MARKDOWN_BUCKET.get(key)] *)
Definition bucketGet (w : World) (key : jsstring) : M (option R2Object) :=
  emit (EGet key) ;;;
  match w_get w key with
  | Some err => throw err
  | None => fun s => (Ok (store s !! key), s)
  end.

(** [await existing.text()] *)
Definition objectText (w : World) (key : jsstring) (obj : R2Object) : M jsstring :=
  emit (EText key) ;;; liftRes (w_text w key obj).

(** [await env.MARKDOWN_BUCKET.put(key, content, { httpMetadata, customMetadata })] *)
Definition bucketPut (w : World) (key : jsstring) (content : Body)
    (ct : jsstring) (meta : list (jsstring * jsstring)) : M unit :=
  emit (EPut key content ct) ;;;
  match w_put w key content with
  | Some err => throw err
  | None =>
      fun s =>
        (Ok tt,
         {| store := <[key := {| uploaded := UploadedDate (w_now w);
                                 contentType := DeclaredString ct;
                                 payload := content;
                                 customMetadata := meta |}]> (store s);
            trace := trace s |})
  end.

(** [await fetch(request)] *)
Definition proxyFetch (w : World) : M Fetched :=
  emit EProxy ;;; liftRes (w_proxy w).

(** [await fetch(target, { method: 'GET', headers, redirect: 'follow' })] *)
Definition originFetch (w : World) (target ua : jsstring) : M Fetched :=
  emit (EFetch target ua) ;;; liftRes (w_fetch w target ua).

(** [await env.AI.toMarkdown([{ name, blob }])] *)
Definition toMarkdown (w : World) (name : jsstring) (blob : Blob) : M AiValue :=
  emit (EToMarkdown name blob) ;;; liftRes (w_toMarkdown w name blob).

Definition respond (b : Body) (st : N) (h : Headers.t) : M Response :=
  liftRes (newResponse b st [] h).

(** A request: its URL, which the runtime hands over in serialized form and
    [new URL(request.url)] parses back without fail, and its Accept header. *)
Record Request `{Platform} := {
  req_url : URL;
  req_accept : option jsstring;
}.

(** [url.searchParams.get(name) === '1'] *)
Definition flagSet `{Platform} (url : URL) (name : string) : bool :=
  bool_decide (url_searchParams_get url (JS.lit name) = Some (JS.lit "1")).

(** The last path segment without its extension, or [document]. *)
Definition extensionPattern : Regex.regex :=
  Regex.RSeq (Regex.RSet (Regex.CsChar 46))
             (Regex.RSeq (Regex.RPlus (Regex.CsNot 46)) Regex.REol).

Definition filenameOf `{Platform} (target : jsstring) : jsstring :=
  match url_parse target with
  | None => JS.lit "document"
  | Some u =>
      let parts := JS.filterBoolean (JS.split 47 (url_pathname u)) in
      match rev parts with
      | lastPart :: _ => Regex.replace false extensionPattern lastPart []
      | [] => JS.lit "document"
      end
  end.

(** [(upstream.headers.get('content-type') || 'text/html').split(';')[0]] *)
Definition declaredType (upstream : Fetched) : jsstring :=
  let ct := JS.orElse (default [] (Headers.get (f_headers upstream) (JS.lit "content-type")))
                      (JS.lit "text/html") in
  match JS.split 59 ct with
  | first :: _ => first
  | [] => []
  end.

(** *** Names used in the statements *)

(** The state in which a request starts: the objects in the store and no
    call made yet. *)
Definition start (objects : gmap jsstring R2Object) : State :=
  {| store := objects; trace := [] |}.

(** The path of the request after percent-decoding, [None] when decoding
    throws. *)
Definition decodedPath `{Platform} (request : Request) : option jsstring :=
  JS.decodeURIComponent (JS.orElse (url_pathname (req_url request)) (JS.lit "/")).

(** [x] occurs in [s]. *)
Definition contains (s x : jsstring) : Prop :=
  exists pre post, s = pre ++ x ++ post.

Definition isFetch (e : Effect) : bool :=
  match e with EFetch _ _ => true | _ => false end.

Definition isGet (e : Effect) : bool :=
  match e with EGet _ => true | _ => false end.

Definition isText (e : Effect) : bool :=
  match e with EText _ => true | _ => false end.

(** An occurrence in a header: what stands before it does not end with a
    word character and what stands after it does not start with one. *)
Definition endsWithWordChar (s : jsstring) : bool := Regex.wordBefore (rev s).
Definition startsWithWordChar (s : jsstring) : bool := Regex.wordAfter s.

(** A pattern character that is not an ASCII capital letter. *)
Definition notCapital (p : N) : Prop := (65 <=? p) && (p <=? 90) = false.

(** The literal [p] stands at a position, in any case and between word
    boundaries; [b] is the input before the position, reversed, and [a] the
    input from the position on. *)
Definition occursAt (p b a : jsstring) : bool :=
  xorb (Regex.wordBefore b) (Regex.wordAfter a)
  && JS.startsWith (JS.asciiLowerCase a) p
  && xorb (Regex.wordBefore (rev (firstn (length p) a) ++ b))
          (Regex.wordAfter (skipn (length p) a)).

(** A day in milliseconds. *)
Definition dayMs : Z := 24 * 3600 * 1000.



(** A hit: the store is read, the body of the object is read and no other
    call is made. *)
Definition servedFromStore (key : jsstring) (s1 : State) : Prop :=
  trace s1 = [EGet key; EText key].

(** A miss: after the read of the store the next call fetches the source. *)
Definition regenerated (key target ua : jsstring) (s1 : State) : Prop :=
  exists rest, trace s1 = EGet key :: EFetch target ua :: rest.

(** The outcome for a conversion whose text looks like HTML: no write to the
    key, whose object is what it was; the text written nowhere but under
    the quarantine key, as plain text; with a store bound, that write as the
    last call of the request, and, when it goes through, the text held
    under the quarantine key as plain text; without a store, no write at
    all; and a 200 response that carries the text as plain text. *)
Definition quarantined (w : World) (key markdown : jsstring)
    (objects : gmap jsstring R2Object) (out : Res Response) (s1 : State) : Prop :=
  (forall content ct, ~ In (EPut key content ct) (trace s1))
  /\ store s1 !! key = objects !! key
  /\ (forall k ct, In (EPut k (BodyText markdown) ct) (trace s1) ->
        k = key ++ JS.lit ".ai-failed.txt" /\ ct = JS.lit "text/plain; charset=utf-8")
  /\ (w_bucket w = true ->
      last (trace s1)
      = Some (EPut (key ++ JS.lit ".ai-failed.txt") (BodyText markdown)
                (JS.lit "text/plain; charset=utf-8")))
  /\ (w_bucket w = true ->
      w_put w (key ++ JS.lit ".ai-failed.txt") (BodyText markdown) = None ->
      exists obj,
        store s1 !! (key ++ JS.lit ".ai-failed.txt") = Some obj
        /\ payload obj = BodyText markdown
        /\ contentType obj = DeclaredString (JS.lit "text/plain; charset=utf-8"))
  /\ (w_bucket w = false ->
      forall k content ct, ~ In (EPut k content ct) (trace s1))
  /\ exists resp,
       out = Ok resp /\ status resp = 200 /\ body resp = BodyText markdown
       /\ Headers.get (headers resp) (JS.lit "Content-Type")
          = Some (JS.lit "text/plain; charset=utf-8").

(** The outcome for a conversion whose text is genuine markdown: a 200
    response that carries the text as markdown. *)
Definition delivered (markdown : jsstring) (out : Res Response) : Prop :=
  exists resp,
    out = Ok resp /\ status resp = 200 /\ body resp = BodyText markdown
    /\ Headers.get (headers resp) (JS.lit "Content-Type")
       = Some (JS.lit "text/markdown; charset=utf-8").

(** The header of a response, if it is there. *)
Definition header (r : Response) (name : string) : option jsstring :=
  Headers.get (headers r) (JS.lit name).

(** The text of a response body that is a string. *)
Definition bodyText (r : Response) : option jsstring :=
  match body r with BodyText s => Some s | _ => None end.

(** The Accept pattern shared by the variants that read the header:
    [/(?:\btext\/markdown\b|\btext\/plain\b)/i]. *)
Definition acceptPattern : Regex.regex :=
  Regex.RAlt
    (Regex.RSeq Regex.RWordB
       (Regex.RSeq (Regex.str (JS.lit "text/markdown")) Regex.RWordB))
    (Regex.RSeq Regex.RWordB
       (Regex.RSeq (Regex.str (JS.lit "text/plain")) Regex.RWordB)).

(** [/^\//] and [/\/$/] *)
Definition leadingSlash : Regex.regex :=
  Regex.RSeq Regex.RBol (Regex.RSet (Regex.CsChar 47)).
Definition trailingSlash : Regex.regex :=
  Regex.RSeq (Regex.RSet (Regex.CsChar 47)) Regex.REol.

Definition MAX_AGE_MS : Z := 90 * 24 * 60 * 60 * 1000.

Definition DEFAULT_USER_AGENT : jsstring :=
  JS.lit "Cloudflare-HTML-Markdown-Converter/1.0 (+https://developers.cloudflare.com/workers)".

Definition newline : jsstring := [10].

(** [url.searchParams.get('ua') || DEFAULT_USER_AGENT] *)
Definition userAgent `{Platform} (request : Request) : jsstring :=
  JS.orElse (default [] (url_searchParams_get (req_url request) (JS.lit "ua")))
            DEFAULT_USER_AGENT.

(** ** src/index.ts *)

Module IndexTs.
Section Worker.
Context `{Platform}.
Variable w : World.

Definition prefersMarkdownByPresence (acceptHeader : option jsstring) : bool :=
  match acceptHeader with
  | None => false
  | Some [] => false
  | Some h => Regex.test true acceptPattern h
  end.

(** Lines 63-73: the key in the store and the URL of the source. *)
Definition keyAndSource (url : URL) (pathname : jsstring) (isMdPath : bool)
  : jsstring * URL :=
  if isMdPath then
    (Regex.replace false leadingSlash pathname [],
     url_set_pathname url (JS.slice pathname 0 (-3)))
  else
    let base :=
      JS.orElse
        (Regex.replace false trailingSlash
           (Regex.replace false leadingSlash pathname []) [])
        (JS.lit "index") in
    (base ++ JS.lit ".md", url).

(** Lines 86-89: the checks on an object found in the store. *)
Definition getTimeIfDate (obj : R2Object) : option TimeValue :=
  getTime (uploaded obj).

Definition contentTypeOrEmpty (obj : R2Object) : Declared :=
  match contentType obj with
  | DeclaredAbsent => DeclaredString []
  | c => c
  end.

(** A comparison with NaN is false. *)
Definition ageOk (obj : R2Object) : bool :=
  match getTimeIfDate obj with
  | Some (Finite t) => (w_now w - t <? MAX_AGE_MS)%Z
  | _ => false
  end.

Definition isMarkdownCT (obj : R2Object) : bool :=
  match contentTypeOrEmpty obj with
  | DeclaredString s => JS.startsWith (JS.toLowerCase s) (JS.lit "text/markdown")
  | _ => false
  end.

(** Lines 83-101: the answer from the store, if there is a valid one. *)
Definition cacheCheck (key target : jsstring) (debugMode forceRefresh : bool)
    (responseDebugHeaders : Headers.t) : M (option Response) :=
  if w_bucket w && negb forceRefresh then
    existing <- bucketGet w key ;;
    match existing with
    | Some obj =>
        if ageOk obj && isMarkdownCT obj then
          cachedText <- objectText w key obj ;;
          let h := Headers.put (JS.lit "X-Cache") (JS.lit "r2") responseDebugHeaders in
          let h := Headers.put (JS.lit "X-Source-URL") target h in
          let h :=
            if debugMode then
              let h := Headers.put (JS.lit "X-Debug-R2-Uploaded")
                         (match getTimeIfDate obj with
                          | Some (Finite t) => date_toISOString t
                          | _ => []     (* not reached: [ageOk] holds *)
                          end) h in
              Headers.put (JS.lit "X-Debug-R2-ContentType")
                (match contentTypeOrEmpty obj with
                 | DeclaredString s => s
                 | _ => []
                 end) h
            else h in
          r <- respond (BodyText cachedText) 200 h ;;
          ret (Some r)
        else ret None
    | None => ret None
    end
  else ret None.

(** Lines 103-183: fetch the source, convert it, store the result. *)
Definition convert (key target upstreamUa : jsstring) (saveHtml : bool)
    (responseDebugHeaders : Headers.t) : M Response :=
  let reqId := w_reqId w in
  upstream <- originFetch w target upstreamUa ;;
  if negb (ok upstream) then
    respond
      (BodyText (JS.lit "Upstream fetch failed: " ++ JS.numberToString (f_status upstream)
                 ++ JS.lit " " ++ f_statusText upstream))
      502
      (Headers.put (JS.lit "X-Error")
         (JS.lit "upstream " ++ JS.numberToString (f_status upstream))
         responseDebugHeaders)
  else
    arrayBuffer <- liftRes (f_body upstream) ;;
    let upstreamContentType := declaredType upstream in
    (if saveHtml && w_bucket w then
       tryCatch
         (bucketPut w (key ++ JS.lit ".source.html") (BodyBytes arrayBuffer)
            upstreamContentType
            [(JS.lit "source", target); (JS.lit "savedAt", w_nowIso w);
             (JS.lit "reqId", reqId)])
         (fun _ => ret tt)
     else ret tt) ;;;
    let blob := newBlob arrayBuffer
                  (JS.orElse upstreamContentType (JS.lit "text/html")) in
    let filename := filenameOf target in
    results <- toMarkdown w filename blob ;;
    match results with
    | AiArray (Some {| ai_data := Some markdown |}) =>
        if JS.startsWith (JS.trim markdown) (JS.lit "<") then
          h <- (if w_bucket w then
                  tryCatch
                    (bucketPut w (key ++ JS.lit ".ai-failed.txt") (BodyText markdown)
                       (JS.lit "text/plain; charset=utf-8")
                       [(JS.lit "source", target);
                        (JS.lit "note", JS.lit "ai-output-looks-like-html");
                        (JS.lit "time", w_nowIso w); (JS.lit "reqId", reqId)] ;;;
                     ret (Headers.put (JS.lit "X-Note")
                            (JS.lit "ai-output-looks-like-html-saved")
                            responseDebugHeaders))
                    (fun _ =>
                       ret (Headers.put (JS.lit "X-Note")
                              (JS.lit "ai-output-looks-like-html-save-failed")
                              responseDebugHeaders))
                else ret responseDebugHeaders) ;;
          respond (BodyText markdown) 200
            (Headers.put (JS.lit "Content-Type") (JS.lit "text/plain; charset=utf-8") h)
        else
          (if w_bucket w then
             tryCatch
               (bucketPut w key (BodyText markdown)
                  (JS.lit "text/markdown; charset=utf-8")
                  [(JS.lit "source", target); (JS.lit "generatedAt", w_nowIso w);
                   (JS.lit "reqId", reqId)])
               (fun _ => ret tt)
           else ret tt) ;;;
          let h := Headers.put (JS.lit "Content-Type")
                     (JS.lit "text/markdown; charset=utf-8") responseDebugHeaders in
          let h := Headers.put (JS.lit "X-Cache")
                     (if w_bucket w then JS.lit "miss,r2-updated" else JS.lit "miss,no-r2") h in
          let h := Headers.put (JS.lit "X-Source-URL") target h in
          respond (BodyText markdown) 200 h
    | _ =>
        respond (BodyText (JS.lit "AI conversion failed")) 500
          (Headers.put (JS.lit "X-Error") (JS.lit "ai-invalid-result") responseDebugHeaders)
    end.

(** Lines 82-183: the body of the try block. *)
Definition guarded (key target upstreamUa : jsstring)
    (debugMode forceRefresh saveHtml : bool) (responseDebugHeaders : Headers.t)
  : M Response :=
  hit <- cacheCheck key target debugMode forceRefresh responseDebugHeaders ;;
  match hit with
  | Some r => ret r
  | None => convert key target upstreamUa saveHtml responseDebugHeaders
  end.

(** Lines 184-190: the catch block. *)
Definition onUnhandled (err : Thrown) : M Response :=
  let reqId := w_reqId w in
  let headers := Headers.put (JS.lit "X-Debug-Request-Id") reqId [] in
  let headers := Headers.put (JS.lit "Content-Type")
                   (JS.lit "text/plain; charset=utf-8") headers in
  respond
    (BodyText (JS.lit "Internal Server Error" ++ newline ++ JS.lit "Request ID: "
               ++ reqId ++ newline ++ String_of_thrown err))
    500 headers.

(** Lines 27-191: the handler. *)
Definition fetch (request : Request) : M Response :=
  let reqId := w_reqId w in
  let url := req_url request in
  match JS.decodeURIComponent (JS.orElse (url_pathname url) (JS.lit "/")) with
  | None => throw URIError_malformed
  | Some pathname =>
      let acceptHeader := req_accept request in
      let debugMode := flagSet url "debug" in
      let forceRefresh := flagSet url "refresh" in
      let saveHtml := flagSet url "saveHtml" in
      let upstreamUa := userAgent request in
      let acceptPrefers := prefersMarkdownByPresence acceptHeader in
      let isMdPath := JS.endsWith pathname (JS.lit ".md") in
      if negb acceptPrefers && negb isMdPath then
        proxied <- proxyFetch w ;;
        if debugMode then
          let headers := Headers.put (JS.lit "X-Debug-Request-Id") reqId (f_headers proxied) in
          let headers := Headers.put (JS.lit "X-Debug-Accept")
                           (String_of_nullable acceptHeader) headers in
          let headers := Headers.put (JS.lit "X-Debug-Triggered") (JS.lit "proxy") headers in
          content <- liftRes (f_body proxied) ;;
          liftRes (newResponse (BodyBytes content) (f_status proxied)
                     (f_statusText proxied) headers)
        else ret (passThrough proxied)
      else
        let '(key, sourceUrl) := keyAndSource (req_url request) pathname isMdPath in
        let target := url_toString sourceUrl in
        let responseDebugHeaders := Headers.put (JS.lit "X-Debug-Request-Id") reqId [] in
        let responseDebugHeaders :=
          Headers.put (JS.lit "X-Debug-Accept") (String_of_nullable acceptHeader)
            responseDebugHeaders in
        let responseDebugHeaders :=
          Headers.put (JS.lit "X-Debug-Triggered")
            (if acceptPrefers then JS.lit "accept" else JS.lit "path-md")
            responseDebugHeaders in
        tryCatch
          (guarded key target upstreamUa debugMode forceRefresh saveHtml
             responseDebugHeaders)
          onUnhandled
  end.

(** The request takes the conversion path. *)
Definition triggered (request : Request) (pathname : jsstring) : bool :=
  prefersMarkdownByPresence (req_accept request)
  || JS.endsWith pathname (JS.lit ".md").

(** The key, the target and the headers that [fetch] derives for a request
    whose path decodes to [pathname], and its try block. *)
Definition keyOf (request : Request) (pathname : jsstring) : jsstring :=
  fst (keyAndSource (req_url request) pathname (JS.endsWith pathname (JS.lit ".md"))).

Definition targetOf (request : Request) (pathname : jsstring) : jsstring :=
  url_toString
    (snd (keyAndSource (req_url request) pathname (JS.endsWith pathname (JS.lit ".md")))).

Definition debugHeadersOf (request : Request) : Headers.t :=
  Headers.put (JS.lit "X-Debug-Triggered")
    (if prefersMarkdownByPresence (req_accept request)
     then JS.lit "accept" else JS.lit "path-md")
    (Headers.put (JS.lit "X-Debug-Accept") (String_of_nullable (req_accept request))
       (Headers.put (JS.lit "X-Debug-Request-Id") (w_reqId w) [])).

Definition tryBlock (request : Request) (pathname : jsstring) : M Response :=
  guarded (keyOf request pathname) (targetOf request pathname) (userAgent request)
    (flagSet (req_url request) "debug") (flagSet (req_url request) "refresh")
    (flagSet (req_url request) "saveHtml") (debugHeadersOf request).

End Worker.
End IndexTs.

(** ** worker-md-final.ts: the variant triggered by the path only *)

Module WorkerMdFinal.
Section Worker.
Context `{Platform}.
Variable w : World.

Definition jsonOfString (o : option jsstring) : Json :=
  match o with Some s => JString s | None => JUndefined end.

Definition jsonOfNumber (o : option N) : Json :=
  match o with Some n => JNumber n | None => JUndefined end.

(** [stack.split('\n').slice(0, 6).join(' | ')] *)
Definition stackHead (stack : jsstring) : jsstring :=
  JS.join (JS.lit " | ") (firstn 6 (JS.split 10 stack)).

(** Lines 81-88: the checks on an object found in the store. *)
Definition uploadedIfDate (obj : R2Object) : option TimeValue :=
  getTime (uploaded obj).

(** [uploaded ? Date.now() - uploaded.getTime() : null] *)
Definition ageMs (obj : R2Object) : option TimeValue :=
  match uploadedIfDate obj with
  | Some (Finite t) => Some (Finite (w_now w - t)%Z)
  | Some NaN => Some NaN
  | None => None
  end.

(** What [toISOString()] throws on an invalid Date. *)
Definition invalidTime : Thrown :=
  ThrownError (JS.lit "RangeError") (JS.lit "Invalid time value")
    (Some (w_stack w)).

(** Line 84: the arguments of the log call; [uploaded?.toISOString?.()]
    throws when the object carries an invalid Date. *)
Definition logFound (obj : R2Object) : M unit :=
  match uploaded obj with
  | UploadedInvalidDate => throw invalidTime
  | _ => ret tt
  end.

(** [existing.httpMetadata?.contentType || null]: the empty string is falsy. *)
Definition contentTypeOrNull (obj : R2Object) : Declared :=
  match contentType obj with
  | DeclaredString [] => DeclaredAbsent
  | c => c
  end.

Definition isMarkdown (obj : R2Object) : bool :=
  match contentTypeOrNull obj with
  | DeclaredString s => JS.startsWith (JS.toLowerCase s) (JS.lit "text/markdown")
  | _ => false
  end.

Definition isFresh (obj : R2Object) : bool :=
  match ageMs obj with
  | Some (Finite age) => (age <? MAX_AGE_MS)%Z
  | _ => false
  end.

(** Lines 77-112: the answer from the store, if there is a valid one. *)
Definition cacheCheck (key target : jsstring) (debugMode forceRefresh : bool)
  : M (option Response) :=
  if w_bucket w && negb forceRefresh then
    existing <- bucketGet w key ;;
    match existing with
    | Some obj =>
        logFound obj ;;;
        if isMarkdown obj && isFresh obj then
          text <- objectText w key obj ;;
          let headers :=
            [(JS.lit "Content-Type", JS.lit "text/markdown; charset=utf-8");
             (JS.lit "X-Cache", JS.lit "r2");
             (JS.lit "X-Source-URL", target);
             (JS.lit "X-Debug-Request-Id", w_reqId w)] in
          let headers :=
            if debugMode then
              let headers := Headers.put (JS.lit "X-Debug-R2-Uploaded")
                               (match uploadedIfDate obj with
                                | Some (Finite t) => date_toISOString t
                                | _ => []     (* not reached: [isFresh] holds *)
                                end) headers in
              Headers.put (JS.lit "X-Debug-R2-ContentType")
                (match contentTypeOrNull obj with
                 | DeclaredString s => s
                 | _ => JS.lit "null"
                 end) headers
            else headers in
          r <- respond (BodyText text) 200 headers ;;
          ret (Some r)
        else ret None
    | None => ret None
    end
  else ret None.

(** Lines 114-239: fetch the source, convert it, store the result. *)
Definition convert (key target upstreamUa : jsstring) (debugMode saveHtml : bool)
  : M Response :=
  let reqId := w_reqId w in
  upstream <- originFetch w target upstreamUa ;;
  if negb (ok upstream) then
    respond
      (BodyText (JS.lit "Upstream fetch failed: " ++ JS.numberToString (f_status upstream)
                 ++ JS.lit " " ++ f_statusText upstream))
      502 []
  else
    arrayBuffer <- liftRes (f_body upstream) ;;
    let upstreamContentType := declaredType upstream in
    (if saveHtml && w_bucket w then
       tryCatch
         (bucketPut w (key ++ JS.lit ".source.html") (BodyBytes arrayBuffer)
            upstreamContentType
            [(JS.lit "source", target); (JS.lit "savedAt", w_nowIso w);
             (JS.lit "requestId", reqId)])
         (fun _ => ret tt)
     else ret tt) ;;;
    let blobMime := JS.orElse upstreamContentType (JS.lit "text/html") in
    let blob := newBlob arrayBuffer blobMime in
    let filename := filenameOf target in
    results <- toMarkdown w filename blob ;;
    match results with
    | AiArray (Some ({| ai_data := Some markdown |} as aiResult)) =>
        if JS.startsWith (JS.trim markdown) (JS.lit "<") then
          (if w_bucket w then
             tryCatch
               (bucketPut w (key ++ JS.lit ".ai-failed.txt") (BodyText markdown)
                  (JS.lit "text/plain; charset=utf-8")
                  [(JS.lit "source", target);
                   (JS.lit "note", JS.lit "ai-output-looks-like-html");
                   (JS.lit "generatedAt", w_nowIso w); (JS.lit "requestId", reqId)])
               (fun _ => ret tt)
           else ret tt) ;;;
          let headers :=
            [(JS.lit "Content-Type", JS.lit "text/plain; charset=utf-8");
             (JS.lit "X-Note", JS.lit "ai-output-looks-like-html");
             (JS.lit "X-Debug-Request-Id", reqId);
             (JS.lit "X-Debug-AI-ms", JS.numberToString (w_aiMs w));
             (JS.lit "X-Debug-Fetch-ms", JS.numberToString (w_fetchMs w))] in
          let headers :=
            if debugMode then
              Headers.put (JS.lit "X-Debug-AI-Meta")
                (JSON_stringify
                   [(JS.lit "mimeType", jsonOfString (ai_mimeType aiResult));
                    (JS.lit "format", jsonOfString (ai_format aiResult));
                    (JS.lit "tokens", jsonOfNumber (ai_tokens aiResult))])
                headers
            else headers in
          respond (BodyText markdown) 200 headers
        else
          (if w_bucket w then
             tryCatch
               (bucketPut w key (BodyText markdown)
                  (JS.lit "text/markdown; charset=utf-8")
                  [(JS.lit "source", target); (JS.lit "generatedAt", w_nowIso w);
                   (JS.lit "requestId", reqId);
                   (JS.lit "aiMime", default [] (ai_mimeType aiResult))])
               (fun _ => ret tt)
           else ret tt) ;;;
          let headers :=
            [(JS.lit "Content-Type", JS.lit "text/markdown; charset=utf-8");
             (JS.lit "Cache-Control", JS.lit "no-cache, no-store, must-revalidate");
             (JS.lit "X-Cache",
              if w_bucket w then JS.lit "miss,r2-updated" else JS.lit "miss,no-r2");
             (JS.lit "X-Source-URL", target);
             (JS.lit "X-Debug-Request-Id", reqId);
             (JS.lit "X-Debug-Fetch-ms", JS.numberToString (w_fetchMs w));
             (JS.lit "X-Debug-AI-ms", JS.numberToString (w_aiMs w));
             (JS.lit "X-Debug-Duration-ms", JS.numberToString (w_totalMs w))] in
          let headers :=
            if debugMode then
              Headers.put (JS.lit "X-Debug-AI-Meta")
                (JSON_stringify
                   [(JS.lit "name", jsonOfString (ai_name aiResult));
                    (JS.lit "mimeType", jsonOfString (ai_mimeType aiResult));
                    (JS.lit "format", jsonOfString (ai_format aiResult));
                    (JS.lit "tokens", jsonOfNumber (ai_tokens aiResult))])
                headers
            else headers in
          respond (BodyText markdown) 200 headers
    | _ => respond (BodyText (JS.lit "AI conversion failed")) 500 []
    end.

(** Lines 75-239: the body of the try block. *)
Definition guarded (key target upstreamUa : jsstring)
    (debugMode forceRefresh saveHtml : bool) : M Response :=
  hit <- cacheCheck key target debugMode forceRefresh ;;
  match hit with
  | Some r => ret r
  | None => convert key target upstreamUa debugMode saveHtml
  end.

(** [err instanceof Error ? `${err.name}: ${err.message}` : String(err)] *)
Definition errorText (err : Thrown) : jsstring :=
  match err with
  | ThrownError name message _ => name ++ JS.lit ": " ++ message
  | ThrownValue text => text
  end.

(** [err.stack], when [err instanceof Error && err.stack] holds. *)
Definition stackOf (err : Thrown) : option jsstring :=
  match err with
  | ThrownError _ _ (Some (c :: stack)) => Some (c :: stack)
  | _ => None
  end.

(** Lines 240-255: the catch block.  Under [debug=1] the text of the error
    and the head of its stack are set as headers, outside any try block. *)
Definition onUnhandled (debugMode : bool) (err : Thrown) : M Response :=
  let reqId := w_reqId w in
  let emsg := errorText err in
  let headers :=
    [(JS.lit "Content-Type", JS.lit "text/plain; charset=utf-8");
     (JS.lit "X-Debug-Request-Id", reqId)] in
  headers <-
    (if debugMode then
       headers <- liftRes (Headers.set (JS.lit "X-Debug-Error") emsg headers) ;;
       match stackOf err with
       | Some stack =>
           liftRes (Headers.set (JS.lit "X-Debug-Stack") (stackHead stack) headers)
       | None => ret headers
       end
     else ret headers) ;;
  respond
    (BodyText (JS.lit "Internal Server Error" ++ newline ++ JS.lit "Request ID: "
               ++ reqId ++ newline ++ emsg))
    500 headers.

(** Lines 37-256: the handler. *)
Definition fetch (request : Request) : M Response :=
  let reqId := w_reqId w in
  let url := req_url request in
  match JS.decodeURIComponent (JS.orElse (url_pathname url) (JS.lit "/")) with
  | None => throw URIError_malformed
  | Some pathname =>
      let debugMode := flagSet url "debug" in
      let forceRefresh := flagSet url "refresh" in
      let saveHtml := flagSet url "saveHtml" in
      let upstreamUa := userAgent request in
      if negb (JS.endsWith pathname (JS.lit ".md")) then
        proxied <- proxyFetch w ;;
        if debugMode then
          let h := Headers.put (JS.lit "X-Debug-Request-Id") reqId (f_headers proxied) in
          let h := Headers.put (JS.lit "X-Debug-Proxy") (JS.lit "true") h in
          content <- liftRes (f_body proxied) ;;
          liftRes (newResponse (BodyBytes content) (f_status proxied)
                     (f_statusText proxied) h)
        else ret (passThrough proxied)
      else
        let key := Regex.replace false leadingSlash pathname [] in
        let srcUrl := url_set_pathname (req_url request) (JS.slice pathname 0 (-3)) in
        let target := url_toString srcUrl in
        tryCatch
          (guarded key target upstreamUa debugMode forceRefresh saveHtml)
          (onUnhandled debugMode)
  end.

(** The request takes the conversion path. *)
Definition triggered (pathname : jsstring) : bool :=
  JS.endsWith pathname (JS.lit ".md").

(** The key and the target that [fetch] derives for a request whose path
    decodes to [pathname], and its try block. *)
Definition keyOf (pathname : jsstring) : jsstring :=
  Regex.replace false leadingSlash pathname [].

Definition targetOf (request : Request) (pathname : jsstring) : jsstring :=
  url_toString (url_set_pathname (req_url request) (JS.slice pathname 0 (-3))).

Definition tryBlock (request : Request) (pathname : jsstring) : M Response :=
  guarded (keyOf pathname) (targetOf request pathname) (userAgent request)
    (flagSet (req_url request) "debug") (flagSet (req_url request) "refresh")
    (flagSet (req_url request) "saveHtml").

End Worker.
End WorkerMdFinal.

(** ** worker-md-accept-presence-logs.ts: the variant with logging *)

Module WorkerMdAcceptPresenceLogs.
Section Worker.
Context `{Platform}.
Variable w : World.

Definition prefersMarkdownByPresence (acceptHeader : option jsstring) : bool :=
  match acceptHeader with
  | None => false
  | Some [] => false
  | Some h => Regex.test true acceptPattern h
  end.

(** Lines 69-78: the key in the store and the URL of the source. *)
Definition keyAndSource (url : URL) (pathname : jsstring) (isMdPath : bool)
  : jsstring * URL :=
  if isMdPath then
    (Regex.replace false leadingSlash pathname [],
     url_set_pathname url (JS.slice pathname 0 (-3)))
  else
    let base :=
      JS.orElse
        (Regex.replace false trailingSlash
           (Regex.replace false leadingSlash pathname []) [])
        (JS.lit "index") in
    (base ++ JS.lit ".md", url).

(** Lines 85-88: the checks on an object found in the store. *)
Definition getTimeIfDate (obj : R2Object) : option TimeValue :=
  getTime (uploaded obj).

Definition contentTypeOrEmpty (obj : R2Object) : Declared :=
  match contentType obj with
  | DeclaredAbsent => DeclaredString []
  | c => c
  end.

(** A comparison with NaN is false. *)
Definition ageOk (obj : R2Object) : bool :=
  match getTimeIfDate obj with
  | Some (Finite t) => (w_now w - t <? MAX_AGE_MS)%Z
  | _ => false
  end.

Definition isMarkdownCT (obj : R2Object) : bool :=
  match contentTypeOrEmpty obj with
  | DeclaredString s => JS.startsWith (JS.toLowerCase s) (JS.lit "text/markdown")
  | _ => false
  end.

(** Lines 82-103: the answer from the store, if there is a valid one. *)
Definition cacheCheck (key target : jsstring) (forceRefresh : bool)
  : M (option Response) :=
  if w_bucket w && negb forceRefresh then
    existing <- bucketGet w key ;;
    match existing with
    | Some obj =>
        if ageOk obj && isMarkdownCT obj then
          cachedText <- objectText w key obj ;;
          r <- respond (BodyText cachedText) 200
                 [(JS.lit "Content-Type", JS.lit "text/markdown; charset=utf-8");
                  (JS.lit "X-Cache", JS.lit "r2");
                  (JS.lit "X-Source-URL", target);
                  (JS.lit "X-Debug-Request-Id", w_reqId w)] ;;
          ret (Some r)
        else ret None
    | None => ret None
    end
  else ret None.

(** Lines 105-185: fetch the source, convert it, store the result.  The
    write to the key is not inside a try block of its own. *)
Definition convert (key target upstreamUa : jsstring) (saveHtml : bool)
  : M Response :=
  let reqId := w_reqId w in
  upstream <- originFetch w target upstreamUa ;;
  if negb (ok upstream) then
    respond
      (BodyText (JS.lit "Upstream fetch failed: " ++ JS.numberToString (f_status upstream)
                 ++ JS.lit " " ++ f_statusText upstream))
      502 []
  else
    arrayBuffer <- liftRes (f_body upstream) ;;
    let upstreamContentType := declaredType upstream in
    (if saveHtml && w_bucket w then
       tryCatch
         (bucketPut w (key ++ JS.lit ".source.html") (BodyBytes arrayBuffer)
            upstreamContentType
            [(JS.lit "source", target); (JS.lit "savedAt", w_nowIso w);
             (JS.lit "reqId", reqId)])
         (fun _ => ret tt)
     else ret tt) ;;;
    let blob := newBlob arrayBuffer
                  (JS.orElse upstreamContentType (JS.lit "text/html")) in
    let filename := filenameOf target in
    results <- toMarkdown w filename blob ;;
    match results with
    | AiArray (Some {| ai_data := Some markdown |}) =>
        if JS.startsWith (JS.trim markdown) (JS.lit "<") then
          (if w_bucket w then
             tryCatch
               (bucketPut w (key ++ JS.lit ".ai-failed.txt") (BodyText markdown)
                  (JS.lit "text/plain; charset=utf-8")
                  [(JS.lit "source", target);
                   (JS.lit "note", JS.lit "ai-output-looks-like-html");
                   (JS.lit "time", w_nowIso w); (JS.lit "reqId", reqId)])
               (fun _ => ret tt)
           else ret tt) ;;;
          respond (BodyText markdown) 200
            [(JS.lit "Content-Type", JS.lit "text/plain; charset=utf-8")]
        else
          (if w_bucket w then
             bucketPut w key (BodyText markdown)
               (JS.lit "text/markdown; charset=utf-8")
               [(JS.lit "source", target); (JS.lit "generatedAt", w_nowIso w);
                (JS.lit "reqId", reqId)]
           else ret tt) ;;;
          respond (BodyText markdown) 200
            [(JS.lit "Content-Type", JS.lit "text/markdown; charset=utf-8");
             (JS.lit "Cache-Control", JS.lit "no-cache, no-store, must-revalidate");
             (JS.lit "X-Cache",
              if w_bucket w then JS.lit "miss,r2-updated" else JS.lit "miss,no-r2");
             (JS.lit "X-Source-URL", target);
             (JS.lit "X-Debug-Request-Id", reqId)]
    | _ => respond (BodyText (JS.lit "AI conversion failed")) 500 []
    end.

(** Lines 81-185: the body of the try block. *)
Definition guarded (key target upstreamUa : jsstring)
    (forceRefresh saveHtml : bool) : M Response :=
  hit <- cacheCheck key target forceRefresh ;;
  match hit with
  | Some r => ret r
  | None => convert key target upstreamUa saveHtml
  end.

(** Lines 186-189: the catch block. *)
Definition onUnhandled (err : Thrown) : M Response :=
  respond (BodyText (String_of_thrown err)) 500 [].

(** Lines 43-190: the handler. *)
Definition fetch (request : Request) : M Response :=
  let url := req_url request in
  match JS.decodeURIComponent (JS.orElse (url_pathname url) (JS.lit "/")) with
  | None => throw URIError_malformed
  | Some pathname =>
      let acceptHeader := req_accept request in
      let forceRefresh := flagSet url "refresh" in
      let saveHtml := flagSet url "saveHtml" in
      let upstreamUa := userAgent request in
      let acceptPrefers := prefersMarkdownByPresence acceptHeader in
      let isMdPath := JS.endsWith pathname (JS.lit ".md") in
      if negb acceptPrefers && negb isMdPath then
        proxied <- proxyFetch w ;;
        ret (passThrough proxied)
      else
        let '(key, sourceUrl) := keyAndSource (req_url request) pathname isMdPath in
        let target := url_toString sourceUrl in
        tryCatch (guarded key target upstreamUa forceRefresh saveHtml) onUnhandled
  end.

(** The request takes the conversion path. *)
Definition triggered (request : Request) (pathname : jsstring) : bool :=
  prefersMarkdownByPresence (req_accept request)
  || JS.endsWith pathname (JS.lit ".md").

(** The key and the target that [fetch] derives for a request whose path
    decodes to [pathname], and its try block. *)
Definition keyOf (request : Request) (pathname : jsstring) : jsstring :=
  fst (keyAndSource (req_url request) pathname (JS.endsWith pathname (JS.lit ".md"))).

Definition targetOf (request : Request) (pathname : jsstring) : jsstring :=
  url_toString
    (snd (keyAndSource (req_url request) pathname (JS.endsWith pathname (JS.lit ".md")))).

Definition tryBlock (request : Request) (pathname : jsstring) : M Response :=
  guarded (keyOf request pathname) (targetOf request pathname) (userAgent request)
    (flagSet (req_url request) "refresh") (flagSet (req_url request) "saveHtml").

End Worker.
End WorkerMdAcceptPresenceLogs.

(** ** A small platform for the examples

    URLs of the form scheme://host/path?name=value&... without escapes, kept
    as their three parts; the path setter stores its argument, which is what
    the URL class does for a path that needs no encoding and has no dot
    segments.  The renderings of dates and of JSON are not exercised by the
    examples and are left empty. *)

Module Toy.

Record url := {
  origin : jsstring;
  pathname : jsstring;
  query : list (jsstring * jsstring);
}.

(** The part before the first occurrence of a unit, and the part after it. *)
Fixpoint cut (sep : N) (s : jsstring) : jsstring * option jsstring :=
  match s with
  | [] => ([], None)
  | c :: s' =>
      if c =? sep then ([], Some s')
      else let '(a, b) := cut sep s' in (c :: a, b)
  end.

Definition parseQuery (q : jsstring) : list (jsstring * jsstring) :=
  map (fun pair => let '(n, v) := cut 61 pair in (n, default [] v))
      (JS.filterBoolean (JS.split 38 q)).

Definition parse (s : jsstring) : option url :=
  let '(front, q) := cut 63 s in
  match JS.split 47 front with
  | scheme :: [] :: host :: segments =>
      Some {| origin := scheme ++ JS.lit "//" ++ host;
              pathname := 47 :: JS.join [47] segments;
              query := parseQuery (default [] q) |}
  | _ => None
  end.

Definition toString (u : url) : jsstring :=
  origin u ++ pathname u ++
  match query u with
  | [] => []
  | q => 63 :: JS.join [38] (map (fun nv => fst nv ++ [61] ++ snd nv) q)
  end.

Definition searchParamsGet (u : url) (name : jsstring) : option jsstring :=
  match List.filter (fun nv => bool_decide (fst nv = name)) (query u) with
  | (_, v) :: _ => Some v
  | [] => None
  end.

#[export] Instance platform : Platform := {|
  URL := url;
  url_parse := parse;
  url_pathname := pathname;
  url_set_pathname := fun u p => {| origin := origin u; pathname := p; query := query u |};
  url_searchParams_get := searchParamsGet;
  url_toString := toString;
  date_toISOString := fun _ => [];
  JSON_stringify := fun _ => [];
|}.

(** The request for a path of https://example.com, with a query and an
    Accept header. *)
Definition get (path : string) (params : list (string * string))
    (accept : option string) : Request :=
  {| req_url := {| origin := JS.lit "https://example.com";
                   pathname := JS.lit path;
                   query := map (fun nv => (JS.lit (fst nv), JS.lit (snd nv))) params |};
     req_accept := option_map JS.lit accept |}.

(** The request for a URL of this form. *)
Definition request (u : string) (accept : option string) : option Request :=
  match parse (JS.lit u) with
  | Some parsed => Some {| req_url := parsed; req_accept := option_map JS.lit accept |}
  | None => None
  end.

Definition htmlPage : list N := JS.lit "<html><body><h1>Foo</h1></body></html>".

Definition entry (data : string) : AiEntry :=
  {| ai_name := None; ai_mimeType := Some (JS.lit "text/html");
     ai_format := Some (JS.lit "markdown"); ai_tokens := Some 12;
     ai_data := Some (JS.lit data) |}.

(** A world in which the store works, the origin answers with a page and the
    converter returns the given text. *)
Definition world (converted : string) : World :=
  {| w_reqId := JS.lit "req-1";
     w_now := 1700000000000%Z;
     w_nowIso := JS.lit "2023-11-14T22:13:20.000Z";
     w_bucket := true;
     w_get := fun _ => None;
     w_text := fun _ obj =>
       match payload obj with BodyText s => Ok s | _ => Ok [] end;
     w_put := fun _ _ => None;
     w_proxy := Ok {| f_status := 200; f_statusText := JS.lit "OK"; f_headers := [];
                      f_body := Ok htmlPage |};
     w_fetch := fun _ _ =>
       Ok {| f_status := 200; f_statusText := JS.lit "OK";
             f_headers := [(JS.lit "content-type", JS.lit "text/html; charset=utf-8")];
             f_body := Ok htmlPage |};
     w_toMarkdown := fun _ _ => Ok (AiArray (Some (entry converted)));
     w_fetchMs := 3; w_aiMs := 5; w_totalMs := 9;
     w_stack := JS.lit "RangeError: Invalid time value" ++ [10]
                ++ JS.lit "    at Date.toISOString (<anonymous>)" |}.

(** The same world with an origin that answers 404. *)
Definition worldOrigin404 : World :=
  let w := world "# Foo" in
  {| w_reqId := w_reqId w; w_now := w_now w; w_nowIso := w_nowIso w;
     w_bucket := w_bucket w; w_get := w_get w; w_text := w_text w;
     w_put := w_put w; w_proxy := w_proxy w;
     w_fetch := fun _ _ =>
       Ok {| f_status := 404; f_statusText := JS.lit "Not Found"; f_headers := [];
             f_body := Ok [] |};
     w_toMarkdown := w_toMarkdown w;
     w_fetchMs := w_fetchMs w; w_aiMs := w_aiMs w; w_totalMs := w_totalMs w;
     w_stack := w_stack w |}.

(** The same world with a store whose writes fail. *)
Definition worldPutFails (converted : string) : World :=
  let w := world converted in
  {| w_reqId := w_reqId w; w_now := w_now w; w_nowIso := w_nowIso w;
     w_bucket := w_bucket w; w_get := w_get w; w_text := w_text w;
     w_put := fun _ _ => Some (ThrownError (JS.lit "Error") (JS.lit "put failed") None);
     w_proxy := w_proxy w; w_fetch := w_fetch w; w_toMarkdown := w_toMarkdown w;
     w_fetchMs := w_fetchMs w; w_aiMs := w_aiMs w; w_totalMs := w_totalMs w;
     w_stack := w_stack w |}.

(** The same world with an origin that cannot be reached. *)
Definition worldFetchThrows : World :=
  let w := world "# Foo" in
  {| w_reqId := w_reqId w; w_now := w_now w; w_nowIso := w_nowIso w;
     w_bucket := w_bucket w; w_get := w_get w; w_text := w_text w;
     w_put := w_put w; w_proxy := w_proxy w;
     w_fetch := fun _ _ =>
       Throw (ThrownError (JS.lit "TypeError") (JS.lit "fetch failed") None);
     w_toMarkdown := w_toMarkdown w;
     w_fetchMs := w_fetchMs w; w_aiMs := w_aiMs w; w_totalMs := w_totalMs w;
     w_stack := w_stack w |}.

(** A markdown object uploaded [age] milliseconds before the clock of
    [world]. *)
Definition cached (text : string) (age : Z) : R2Object :=
  {| uploaded := UploadedDate (1700000000000 - age)%Z;
     contentType := DeclaredString (JS.lit "text/markdown; charset=utf-8");
     payload := BodyText (JS.lit text);
     customMetadata := [] |}.

(** An object without an upload date and without a content type. *)
Definition malformed : R2Object :=
  {| uploaded := UploadedNotDate;
     contentType := DeclaredAbsent;
     payload := BodyText (JS.lit "# Old");
     customMetadata := [] |}.

(** An object whose upload date is an invalid Date, without a content
    type. *)
Definition undated : R2Object :=
  {| uploaded := UploadedInvalidDate;
     contentType := DeclaredAbsent;
     payload := BodyText (JS.lit "# Old");
     customMetadata := [] |}.

Definition emptyState : State := {| store := ∅; trace := [] |}.

Definition stateWith (key : string) (obj : R2Object) : State :=
  {| store := {[ JS.lit key := obj ]}; trace := [] |}.

End Toy.

(** ** Reasoning about a request

    [wp m s Q]: running [m] from state [s] ends in a result and a state that
    satisfy [Q]. *)

Definition wp {A} (m : M A) (s : State) (Q : Res A -> State -> Prop) : Prop :=
  Q (fst (m s)) (snd (m s)).

(** ** The wording of the specification, for comparison with the code *)

Module Spec.

(** Path with its leading separator stripped. *)
Definition stripLeadingSeparator (path : jsstring) : jsstring :=
  match path with
  | c :: rest => if c =? 47 then rest else path
  | [] => []
  end.

(** Path with its trailing separator stripped. *)
Definition stripTrailingSeparator (path : jsstring) : jsstring :=
  match rev path with
  | c :: rest => if c =? 47 then rev rest else path
  | [] => []
  end.

(** Path with its last three units (the suffix [.md]) removed. *)
Definition withoutSuffix (path : jsstring) : jsstring :=
  firstn (length path - 3) path.

(** The characters of an HTTP token, and the slash that joins the type and
    the subtype of a media type. *)
Definition isMediaTypeChar (c : N) : bool :=
  ((97 <=? c) && (c <=? 122)) || ((65 <=? c) && (c <=? 90))
  || ((48 <=? c) && (c <=? 57))
  || (c =? 33) || ((35 <=? c) && (c <=? 39)) || (c =? 42) || (c =? 43)
  || (c =? 45) || (c =? 46) || (c =? 94) || (c =? 95) || (c =? 96)
  || (c =? 124) || (c =? 126) || (c =? 47).

(** The media-type tokens of a header value: its maximal runs of token
    characters. *)
Fixpoint mediaTypeTokens (current : jsstring) (h : jsstring) : list jsstring :=
  match h with
  | [] => [rev current]
  | c :: h' =>
      if isMediaTypeChar c then mediaTypeTokens (c :: current) h'
      else rev current :: mediaTypeTokens [] h'
  end.

(** The header trigger as the specification words it: one of the two media
    types is present as a whole token, whatever its case. *)
Definition headerTrigger (acceptHeader : option jsstring) : bool :=
  match acceptHeader with
  | None => false
  | Some h =>
      existsb
        (fun token =>
           bool_decide (JS.asciiLowerCase token = JS.lit "text/markdown")
           || bool_decide (JS.asciiLowerCase token = JS.lit "text/plain"))
        (mediaTypeTokens [] h)
  end.

End Spec.

(** ** Further names used in the statements *)

Definition isConvert (e : Effect) : bool :=
  match e with EToMarkdown _ _ => true | _ => false end.

Definition isPut (e : Effect) : bool :=
  match e with EPut _ _ _ => true | _ => false end.

(** A call to the store: a read of a key, of a body, or a write. *)
Definition isStoreCall (e : Effect) : bool :=
  match e with EGet _ | EText _ | EPut _ _ _ => true | _ => false end.

(** The two side keys of a key: the saved source and the quarantined text. *)
Definition sourceKey (key : jsstring) : jsstring := key ++ JS.lit ".source.html".
Definition failedKey (key : jsstring) : jsstring := key ++ JS.lit ".ai-failed.txt".

(** A string without the unit [c]. *)
Definition without (c : N) (s : jsstring) : Prop := ~ In c s.

(** A unit that the class [[^.]] admits. *)
Definition notDot (c : N) : bool := negb (46 =? c).

(** The text of a result of the converter that has the expected shape: an
    array whose first entry carries a string. *)
Definition markdownOf (results : AiValue) : option jsstring :=
  match results with
  | AiArray (Some entry) => ai_data entry
  | _ => None
  end.

(** The object that a successful write leaves in the store. *)
Definition written (w : World) (content : Body) (ct : jsstring)
    (meta : list (jsstring * jsstring)) : R2Object :=
  {| uploaded := UploadedDate (w_now w);
     contentType := DeclaredString ct;
     payload := content;
     customMetadata := meta |}.

(** The world of the examples with another answer of the converter. *)
Definition withConverter (w : World) (answer : Res AiValue) : World :=
  {| w_reqId := w_reqId w; w_now := w_now w; w_nowIso := w_nowIso w;
     w_bucket := w_bucket w; w_get := w_get w; w_text := w_text w;
     w_put := w_put w; w_proxy := w_proxy w; w_fetch := w_fetch w;
     w_toMarkdown := fun _ _ => answer;
     w_fetchMs := w_fetchMs w; w_aiMs := w_aiMs w; w_totalMs := w_totalMs w;
     w_stack := w_stack w |}.

(** The answer of the origin in the world of the examples. *)
Definition examplePage : Fetched :=
  {| f_status := 200; f_statusText := JS.lit "OK";
     f_headers := [(JS.lit "content-type", JS.lit "text/html; charset=utf-8")];
     f_body := Ok Toy.htmlPage |}.

(** The world of the examples with another answer to the fetch of the
    source. *)
Definition withOrigin (w : World) (answer : Res Fetched) : World :=
  {| w_reqId := w_reqId w; w_now := w_now w; w_nowIso := w_nowIso w;
     w_bucket := w_bucket w; w_get := w_get w; w_text := w_text w;
     w_put := w_put w; w_proxy := w_proxy w;
     w_fetch := fun _ _ => answer;
     w_toMarkdown := w_toMarkdown w;
     w_fetchMs := w_fetchMs w; w_aiMs := w_aiMs w; w_totalMs := w_totalMs w;
     w_stack := w_stack w |}.

(** The world of the examples with another answer to the proxied request. *)
Definition withProxy (w : World) (answer : Res Fetched) : World :=
  {| w_reqId := w_reqId w; w_now := w_now w; w_nowIso := w_nowIso w;
     w_bucket := w_bucket w; w_get := w_get w; w_text := w_text w;
     w_put := w_put w; w_proxy := answer; w_fetch := w_fetch w;
     w_toMarkdown := w_toMarkdown w;
     w_fetchMs := w_fetchMs w; w_aiMs := w_aiMs w; w_totalMs := w_totalMs w;
     w_stack := w_stack w |}.

(** An answer of the origin to a conditional request: not modified. *)
Definition notModified : Fetched :=
  {| f_status := 304; f_statusText := JS.lit "Not Modified";
     f_headers := [(JS.lit "etag", JS.lit "abc")]; f_body := Ok [] |}.

(** The world of the examples without a store bound. *)
Definition withoutStore (w : World) : World :=
  {| w_reqId := w_reqId w; w_now := w_now w; w_nowIso := w_nowIso w;
     w_bucket := false; w_get := w_get w; w_text := w_text w;
     w_put := w_put w; w_proxy := w_proxy w; w_fetch := w_fetch w;
     w_toMarkdown := w_toMarkdown w;
     w_fetchMs := w_fetchMs w; w_aiMs := w_aiMs w; w_totalMs := w_totalMs w;
     w_stack := w_stack w |}.

(** * Properties *)

#[local] Arguments N.eqb : simpl never.
#[local] Arguments N.leb : simpl never.
#[local] Arguments N.ltb : simpl never.

(** ** Strings *)

Example decode_plain :
  JS.decodeURIComponent (JS.lit "/articles/foo.md") = Some (JS.lit "/articles/foo.md").
Proof. reflexivity. Qed.

Example decode_escape :
  JS.decodeURIComponent (JS.lit "/a%20b%C3%A9%E2%82%AC.md")
  = Some (JS.lit "/a b" ++ [233; 8364] ++ JS.lit ".md").
Proof. reflexivity. Qed.

Example decode_malformed : JS.decodeURIComponent (JS.lit "/%.md") = None.
Proof. reflexivity. Qed.

Example decode_truncated : JS.decodeURIComponent (JS.lit "/%E2%82") = None.
Proof. reflexivity. Qed.

Example slice_md : JS.slice (JS.lit "/articles/foo.md") 0 (-3) = JS.lit "/articles/foo".
Proof. reflexivity. Qed.

Example number_404 : JS.numberToString 404 = JS.lit "404".
Proof. reflexivity. Qed.

Example trim_page :
  JS.trim (JS.lit "  <html> ") = JS.lit "<html>".
Proof. reflexivity. Qed.

Example lower_case_type :
  JS.toLowerCase (JS.lit "Text/Markdown; Charset=UTF-8") = JS.lit "text/markdown; charset=utf-8".
Proof. reflexivity. Qed.

Example split_declared_type :
  JS.split 59 (JS.lit "text/html; charset=utf-8") = [JS.lit "text/html"; JS.lit " charset=utf-8"].
Proof. reflexivity. Qed.

Example replace_extension :
  Regex.replace false extensionPattern (JS.lit "foo.tar.gz") [] = JS.lit "foo.tar".
Proof. reflexivity. Qed.

Example accept_pattern_runs :
  Regex.test true acceptPattern (JS.lit "text/html, TEXT/Markdown;q=0.9") = true
  /\ Regex.test true acceptPattern (JS.lit "text/plainx, xtext/markdown") = false.
Proof. split; reflexivity. Qed.

Lemma startsWith_spec (s p : jsstring) :
  JS.startsWith s p = true <-> exists rest, s = p ++ rest.
Proof.
  revert s. induction p as [|c p IH]; intros s; simpl.
  - split; [intros _; exists s; reflexivity | reflexivity].
  - destruct s as [|d s].
    + split; [discriminate | intros [rest E]; discriminate].
    + rewrite andb_true_iff, N.eqb_eq, IH. split.
      * intros [-> [rest ->]]. eauto.
      * intros [rest E]. injection E as -> ->. eauto.
Qed.

Lemma endsWith_spec (s p : jsstring) :
  JS.endsWith s p = true <-> exists pre, s = pre ++ p.
Proof.
  unfold JS.endsWith. rewrite startsWith_spec. split.
  - intros [rest E]. exists (rev rest).
    rewrite <- (rev_involutive s), E, rev_app_distr, rev_involutive. reflexivity.
  - intros [pre ->]. exists (rev pre). apply rev_app_distr.
Qed.

Lemma startsWith_head (s : jsstring) (c : N) :
  JS.startsWith s [c] = match s with d :: _ => c =? d | [] => false end.
Proof. destruct s; simpl; [reflexivity | apply andb_true_r]. Qed.

Lemma trimStart_head (s : jsstring) :
  match JS.trimStart s with c :: _ => JS.isWhiteSpace c = false | [] => True end.
Proof.
  induction s as [|c s IH]; simpl; [exact I|].
  destruct (JS.isWhiteSpace c) eqn:E; [exact IH | exact E].
Qed.

Lemma trimStart_keeps_last (l : jsstring) (x : N) :
  JS.isWhiteSpace x = false -> exists l', JS.trimStart (l ++ [x]) = l' ++ [x].
Proof.
  intros Hx. induction l as [|c l IH]; simpl.
  - rewrite Hx. exists []. reflexivity.
  - destruct (JS.isWhiteSpace c); [exact IH | exists (c :: l); reflexivity].
Qed.

(** Trimming at both ends and trimming at the start agree on the first
    unit. *)
Lemma trim_head (s : jsstring) (c : N) :
  JS.startsWith (JS.trim s) [c] = JS.startsWith (JS.trimStart s) [c].
Proof.
  unfold JS.trim, JS.trimEnd. pose proof (trimStart_head s) as Hh.
  destruct (JS.trimStart s) as [|x t]; [reflexivity|].
  simpl rev. destruct (trimStart_keeps_last (rev t) x Hh) as [l' ->].
  rewrite rev_app_distr. reflexivity.
Qed.

Lemma app_ne_self (key suffix : jsstring) : suffix <> [] -> key ++ suffix <> key.
Proof.
  intros Hs E. apply (f_equal (@length N)) in E. rewrite length_app in E.
  destruct suffix; [congruence | simpl in E; lia].
Qed.

(** ** The patterns *)

Lemma search_leadingSlash_later (b a : jsstring) :
  b <> [] -> Regex.search false leadingSlash b a = None.
Proof.
  revert b. induction a as [|c a IH]; intros b Hb; simpl;
    destruct b; try congruence; simpl.
  - reflexivity.
  - apply IH. discriminate.
Qed.

Lemma replace_leadingSlash (p : jsstring) :
  Regex.replace false leadingSlash p [] = Spec.stripLeadingSeparator p.
Proof.
  unfold Regex.replace. destruct p as [|c t]; simpl; [reflexivity|].
  unfold Regex.canonicalize. simpl. rewrite (N.eqb_sym 47 c).
  destruct (c =? 47); simpl; [reflexivity|].
  rewrite search_leadingSlash_later by discriminate. reflexivity.
Qed.

Lemma search_trailingSlash (a b : jsstring) :
  (exists init, a = init ++ [47]
     /\ Regex.search false trailingSlash b a
        = Some ((rev init ++ b, [47]), (47 :: rev init ++ b, [])))
  \/ ((forall init, a <> init ++ [47])
      /\ Regex.search false trailingSlash b a = None).
Proof.
  revert b. induction a as [|c a IH]; intros b.
  - right. split; [intros [|? ?]; discriminate | reflexivity].
  - simpl. unfold Regex.canonicalize. simpl.
    destruct (N.eqb_spec 47 c) as [<-|Hc].
    + destruct a as [|d a].
      * left. exists []. split; reflexivity.
      * simpl app at 1. cbn match.
        destruct (IH (47 :: b)) as [[init [Ea Es]]|[Hn Es]].
        -- left. exists (47 :: init). split; [rewrite Ea; reflexivity|].
           simpl in Es |- *. rewrite Es. simpl. rewrite <- !app_assoc. reflexivity.
        -- right. split; [|exact Es].
           intros [|x init] E; [discriminate|]. injection E as _ E. exact (Hn _ E).
    + simpl. destruct (IH (c :: b)) as [[init [Ea Es]]|[Hn Es]].
      * left. exists (c :: init). split; [rewrite Ea; reflexivity|].
        rewrite Es. simpl. rewrite <- !app_assoc. reflexivity.
      * right. split; [|exact Es].
        intros [|x init] E; [injection E as E _; congruence|].
        injection E as _ E. exact (Hn _ E).
Qed.

Lemma replace_trailingSlash (p : jsstring) :
  Regex.replace false trailingSlash p [] = Spec.stripTrailingSeparator p.
Proof.
  unfold Regex.replace, Spec.stripTrailingSeparator.
  destruct (search_trailingSlash p []) as [[init [-> Es]]|[Hn Es]]; rewrite Es.
  - rewrite (rev_app_distr init [47]). simpl.
    rewrite ?N.eqb_refl, ?app_nil_r, ?rev_involutive. reflexivity.
  - destruct (rev p) as [|c r] eqn:Er.
    + apply (f_equal (@rev N)) in Er. rewrite rev_involutive in Er. exact Er.
    + destruct (N.eqb_spec c 47) as [->|_]; [|reflexivity].
      exfalso. apply (Hn (rev r)).
      rewrite <- (rev_involutive p), Er. reflexivity.
Qed.

(** ** The Accept pattern *)

Ltac cases_N :=
  repeat match goal with
  | |- context [?a <=? ?b] => destruct (N.leb_spec a b)
  | |- context [?a <? ?b] => destruct (N.ltb_spec a b)
  | |- context [?a =? ?b] => destruct (N.eqb_spec a b)
  end.

(** Under ignoreCase a pattern character that is not a capital letter
    matches the units whose ASCII lower-case form it is. *)
Lemma inSet_fold (p c : N) :
  (65 <=? p) && (p <=? 90) = false ->
  Regex.inSet true (Regex.CsChar p) c = (p =? JS.asciiLowerUnit c).
Proof.
  unfold Regex.inSet, Regex.canonicalize, JS.asciiLowerUnit. cbn [andb].
  intros Hp. revert Hp.
  cases_N; cbn [andb]; cases_N; intros; cbn [andb] in *;
    try reflexivity; try discriminate; exfalso; lia.
Qed.

Lemma isWordChar_lower (c : N) :
  Regex.isWordChar (JS.asciiLowerUnit c) = Regex.isWordChar c.
Proof.
  unfold Regex.isWordChar, JS.asciiLowerUnit.
  destruct (N.leb_spec 65 c), (N.leb_spec c 90); cbn [andb]; try reflexivity.
  all: cases_N; cbn [andb orb]; try reflexivity; exfalso; lia.
Qed.

Lemma ends_str (p b a : jsstring) :
  Forall notCapital p ->
  Regex.ends true (Regex.str p) (b, a) =
  if JS.startsWith (JS.asciiLowerCase a) p
  then [(rev (firstn (length p) a) ++ b, skipn (length p) a)] else [].
Proof.
  intros Hp. revert b a. induction Hp as [|c p Hc Hp IH]; intros b a.
  - reflexivity.
  - cbn [Regex.str Regex.ends fst snd]. destruct a as [|d a]; [reflexivity|].
    rewrite (inSet_fold _ _ Hc). cbn [JS.asciiLowerCase map JS.startsWith].
    destruct (c =? JS.asciiLowerUnit d); cbn [flat_map andb]; [|reflexivity].
    rewrite app_nil_r, IH. fold (JS.asciiLowerCase a).
    destruct (JS.startsWith (JS.asciiLowerCase a) p); [|reflexivity].
    cbn [length firstn skipn rev]. rewrite <- app_assoc. reflexivity.
Qed.

Lemma ends_bounded (p b a : jsstring) :
  Forall notCapital p ->
  Regex.ends true
    (Regex.RSeq Regex.RWordB (Regex.RSeq (Regex.str p) Regex.RWordB)) (b, a) =
  if occursAt p b a
  then [(rev (firstn (length p) a) ++ b, skipn (length p) a)] else [].
Proof.
  intros Hp. unfold occursAt.
  cbn [Regex.ends fst snd].
  destruct (xorb (Regex.wordBefore b) (Regex.wordAfter a)); [|reflexivity].
  cbn [flat_map andb]. rewrite app_nil_r, (ends_str _ _ _ Hp).
  destruct (JS.startsWith (JS.asciiLowerCase a) p); [|reflexivity].
  cbn [flat_map fst snd andb]. rewrite app_nil_r.
  destruct (xorb _ _); reflexivity.
Qed.

Lemma search_is_some (ic : bool) (r : Regex.regex) (a b : jsstring) :
  is_Some (Regex.search ic r b a) <->
  exists x y, a = x ++ y /\ Regex.ends ic r (rev x ++ b, y) <> [].
Proof.
  revert b. induction a as [|c a IH]; intros b; cbn [Regex.search].
  - destruct (Regex.ends ic r (b, [])) eqn:E.
    + split; [intros [? ?]; discriminate|].
      intros (x & y & Exy & Hne). symmetry in Exy.
      apply app_eq_nil in Exy as [-> ->]. simpl in Hne. congruence.
    + split; [intros _ | eauto]. exists [], []. simpl. rewrite E. split; [reflexivity | discriminate].
  - destruct (Regex.ends ic r (b, c :: a)) eqn:E.
    + rewrite IH. split.
      * intros (x & y & -> & Hne). exists (c :: x), y. split; [reflexivity|].
        simpl. rewrite <- app_assoc. exact Hne.
      * intros ([|d x] & y & Exy & Hne).
        -- simpl in Exy, Hne. subst y. congruence.
        -- injection Exy as <- ->. exists x, y. split; [reflexivity|].
           simpl in Hne. rewrite <- app_assoc in Hne. exact Hne.
    + split; [intros _ | eauto]. exists [], (c :: a). simpl. rewrite E.
      split; [reflexivity | discriminate].
Qed.

Lemma notCapital_markdown : Forall notCapital (JS.lit "text/markdown").
Proof. repeat constructor. Qed.

Lemma notCapital_plain : Forall notCapital (JS.lit "text/plain").
Proof. repeat constructor. Qed.

Lemma test_acceptPattern (h : jsstring) :
  Regex.test true acceptPattern h = true <->
  exists pre post, h = pre ++ post
    /\ (occursAt (JS.lit "text/markdown") (rev pre) post
        || occursAt (JS.lit "text/plain") (rev pre) post) = true.
Proof.
  unfold Regex.test.
  assert (Hends : forall b a,
    Regex.ends true acceptPattern (b, a) = [] <->
    (occursAt (JS.lit "text/markdown") b a || occursAt (JS.lit "text/plain") b a) = false).
  { intros b a. unfold acceptPattern.
    change (Regex.ends true (Regex.RAlt ?r1 ?r2) ?st)
      with (Regex.ends true r1 st ++ Regex.ends true r2 st).
    rewrite (ends_bounded _ _ _ notCapital_markdown),
            (ends_bounded _ _ _ notCapital_plain).
    destruct (occursAt (JS.lit "text/markdown") b a),
             (occursAt (JS.lit "text/plain") b a); cbn [orb app];
      split; congruence. }
  transitivity (is_Some (Regex.search true acceptPattern [] h)).
  { destruct (Regex.search true acceptPattern [] h); split; eauto; try discriminate.
    intros [? ?]; discriminate. }
  rewrite search_is_some. split.
  - intros (x & y & -> & Hne). exists x, y. split; [reflexivity|].
    rewrite app_nil_r in Hne.
    destruct (occursAt (JS.lit "text/markdown") (rev x) y
              || occursAt (JS.lit "text/plain") (rev x) y) eqn:E; [reflexivity|].
    apply Hends in E. congruence.
  - intros (x & y & -> & Hocc). exists x, y. split; [reflexivity|].
    rewrite app_nil_r. intros E. apply Hends in E. congruence.
Qed.

Lemma wordBefore_wordAfter (s : jsstring) : Regex.wordBefore s = Regex.wordAfter s.
Proof. reflexivity. Qed.

Lemma wordAfter_lower (s : jsstring) :
  Regex.wordAfter (JS.asciiLowerCase s) = Regex.wordAfter s.
Proof. destruct s; [reflexivity | apply isWordChar_lower]. Qed.

Lemma wordAfter_app (s t : jsstring) :
  s <> [] -> Regex.wordAfter (s ++ t) = Regex.wordAfter s.
Proof. destruct s; [congruence | reflexivity]. Qed.

Lemma asciiLowerCase_rev (s : jsstring) :
  JS.asciiLowerCase (rev s) = rev (JS.asciiLowerCase s).
Proof. apply map_rev. Qed.

Lemma occursAt_spec (p b a : jsstring) :
  Regex.wordAfter p = true -> Regex.wordAfter (rev p) = true ->
  occursAt p b a = true <->
  exists mid post, a = mid ++ post /\ JS.asciiLowerCase mid = p
    /\ Regex.wordBefore b = false /\ Regex.wordAfter post = false.
Proof.
  intros Hhead Hlast.
  assert (Hp : p <> []) by (destruct p; [discriminate | congruence]).
  assert (Hmid : forall mid post, JS.asciiLowerCase mid = p ->
            mid <> [] /\ length mid = length p
            /\ Regex.wordAfter (mid ++ post) = true
            /\ forall b', Regex.wordBefore (rev mid ++ b') = true).
  { intros mid post E.
    assert (mid <> []) by (intros ->; simpl in E; congruence).
    split; [assumption|]. split; [rewrite <- E; symmetry; apply length_map|].
    split.
    - rewrite wordAfter_app, <- wordAfter_lower, E by assumption. exact Hhead.
    - intros b'. rewrite wordBefore_wordAfter, wordAfter_app.
      + rewrite <- wordAfter_lower, asciiLowerCase_rev, E. exact Hlast.
      + intros Er. apply (f_equal (@rev N)) in Er. rewrite rev_involutive in Er.
        simpl in Er. congruence. }
  unfold occursAt. rewrite !andb_true_iff, startsWith_spec. split.
  - intros [[Hb [rest Ea]] He].
    set (mid := firstn (length p) a) in *. set (post := skipn (length p) a) in *.
    assert (Ea' : a = mid ++ post) by (symmetry; apply firstn_skipn).
    assert (Em : JS.asciiLowerCase mid = p).
    { unfold mid, JS.asciiLowerCase. rewrite <- firstn_map.
      fold (JS.asciiLowerCase a). rewrite Ea.
      rewrite firstn_app, Nat.sub_diag, firstn_all. simpl. apply app_nil_r. }
    destruct (Hmid mid post Em) as (_ & _ & Hw1 & Hw2).
    exists mid, post. split; [exact Ea'|]. split; [exact Em|].
    rewrite Ea', Hw1 in Hb. rewrite Hw2 in He.
    destruct (Regex.wordBefore b), (Regex.wordAfter post); simpl in *; auto; discriminate.
  - intros (mid & post & -> & Em & Hb & Ha).
    destruct (Hmid mid post Em) as (_ & Hlen & Hw1 & Hw2).
    assert (Ef : firstn (length p) (mid ++ post) = mid).
    { rewrite <- Hlen, firstn_app, Nat.sub_diag, firstn_all. simpl. apply app_nil_r. }
    assert (Es : skipn (length p) (mid ++ post) = post).
    { rewrite <- Hlen, skipn_app, Nat.sub_diag, skipn_all. reflexivity. }
    rewrite Ef, Es, Hw1, Hw2, Hb, Ha. repeat split.
    exists (JS.asciiLowerCase post). unfold JS.asciiLowerCase in *.
    rewrite map_app, Em. reflexivity.
Qed.

(** The header trigger of index.ts and of the logging variant: the Accept
    header holds one of the two media types, in any case, between word
    boundaries of the pattern language. *)
Lemma prefers_spec (acceptHeader : option jsstring) :
  IndexTs.prefersMarkdownByPresence acceptHeader = true <->
  exists pre mid post,
    acceptHeader = Some (pre ++ mid ++ post)
    /\ (JS.asciiLowerCase mid = JS.lit "text/markdown"
        \/ JS.asciiLowerCase mid = JS.lit "text/plain")
    /\ endsWithWordChar pre = false /\ startsWithWordChar post = false.
Proof.
  unfold endsWithWordChar, startsWithWordChar.
  assert (Hgen : forall h, Regex.test true acceptPattern h = true <->
    exists pre mid post, h = pre ++ mid ++ post
      /\ (JS.asciiLowerCase mid = JS.lit "text/markdown"
          \/ JS.asciiLowerCase mid = JS.lit "text/plain")
      /\ Regex.wordBefore (rev pre) = false /\ Regex.wordAfter post = false).
  { intros h. rewrite test_acceptPattern. split.
    - intros (pre & a & -> & Hocc). apply orb_true_iff in Hocc as [Hocc|Hocc];
        apply occursAt_spec in Hocc; try reflexivity;
        destruct Hocc as (mid & post & -> & Em & Hb & Ha);
        exists pre, mid, post; auto.
    - intros (pre & mid & post & -> & Em & Hb & Ha).
      exists pre, (mid ++ post). split; [reflexivity|]. apply orb_true_iff.
      destruct Em as [Em|Em]; [left|right];
        (apply occursAt_spec; [reflexivity | reflexivity |]);
        exists mid, post; auto. }
  destruct acceptHeader as [[|c h]|]; cbn [IndexTs.prefersMarkdownByPresence].
  - split; [discriminate|]. intros (pre & mid & post & E & Em & _).
    injection E as E. symmetry in E. apply app_eq_nil in E as [_ E].
    apply app_eq_nil in E as [-> _]. destruct Em; discriminate.
  - rewrite Hgen. split; intros (pre & mid & post & E & Hrest);
      exists pre, mid, post; (split; [congruence | exact Hrest]).
  - split; [discriminate|]. intros (? & ? & ? & E & _). discriminate.
Qed.

(** ** The trigger and the key *)

(** C3, as the code has it: the header trigger of index.ts fires exactly when
    the Accept header holds [text/markdown] or [text/plain], in any case,
    between word boundaries of the pattern language: not right after and not
    right before a letter, a digit or an underscore.  The logging variant
    uses the same function. *)
Theorem header_trigger_word_bounded (acceptHeader : option jsstring) :
  (IndexTs.prefersMarkdownByPresence acceptHeader = true <->
   exists pre mid post,
     acceptHeader = Some (pre ++ mid ++ post)
     /\ (JS.asciiLowerCase mid = JS.lit "text/markdown"
         \/ JS.asciiLowerCase mid = JS.lit "text/plain")
     /\ endsWithWordChar pre = false /\ startsWithWordChar post = false)
  /\ WorkerMdAcceptPresenceLogs.prefersMarkdownByPresence acceptHeader
     = IndexTs.prefersMarkdownByPresence acceptHeader.
Proof. split; [apply prefers_spec | reflexivity]. Qed.

(** C3 fails as stated: the header [text/plain-extended] holds neither media
    type as a whole token, yet the trigger fires and the request for [/page]
    is converted (its first call reads the key [page.md]) instead of being
    passed through. *)
Lemma header_trigger_longer_token :
  Spec.headerTrigger (Some (JS.lit "text/plain-extended")) = false
  /\ IndexTs.prefersMarkdownByPresence (Some (JS.lit "text/plain-extended")) = true
  /\ WorkerMdAcceptPresenceLogs.prefersMarkdownByPresence
       (Some (JS.lit "text/plain-extended")) = true
  /\ match Toy.request "https://example.com/page" (Some "text/plain-extended"%string) with
     | Some request =>
         head (trace (snd (IndexTs.fetch (Toy.world "# Page") request Toy.emptyState)))
         = Some (EGet (JS.lit "page.md"))
     | None => False
     end.
Proof. vm_compute. repeat split. Qed.

Example header_trigger_examples :
  IndexTs.prefersMarkdownByPresence (Some (JS.lit "text/html, TEXT/Markdown;q=0.5")) = true
  /\ IndexTs.prefersMarkdownByPresence (Some (JS.lit "text/plainx")) = false
  /\ IndexTs.prefersMarkdownByPresence (Some (JS.lit "xtext/plain")) = false
  /\ IndexTs.prefersMarkdownByPresence (Some (JS.lit "text/html")) = false
  /\ IndexTs.prefersMarkdownByPresence (Some []) = false
  /\ IndexTs.prefersMarkdownByPresence None = false.
Proof. vm_compute. repeat split. Qed.

Section KeyAndSource.
Context `{Platform}.

Lemma stripLeading_no_slash (p : jsstring) :
  JS.startsWith p (JS.lit "//") = false ->
  JS.startsWith (Spec.stripLeadingSeparator p) (JS.lit "/") = false.
Proof.
  change (JS.lit "//") with [47; 47]. change (JS.lit "/") with [47].
  destruct p as [|c p]; [reflexivity|]. cbn [Spec.stripLeadingSeparator JS.startsWith].
  rewrite (N.eqb_sym c 47).
  destruct (47 =? c) eqn:E; cbn [andb]; [|rewrite E; reflexivity].
  destruct p as [|d p]; [reflexivity|]. cbn [JS.startsWith].
  rewrite andb_true_r. intros ->. reflexivity.
Qed.

Lemma stripTrailing_head (p : jsstring) :
  JS.startsWith p [47] = false ->
  JS.startsWith (Spec.stripTrailingSeparator p ++ JS.lit ".md") [47] = false
  \/ Spec.stripTrailingSeparator p = [].
Proof.
  unfold Spec.stripTrailingSeparator. intros Hp.
  destruct (rev p) as [|c r] eqn:Er; [right; reflexivity|].
  assert (Ep : p = rev r ++ [c]).
  { rewrite <- (rev_involutive p), Er. reflexivity. }
  destruct (c =? 47).
  - destruct (rev r) as [|d r'] eqn:Err; [right; reflexivity|]. left.
    rewrite Ep in Hp. cbn [app JS.startsWith] in *. exact Hp.
  - left. destruct p as [|d p']; [destruct (rev r); discriminate|].
    cbn [app JS.startsWith] in *. exact Hp.
Qed.

Lemma stripLeading_ends_md (p : jsstring) :
  JS.endsWith p (JS.lit ".md") = true ->
  JS.endsWith (Spec.stripLeadingSeparator p) (JS.lit ".md") = true.
Proof.
  rewrite !endsWith_spec. intros [pre ->].
  destruct pre as [|c pre]; [exists []; reflexivity|].
  cbn [app Spec.stripLeadingSeparator].
  destruct (c =? 47); [exists pre | exists (c :: pre)]; reflexivity.
Qed.

Lemma slice_without_suffix (p : jsstring) :
  JS.slice p 0 (-3) = Spec.withoutSuffix p.
Proof.
  unfold JS.slice, Spec.withoutSuffix. cbv zeta.
  change (0 <? 0)%Z with false. change (-3 <? 0)%Z with true. cbv iota.
  replace (Z.to_nat (Z.min 0 (Z.of_nat (length p)))) with 0%nat by lia.
  cbn [skipn]. f_equal. lia.
Qed.

Lemma withoutSuffix_md (p : jsstring) :
  JS.endsWith p (JS.lit ".md") = true ->
  p = Spec.withoutSuffix p ++ JS.lit ".md".
Proof.
  rewrite endsWith_spec. intros [pre ->].
  unfold Spec.withoutSuffix. rewrite length_app.
  change (length (JS.lit ".md")) with 3%nat.
  replace (length pre + 3 - 3)%nat with (length pre) by lia.
  rewrite firstn_app, Nat.sub_diag, firstn_all. simpl. rewrite app_nil_r. reflexivity.
Qed.

(** C4, as the code has it.  For a path ending in [.md] the key is the path
    with its leading separator stripped and the source is the request URL
    with the path, less its last three units, set as its path; otherwise the
    key is the path with one leading and one trailing separator stripped, or
    [index] when nothing is left, with [.md] appended, and the source is the
    request URL.  The key always ends in [.md], and it has no leading
    separator when the path does not begin with two separators. *)
Theorem key_and_source (request : Request) (pathname : jsstring) :
  let md := JS.endsWith pathname (JS.lit ".md") in
  let key := IndexTs.keyOf request pathname in
  let target := IndexTs.targetOf request pathname in
  (md = true ->
     key = Spec.stripLeadingSeparator pathname
     /\ target = url_toString
                   (url_set_pathname (req_url request) (Spec.withoutSuffix pathname))
     /\ pathname = Spec.withoutSuffix pathname ++ JS.lit ".md")
  /\ (md = false ->
        key = JS.orElse (Spec.stripTrailingSeparator (Spec.stripLeadingSeparator pathname))
                        (JS.lit "index") ++ JS.lit ".md"
        /\ target = url_toString (req_url request))
  /\ JS.endsWith key (JS.lit ".md") = true
  /\ (JS.startsWith pathname (JS.lit "//") = false ->
      JS.startsWith key (JS.lit "/") = false).
Proof.
  cbv zeta. unfold IndexTs.keyOf, IndexTs.targetOf, IndexTs.keyAndSource.
  rewrite !replace_leadingSlash, replace_trailingSlash.
  destruct (JS.endsWith pathname (JS.lit ".md")) eqn:Emd; cbn [fst snd].
  - rewrite slice_without_suffix.
    split; [intros _; repeat split; apply withoutSuffix_md, Emd|].
    split; [discriminate|]. split.
    + apply stripLeading_ends_md, Emd.
    + apply stripLeading_no_slash.
  - split; [discriminate|]. split; [auto|]. split.
    + apply endsWith_spec. eauto.
    + intros Hp. apply stripLeading_no_slash in Hp.
      destruct (stripTrailing_head _ Hp) as [Hk| ->].
      * destruct (Spec.stripTrailingSeparator _); [reflexivity | exact Hk].
      * reflexivity.
Qed.

End KeyAndSource.

(** C4 fails as stated: for the URL [https://example.com//foo.md] the path is
    [//foo.md] and the key is [/foo.md], which begins with a separator. *)
Lemma key_keeps_second_separator :
  match Toy.request "https://example.com//foo.md" None with
  | Some request =>
      decodedPath request = Some (JS.lit "//foo.md")
      /\ IndexTs.keyOf request (JS.lit "//foo.md") = JS.lit "/foo.md"
      /\ JS.startsWith (IndexTs.keyOf request (JS.lit "//foo.md")) (JS.lit "/") = true
      /\ head (trace (snd (IndexTs.fetch (Toy.world "# Foo") request Toy.emptyState)))
         = Some (EGet (JS.lit "/foo.md"))
  | None => False
  end.
Proof. vm_compute. repeat split. Qed.

Example key_examples :
  match Toy.request "https://example.com/articles/foo.md" None,
        Toy.request "https://example.com/" (Some "text/plain"%string),
        Toy.request "https://example.com/docs/guide/" (Some "text/markdown"%string) with
  | Some a, Some b, Some c =>
      IndexTs.keyOf a (JS.lit "/articles/foo.md") = JS.lit "articles/foo.md"
      /\ IndexTs.targetOf a (JS.lit "/articles/foo.md") = JS.lit "https://example.com/articles/foo"
      /\ IndexTs.keyOf b (JS.lit "/") = JS.lit "index.md"
      /\ IndexTs.targetOf b (JS.lit "/") = JS.lit "https://example.com/"
      /\ IndexTs.keyOf c (JS.lit "/docs/guide/") = JS.lit "docs/guide.md"
  | _, _, _ => False
  end.
Proof. vm_compute. repeat split. Qed.

(** ** Headers *)

Lemma sameName_true (a b : jsstring) :
  Headers.sameName a b = true <-> JS.asciiLowerCase a = JS.asciiLowerCase b.
Proof. unfold Headers.sameName. apply bool_decide_eq_true. Qed.

Lemma sameName_trans (a b c : jsstring) :
  Headers.sameName a b = true ->
  Headers.sameName a c = Headers.sameName b c.
Proof.
  rewrite sameName_true. unfold Headers.sameName. intros ->. reflexivity.
Qed.

Lemma headers_get_remove (h : Headers.t) (name name' : jsstring) :
  Headers.sameName name name' = true ->
  Headers.get (Headers.remove name h) name' = None.
Proof.
  intros Hn. induction h as [|[n v] h IH]; [reflexivity|].
  unfold Headers.remove in *. cbn [List.filter fst].
  destruct (Headers.sameName n name) eqn:E; cbn [negb].
  - exact IH.
  - cbn [Headers.get].
    replace (Headers.sameName n name') with false; [exact IH|].
    symmetry. rewrite <- E. unfold Headers.sameName.
    apply sameName_true in Hn. rewrite Hn. reflexivity.
Qed.

Lemma headers_get_set (h : Headers.t) (name name' value : jsstring) :
  Headers.sameName name name' = true ->
  Headers.get (Headers.put name value h) name' = Some value.
Proof.
  intros Hn. induction h as [|[n v] h IH]; cbn [Headers.put Headers.get].
  - rewrite Hn. reflexivity.
  - destruct (Headers.sameName n name) eqn:E.
    + cbn [Headers.get]. rewrite (sameName_trans _ _ _ E), Hn.
      rewrite headers_get_remove by exact Hn. reflexivity.
    + cbn [Headers.get].
      replace (Headers.sameName n name') with false; [exact IH|].
      symmetry. rewrite <- E. unfold Headers.sameName.
      apply sameName_true in Hn. rewrite Hn. reflexivity.
Qed.

Lemma headers_has_set (h : Headers.t) (name name' value : jsstring) :
  Headers.sameName name name' = true ->
  Headers.has (Headers.put name value h) name' = true.
Proof.
  intros Hn. unfold Headers.has.
  induction h as [|[n v] h IH]; cbn [Headers.put existsb fst].
  - rewrite Hn. reflexivity.
  - destruct (Headers.sameName n name) eqn:E; cbn [existsb fst].
    + rewrite (sameName_trans _ _ _ E), Hn. reflexivity.
    + rewrite IH. apply orb_true_r.
Qed.

Lemma headers_has_remove (h : Headers.t) (name name' : jsstring) :
  Headers.has h name' = false -> Headers.has (Headers.remove name h) name' = false.
Proof.
  unfold Headers.has, Headers.remove. induction h as [|[n v] h IH]; [reflexivity|].
  cbn [existsb List.filter fst]. intros Hh. apply orb_false_iff in Hh as [Hn Hh].
  destruct (negb _); [|exact (IH Hh)].
  cbn [existsb fst]. rewrite Hn. exact (IH Hh).
Qed.

Lemma headers_has_set_other (h : Headers.t) (name name' value : jsstring) :
  Headers.sameName name name' = false ->
  Headers.has h name' = false ->
  Headers.has (Headers.put name value h) name' = false.
Proof.
  intros Hn. unfold Headers.has.
  induction h as [|[n v] h IH]; cbn [Headers.put existsb fst].
  - rewrite Hn. reflexivity.
  - intros Hh. apply orb_false_iff in Hh as [Hn' Hh].
    destruct (Headers.sameName n name) eqn:E; cbn [existsb fst]; rewrite Hn'.
    + apply (headers_has_remove h name name'). exact Hh.
    + exact (IH Hh).
Qed.

Lemma headers_get_absent (h : Headers.t) (name : jsstring) :
  Headers.has h name = false -> Headers.get h name = None.
Proof.
  unfold Headers.has. induction h as [|[n v] h IH]; [reflexivity|].
  cbn [existsb fst Headers.get]. intros Hh. apply orb_false_iff in Hh as [-> Hh].
  exact (IH Hh).
Qed.

Lemma headers_get_app_absent (h h' : Headers.t) (name : jsstring) :
  Headers.has h name = false -> Headers.get (h ++ h') name = Headers.get h' name.
Proof.
  unfold Headers.has. induction h as [|[n v] h IH]; [reflexivity|].
  cbn [existsb fst Headers.get app]. intros Hh. apply orb_false_iff in Hh as [-> Hh].
  exact (IH Hh).
Qed.

Lemma sameName_false_trans (a b c : jsstring) :
  Headers.sameName a b = true ->
  Headers.sameName b c = false ->
  Headers.sameName a c = false.
Proof. intros Hab Hbc. rewrite (sameName_trans _ _ _ Hab). exact Hbc. Qed.

Lemma headers_get_remove_other (h : Headers.t) (name name' : jsstring) :
  Headers.sameName name name' = false ->
  Headers.get (Headers.remove name h) name' = Headers.get h name'.
Proof.
  intros Hn. induction h as [|[n v] h IH]; [reflexivity|].
  unfold Headers.remove in *. cbn [List.filter fst].
  destruct (Headers.sameName n name) eqn:E; cbn [negb Headers.get].
  - rewrite (sameName_false_trans _ _ _ E Hn). exact IH.
  - rewrite IH. reflexivity.
Qed.

Lemma headers_get_set_other (h : Headers.t) (name name' value : jsstring) :
  Headers.sameName name name' = false ->
  Headers.get (Headers.put name value h) name' = Headers.get h name'.
Proof.
  intros Hn. induction h as [|[n v] h IH]; cbn [Headers.put Headers.get].
  - rewrite Hn. reflexivity.
  - destruct (Headers.sameName n name) eqn:E; cbn [Headers.get].
    + rewrite (sameName_false_trans _ _ _ E Hn).
      apply headers_get_remove_other, Hn.
    + rewrite IH. reflexivity.
Qed.

Lemma headers_get_has (h : Headers.t) (name value : jsstring) :
  Headers.get h name = Some value -> Headers.has h name = true.
Proof.
  intros Hg. destruct (Headers.has h name) eqn:E; [reflexivity|].
  rewrite (headers_get_absent _ _ E) in Hg. discriminate.
Qed.

Lemma headers_get_cons_other (h : Headers.t) (n v name : jsstring) :
  Headers.sameName n name = false ->
  Headers.get ((n, v) :: h) name = Headers.get h name.
Proof. intros Hn. cbn [Headers.get]. rewrite Hn. reflexivity. Qed.

Lemma headers_get_cons_same (h : Headers.t) (n v name : jsstring) :
  Headers.sameName n name = true ->
  Headers.get h name = None ->
  Headers.get ((n, v) :: h) name = Some v.
Proof. intros Hn Hh. cbn [Headers.get]. rewrite Hn, Hh. reflexivity. Qed.

(** A response whose headers declare a type keeps it. *)
Lemma withDefaultType_keeps (b : Body) (h : Headers.t) (value : jsstring) :
  Headers.get h (JS.lit "Content-Type") = Some value ->
  Headers.get (withDefaultType b h) (JS.lit "Content-Type") = Some value.
Proof.
  intros Hg. unfold withDefaultType. destruct b; try exact Hg.
  rewrite (headers_get_has _ _ _ Hg). exact Hg.
Qed.


Lemma withDefaultType_declared (b : Body) (h : Headers.t) (value : jsstring) :
  Headers.get (withDefaultType b (Headers.put (JS.lit "Content-Type") value h))
              (JS.lit "Content-Type") = Some value.
Proof.
  unfold withDefaultType. destruct b; try (apply headers_get_set; reflexivity).
  rewrite headers_has_set by reflexivity. apply headers_get_set. reflexivity.
Qed.

(** A response with a string body and no declared type gets the type of
    plain text, spelled as the Response constructor spells it. *)
Lemma withDefaultType_absent (s : jsstring) (h : Headers.t) :
  Headers.has h (JS.lit "Content-Type") = false ->
  Headers.get (withDefaultType (BodyText s) h) (JS.lit "Content-Type")
  = Some (JS.lit "text/plain;charset=UTF-8").
Proof.
  intros Hh. unfold withDefaultType. rewrite Hh.
  rewrite headers_get_app_absent by exact Hh. reflexivity.
Qed.

(** [set] throws one error only, and a value it accepts is stored without
    its outer blanks. *)
Lemma headers_set_throw (name value : jsstring) (h : Headers.t) (err : Thrown) :
  Headers.set name value h = Throw err -> err = Headers.invalidValue.
Proof.
  unfold Headers.set. destruct (Headers.isValue _); [discriminate|].
  intros E. injection E as <-. reflexivity.
Qed.

Lemma headers_set_ok (name value : jsstring) (h h' : Headers.t) :
  Headers.set name value h = Ok h' ->
  h' = Headers.put name (Headers.normalize value) h.
Proof.
  unfold Headers.set. destruct (Headers.isValue _); [|discriminate].
  intros E. injection E as <-. reflexivity.
Qed.

(** ** Rules for running a request *)

Section Rules.
Context `{Platform}.

Lemma wp_run {A} (m : M A) s Q out s1 : wp m s Q -> m s = (out, s1) -> Q out s1.
Proof. unfold wp. intros HQ E. rewrite E in HQ. exact HQ. Qed.

Lemma wp_ret {A} (a : A) s Q : Q (Ok a) s -> wp (ret a) s Q.
Proof. exact id. Qed.

Lemma wp_throw {A} err s (Q : Res A -> State -> Prop) :
  Q (Throw err) s -> wp (throw err) s Q.
Proof. exact id. Qed.

Lemma wp_liftRes {A} (r : Res A) s Q : Q r s -> wp (liftRes r) s Q.
Proof. exact id. Qed.

Lemma wp_bind {A B} (m : M A) (k : A -> M B) s Q :
  wp m s (fun r s' =>
            match r with
            | Ok a => wp (k a) s' Q
            | Throw err => Q (Throw err) s'
            end) ->
  wp (bind m k) s Q.
Proof. unfold wp, bind. destruct (m s) as [[a|err] s']; exact id. Qed.

Lemma wp_tryCatch {A} (m : M A) (h : Thrown -> M A) s Q :
  wp m s (fun r s' =>
            match r with
            | Ok a => Q (Ok a) s'
            | Throw err => wp (h err) s' Q
            end) ->
  wp (tryCatch m h) s Q.
Proof. unfold wp, tryCatch. destruct (m s) as [[a|err] s']; exact id. Qed.

Lemma wp_emit e objects calls Q :
  Q (Ok tt) {| store := objects; trace := calls ++ [e] |} ->
  wp (emit e) {| store := objects; trace := calls |} Q.
Proof. exact id. Qed.

Lemma wp_respond b st h s Q :
  (200 <=? st) && (st <=? 599) = true -> isNullBodyStatus st = false ->
  Q (Ok {| status := st; statusText := [];
           headers := withDefaultType b h; body := b |}) s ->
  wp (respond b st h) s Q.
Proof.
  intros H1 H2. unfold wp, respond, liftRes, newResponse. rewrite H1, H2. exact id.
Qed.

Lemma wp_bucketGet w key objects calls Q :
  match w_get w key with
  | Some err => Q (Throw err) {| store := objects; trace := calls ++ [EGet key] |}
  | None =>
      Q (Ok (objects !! key)) {| store := objects; trace := calls ++ [EGet key] |}
  end ->
  wp (bucketGet w key) {| store := objects; trace := calls |} Q.
Proof. unfold wp, bucketGet, bind, emit, throw. destruct (w_get w key); exact id. Qed.

Lemma wp_bucketPut w key content ct meta objects calls Q :
  match w_put w key content with
  | Some err =>
      Q (Throw err)
        {| store := objects; trace := calls ++ [EPut key content ct] |}
  | None =>
      Q (Ok tt)
        {| store := <[key := {| uploaded := UploadedDate (w_now w);
                                contentType := DeclaredString ct;
                                payload := content;
                                customMetadata := meta |}]> objects;
           trace := calls ++ [EPut key content ct] |}
  end ->
  wp (bucketPut w key content ct meta) {| store := objects; trace := calls |} Q.
Proof.
  unfold wp, bucketPut, bind, emit, throw. destruct (w_put w key content); exact id.
Qed.

Lemma wp_objectText w key obj objects calls Q :
  Q (w_text w key obj) {| store := objects; trace := calls ++ [EText key] |} ->
  wp (objectText w key obj) {| store := objects; trace := calls |} Q.
Proof. exact id. Qed.

Lemma wp_originFetch w target ua objects calls Q :
  Q (w_fetch w target ua)
    {| store := objects; trace := calls ++ [EFetch target ua] |} ->
  wp (originFetch w target ua) {| store := objects; trace := calls |} Q.
Proof. exact id. Qed.

Lemma wp_proxyFetch w objects calls Q :
  Q (w_proxy w) {| store := objects; trace := calls ++ [EProxy] |} ->
  wp (proxyFetch w) {| store := objects; trace := calls |} Q.
Proof. exact id. Qed.

Lemma wp_toMarkdown w name blob objects calls Q :
  Q (w_toMarkdown w name blob)
    {| store := objects; trace := calls ++ [EToMarkdown name blob] |} ->
  wp (toMarkdown w name blob) {| store := objects; trace := calls |} Q.
Proof. exact id. Qed.

(** The handlers on a request that takes the conversion path. *)
Lemma index_fetch_triggered w request pathname :
  decodedPath request = Some pathname ->
  IndexTs.triggered request pathname = true ->
  IndexTs.fetch w request =
  tryCatch (IndexTs.tryBlock w request pathname) (IndexTs.onUnhandled w).
Proof.
  unfold decodedPath, IndexTs.triggered, IndexTs.fetch. intros -> Ht.
  replace (negb (IndexTs.prefersMarkdownByPresence (req_accept request))
           && negb (JS.endsWith pathname (JS.lit ".md"))) with false
    by (rewrite <- negb_orb, Ht; reflexivity).
  unfold IndexTs.tryBlock, IndexTs.keyOf, IndexTs.targetOf, IndexTs.debugHeadersOf.
  destruct (IndexTs.keyAndSource _ _ _) as [key src]. reflexivity.
Qed.

Lemma final_fetch_triggered w request pathname :
  decodedPath request = Some pathname ->
  WorkerMdFinal.triggered pathname = true ->
  WorkerMdFinal.fetch w request =
  tryCatch (WorkerMdFinal.tryBlock w request pathname)
           (WorkerMdFinal.onUnhandled w (flagSet (req_url request) "debug")).
Proof.
  unfold decodedPath, WorkerMdFinal.triggered, WorkerMdFinal.fetch. intros -> ->.
  reflexivity.
Qed.

Lemma logs_fetch_triggered w request pathname :
  decodedPath request = Some pathname ->
  WorkerMdAcceptPresenceLogs.triggered request pathname = true ->
  WorkerMdAcceptPresenceLogs.fetch w request =
  tryCatch (WorkerMdAcceptPresenceLogs.tryBlock w request pathname)
           WorkerMdAcceptPresenceLogs.onUnhandled.
Proof.
  unfold decodedPath, WorkerMdAcceptPresenceLogs.triggered,
    WorkerMdAcceptPresenceLogs.fetch. intros -> Ht.
  replace (negb (WorkerMdAcceptPresenceLogs.prefersMarkdownByPresence (req_accept request))
           && negb (JS.endsWith pathname (JS.lit ".md"))) with false
    by (rewrite <- negb_orb, Ht; reflexivity).
  unfold WorkerMdAcceptPresenceLogs.tryBlock, WorkerMdAcceptPresenceLogs.keyOf,
    WorkerMdAcceptPresenceLogs.targetOf.
  destruct (WorkerMdAcceptPresenceLogs.keyAndSource _ _ _) as [key src]. reflexivity.
Qed.

End Rules.

(** One step of a run, and a run to its end. *)
Ltac wp_step :=
  lazymatch goal with
  | |- wp (bind _ _) _ _ => apply wp_bind
  | |- wp (ret _) _ _ => apply wp_ret
  | |- wp (throw _) _ _ => apply wp_throw
  | |- wp (tryCatch _ _) _ _ => apply wp_tryCatch
  | |- wp (emit _) _ _ => apply wp_emit
  | |- wp (respond _ _ _) _ _ => apply wp_respond; [reflexivity | reflexivity | ]
  | |- wp (bucketGet _ _) _ _ => apply wp_bucketGet
  | |- wp (bucketPut _ _ _ _ _) _ _ => apply wp_bucketPut
  | |- wp (objectText _ _ _) _ _ => apply wp_objectText
  | |- wp (originFetch _ _ _) _ _ => apply wp_originFetch
  | |- wp (proxyFetch _) _ _ => apply wp_proxyFetch
  | |- wp (toMarkdown _ _ _) _ _ => apply wp_toMarkdown
  | |- wp (liftRes _) _ _ => apply wp_liftRes
  | |- wp (if ?c then _ else _) _ _ => destruct c eqn:?
  | |- wp (match ?x with _ => _ end) _ _ => destruct x eqn:?
  | |- match ?x with _ => _ end => destruct x eqn:?
  | |- wp (WorkerMdFinal.logFound _ _) _ _ => unfold WorkerMdFinal.logFound
  end; cbv beta iota.

Ltac wp_steps := repeat wp_step.

(** From [m s = (out, s1) -> P out s1] to [wp m s P]. *)
Ltac wp_start Hrun :=
  match type of Hrun with
  | _ = (?out, ?s1) => pattern out, s1; eapply wp_run; [|exact Hrun]; clear Hrun
  end.

(** A request that neither trigger selects is handed to the origin. *)
Lemma index_fetch_passthrough `{Platform} w request pathname s :
  decodedPath request = Some pathname ->
  IndexTs.triggered request pathname = false ->
  trace (snd (IndexTs.fetch w request s)) = trace s ++ [EProxy].
Proof.
  intros Hd Ht. destruct s as [objects calls]. cbn [trace].
  change (wp (IndexTs.fetch w request) {| store := objects; trace := calls |}
            (fun _ s1 => trace s1 = calls ++ [EProxy])).
  unfold decodedPath, IndexTs.triggered, IndexTs.fetch in *. rewrite Hd.
  replace (negb (IndexTs.prefersMarkdownByPresence (req_accept request))
           && negb (JS.endsWith pathname (JS.lit ".md"))) with true
    by (rewrite <- negb_orb, Ht; reflexivity).
  wp_steps; reflexivity.
Qed.

(** The value of a header in a list written out name by name. *)
Ltac header_literal :=
  repeat rewrite headers_get_cons_other by reflexivity;
  apply headers_get_cons_same;
  [reflexivity | repeat rewrite headers_get_cons_other by reflexivity; reflexivity].

(** The value of a header after a series of [set]. *)
Ltac header_value :=
  cbn [headers];
  repeat match goal with |- context [if ?c then _ else _] => destruct c end;
  try apply withDefaultType_keeps;
  repeat rewrite headers_get_set_other by reflexivity;
  first [apply headers_get_set; reflexivity | header_literal].

(** ** The cache lookup *)

(** Membership in a trace that is known call by call. *)
Ltac in_trace H :=
  cbn [In trace store app] in H;
  repeat (destruct H as [H|H]; [try discriminate H|]);
  try contradiction.

Ltac trace_eq := cbn [trace store app]; try reflexivity; eauto.

Section CacheLookup.
Context `{Platform}.


Lemma lookup_after_put (objects : gmap jsstring R2Object) (k key : jsstring)
    (o : R2Object) :
  is_Some (objects !! key) -> is_Some (<[k := o]> objects !! key).
Proof.
  intros Hs. destruct (decide (k = key)) as [->|Hne].
  - rewrite lookup_insert_eq. eauto.
  - rewrite lookup_insert_ne by exact Hne. exact Hs.
Qed.

(** A valid object is served: the store is read twice, left as it was, and
    the body read from it is the body of the response. *)
Lemma index_hit (w : World) (request : Request) (pathname : jsstring)
    (objects : gmap jsstring R2Object) (obj : R2Object) (out : Res Response)
    (s1 : State) :
  decodedPath request = Some pathname ->
  IndexTs.triggered request pathname = true ->
  w_bucket w = true ->
  flagSet (req_url request) "refresh" = false ->
  w_get w (IndexTs.keyOf request pathname) = None ->
  objects !! IndexTs.keyOf request pathname = Some obj ->
  IndexTs.ageOk w obj && IndexTs.isMarkdownCT obj = true ->
  IndexTs.fetch w request (start objects) = (out, s1) ->
  servedFromStore (IndexTs.keyOf request pathname) s1
  /\ store s1 = objects
  /\ forall text, w_text w (IndexTs.keyOf request pathname) obj = Ok text ->
       exists resp, out = Ok resp /\ status resp = 200 /\ body resp = BodyText text.
Proof.
  intros Hd Ht Hb Hr Hget Hobj Hv Hrun.
  rewrite (index_fetch_triggered _ _ _ Hd Ht) in Hrun. wp_start Hrun.
  unfold IndexTs.tryBlock, IndexTs.guarded, IndexTs.cacheCheck, start.
  rewrite Hb, Hr. cbn [andb negb].
  apply wp_tryCatch, wp_bind, wp_bind, wp_bucketGet. rewrite Hget.
  cbv beta iota. rewrite Hobj, Hv.
  unfold IndexTs.onUnhandled.
  wp_steps.
  all: split; [reflexivity|]; split; [reflexivity|].
  all: intros text Et; try congruence.
  all: eexists; split; [reflexivity|]; split; [reflexivity|]; cbn [body]; congruence.
Qed.

(** An object that fails a check is not served: the next call fetches the
    source, and an object remains under the key. *)
Lemma index_miss (w : World) (request : Request) (pathname : jsstring)
    (objects : gmap jsstring R2Object) (obj : R2Object) (out : Res Response)
    (s1 : State) :
  decodedPath request = Some pathname ->
  IndexTs.triggered request pathname = true ->
  w_bucket w = true ->
  flagSet (req_url request) "refresh" = false ->
  w_get w (IndexTs.keyOf request pathname) = None ->
  objects !! IndexTs.keyOf request pathname = Some obj ->
  IndexTs.ageOk w obj && IndexTs.isMarkdownCT obj = false ->
  IndexTs.fetch w request (start objects) = (out, s1) ->
  regenerated (IndexTs.keyOf request pathname) (IndexTs.targetOf request pathname)
    (userAgent request) s1
  /\ (forall key, ~ In (EText key) (trace s1))
  /\ is_Some (store s1 !! IndexTs.keyOf request pathname)
  /\ exists resp, out = Ok resp.
Proof.
  intros Hd Ht Hb Hr Hget Hobj Hv Hrun.
  rewrite (index_fetch_triggered _ _ _ Hd Ht) in Hrun. wp_start Hrun.
  unfold IndexTs.tryBlock, IndexTs.guarded, IndexTs.cacheCheck, start.
  rewrite Hb, Hr. cbn [andb negb].
  apply wp_tryCatch, wp_bind, wp_bind, wp_bucketGet. rewrite Hget.
  cbv beta iota. rewrite Hobj, Hv.
  unfold IndexTs.convert, IndexTs.onUnhandled.
  wp_steps.
  all: split; [eexists; trace_eq|].
  all: split; [intros key Hin; in_trace Hin|].
  all: split; [cbn [store]; repeat apply lookup_after_put; rewrite Hobj; eauto|].
  all: eauto.
Qed.


(** worker-md-final.ts: an object that fails a check and whose upload date
    can be rendered is not served: the next call fetches the source. *)
Lemma final_miss (w : World) (request : Request) (pathname : jsstring)
    (objects : gmap jsstring R2Object) (obj : R2Object) (out : Res Response)
    (s1 : State) :
  decodedPath request = Some pathname ->
  WorkerMdFinal.triggered pathname = true ->
  w_bucket w = true ->
  flagSet (req_url request) "refresh" = false ->
  w_get w (WorkerMdFinal.keyOf pathname) = None ->
  objects !! WorkerMdFinal.keyOf pathname = Some obj ->
  uploaded obj <> UploadedInvalidDate ->
  WorkerMdFinal.isMarkdown obj && WorkerMdFinal.isFresh w obj = false ->
  WorkerMdFinal.fetch w request (start objects) = (out, s1) ->
  regenerated (WorkerMdFinal.keyOf pathname) (WorkerMdFinal.targetOf request pathname)
    (userAgent request) s1
  /\ forall key, ~ In (EText key) (trace s1).
Proof.
  intros Hd Ht Hb Hr Hget Hobj Hdate Ev Hrun.
  rewrite (final_fetch_triggered _ _ _ Hd Ht) in Hrun. wp_start Hrun.
  unfold WorkerMdFinal.tryBlock, WorkerMdFinal.guarded, WorkerMdFinal.cacheCheck,
    start.
  rewrite Hb, Hr. cbn [andb negb].
  apply wp_tryCatch, wp_bind, wp_bind, wp_bucketGet. rewrite Hget.
  cbv beta iota. rewrite Hobj. apply wp_bind. unfold WorkerMdFinal.logFound.
  destruct (uploaded obj) eqn:Eu; try congruence.
  all: apply wp_ret; rewrite Ev.
  all: unfold WorkerMdFinal.convert, WorkerMdFinal.onUnhandled.
  all: wp_steps.
  all: split; [eexists; trace_eq|].
  all: intros key Hin; in_trace Hin.
Qed.

(** worker-md-final.ts: an object whose upload date is an invalid Date stops
    the lookup.  The log call of line 84 throws, nothing is read or fetched
    after the lookup, and the catch block answers. *)
Lemma final_invalid_date (w : World) (request : Request) (pathname : jsstring)
    (objects : gmap jsstring R2Object) (obj : R2Object) (out : Res Response)
    (s1 : State) :
  decodedPath request = Some pathname ->
  WorkerMdFinal.triggered pathname = true ->
  w_bucket w = true ->
  flagSet (req_url request) "refresh" = false ->
  w_get w (WorkerMdFinal.keyOf pathname) = None ->
  objects !! WorkerMdFinal.keyOf pathname = Some obj ->
  uploaded obj = UploadedInvalidDate ->
  WorkerMdFinal.fetch w request (start objects) = (out, s1) ->
  trace s1 = [EGet (WorkerMdFinal.keyOf pathname)]
  /\ store s1 = objects
  /\ ((exists resp, out = Ok resp /\ status resp = 500)
      \/ (flagSet (req_url request) "debug" = true /\ out = Throw Headers.invalidValue))
  /\ (flagSet (req_url request) "debug" = false ->
      exists resp,
        out = Ok resp /\ status resp = 500
        /\ body resp
           = BodyText (JS.lit "Internal Server Error" ++ newline
                       ++ JS.lit "Request ID: " ++ w_reqId w ++ newline
                       ++ JS.lit "RangeError: Invalid time value")).
Proof.
  intros Hd Ht Hb Hr Hget Hobj Hdate Hrun.
  rewrite (final_fetch_triggered _ _ _ Hd Ht) in Hrun. wp_start Hrun.
  unfold WorkerMdFinal.tryBlock, WorkerMdFinal.guarded, WorkerMdFinal.cacheCheck,
    start.
  rewrite Hb, Hr. cbn [andb negb].
  apply wp_tryCatch, wp_bind, wp_bind, wp_bucketGet. rewrite Hget.
  cbv beta iota. rewrite Hobj. apply wp_bind. unfold WorkerMdFinal.logFound.
  rewrite Hdate. apply wp_throw.
  unfold WorkerMdFinal.onUnhandled, WorkerMdFinal.invalidTime,
    WorkerMdFinal.errorText, WorkerMdFinal.stackOf.
  destruct (flagSet (req_url request) "debug") eqn:Edebug.
  - apply wp_bind, wp_bind, wp_liftRes.
    change (Headers.set (JS.lit "X-Debug-Error")
              (JS.lit "RangeError" ++ JS.lit ": " ++ JS.lit "Invalid time value")
              [(JS.lit "Content-Type", JS.lit "text/plain; charset=utf-8");
               (JS.lit "X-Debug-Request-Id", w_reqId w)])
      with (Ok (Headers.put (JS.lit "X-Debug-Error")
                  (JS.lit "RangeError: Invalid time value")
                  [(JS.lit "Content-Type", JS.lit "text/plain; charset=utf-8");
                   (JS.lit "X-Debug-Request-Id", w_reqId w)])).
    cbv beta iota.
    wp_steps.
    all: try match goal with
             | E : Headers.set _ _ _ = Throw _ |- _ =>
                 apply headers_set_throw in E; subst
             end.
    all: cbn [trace store app].
    all: split; [reflexivity|]; split; [reflexivity|].
    all: split; [|discriminate].
    all: first [left; eexists; split; reflexivity | right; split; reflexivity].
  - wp_steps. cbn [trace store app].
    split; [reflexivity|]. split; [reflexivity|].
    split; [left|intros _]; eexists; repeat split; reflexivity.
Qed.

(** C10: the lookup of index.ts is total over malformed metadata, that of
    worker-md-final.ts is not.  In index.ts an object under the key whose
    upload time is missing, is not a Date or is an invalid Date, or whose
    content type is missing, is not served: the handler returns, reads no
    body from the store and fetches the source next.  worker-md-final.ts
    does the same for an object whose upload time is missing or is a valid
    Date; for an object that carries an invalid Date the log call of line 84
    throws, the lookup is the only call of the request, the store is left as
    it was, and the request is answered with status 500 (under [debug=1],
    or not answered when the stack of the error is no header value). *)
Theorem malformed_metadata_lookup (w : World) (request : Request)
    (pathname : jsstring) (objects : gmap jsstring R2Object) (obj : R2Object) :
  decodedPath request = Some pathname ->
  w_bucket w = true ->
  flagSet (req_url request) "refresh" = false ->
  (IndexTs.triggered request pathname = true ->
   w_get w (IndexTs.keyOf request pathname) = None ->
   objects !! IndexTs.keyOf request pathname = Some obj ->
   uploaded obj = UploadedNotDate \/ uploaded obj = UploadedInvalidDate
   \/ contentType obj = DeclaredAbsent ->
   let run := IndexTs.fetch w request (start objects) in
   (exists resp, fst run = Ok resp)
   /\ regenerated (IndexTs.keyOf request pathname) (IndexTs.targetOf request pathname)
        (userAgent request) (snd run)
   /\ forall key, ~ In (EText key) (trace (snd run)))
  /\ (WorkerMdFinal.triggered pathname = true ->
      w_get w (WorkerMdFinal.keyOf pathname) = None ->
      objects !! WorkerMdFinal.keyOf pathname = Some obj ->
      let run := WorkerMdFinal.fetch w request (start objects) in
      (uploaded obj <> UploadedInvalidDate ->
       uploaded obj = UploadedNotDate \/ contentType obj = DeclaredAbsent ->
       regenerated (WorkerMdFinal.keyOf pathname)
         (WorkerMdFinal.targetOf request pathname) (userAgent request) (snd run)
       /\ forall key, ~ In (EText key) (trace (snd run)))
      /\ (uploaded obj = UploadedInvalidDate ->
          trace (snd run) = [EGet (WorkerMdFinal.keyOf pathname)]
          /\ store (snd run) = objects
          /\ ((exists resp, fst run = Ok resp /\ status resp = 500)
              \/ (flagSet (req_url request) "debug" = true
                  /\ fst run = Throw Headers.invalidValue))
          /\ (flagSet (req_url request) "debug" = false ->
              exists resp,
                fst run = Ok resp /\ status resp = 500
                /\ body resp
                   = BodyText (JS.lit "Internal Server Error" ++ newline
                               ++ JS.lit "Request ID: " ++ w_reqId w ++ newline
                               ++ JS.lit "RangeError: Invalid time value")))).
Proof.
  intros Hd Hb Hr. split.
  - intros Ht Hget Hobj Hbad. cbv zeta.
    assert (Ev : IndexTs.ageOk w obj && IndexTs.isMarkdownCT obj = false).
    { unfold IndexTs.ageOk, IndexTs.isMarkdownCT, IndexTs.getTimeIfDate,
        IndexTs.contentTypeOrEmpty.
      destruct Hbad as [-> | [-> | ->]];
        [reflexivity | reflexivity | apply andb_false_r]. }
    destruct (index_miss w request pathname objects obj _ _ Hd Ht Hb Hr Hget Hobj Ev
                (surjective_pairing _)) as (Hre & Hnt & _ & Hok).
    auto.
  - intros Ht Hget Hobj. cbv zeta. split.
    + intros Hdate Hbad.
      assert (Ev : WorkerMdFinal.isMarkdown obj && WorkerMdFinal.isFresh w obj = false).
      { unfold WorkerMdFinal.isMarkdown, WorkerMdFinal.isFresh, WorkerMdFinal.ageMs,
          WorkerMdFinal.uploadedIfDate, WorkerMdFinal.contentTypeOrNull.
        destruct Hbad as [-> | ->]; [apply andb_false_r | reflexivity]. }
      exact (final_miss w request pathname objects obj _ _ Hd Ht Hb Hr Hget Hobj
               Hdate Ev (surjective_pairing _)).
    + intros Hdate.
      exact (final_invalid_date w request pathname objects obj _ _ Hd Ht Hb Hr Hget
               Hobj Hdate (surjective_pairing _)).
Qed.

End CacheLookup.


(** A run of C10: the object under [articles/foo.md] carries an invalid
    Date and no content type.  index.ts skips it and fetches the source;
    worker-md-final.ts makes no call after the lookup and answers 500. *)
Lemma malformed_metadata_lookup_run :
  let request := Toy.get "/articles/foo.md" [] None in
  let w := Toy.world "# Foo" in
  let objects : gmap jsstring R2Object := {[ JS.lit "articles/foo.md" := Toy.undated ]} in
  regenerated (JS.lit "articles/foo.md") (JS.lit "https://example.com/articles/foo")
    DEFAULT_USER_AGENT (snd (IndexTs.fetch w request (start objects)))
  /\ trace (snd (WorkerMdFinal.fetch w request (start objects)))
     = [EGet (JS.lit "articles/foo.md")]
  /\ exists resp,
       fst (WorkerMdFinal.fetch w request (start objects)) = Ok resp
       /\ status resp = 500
       /\ body resp
          = BodyText (JS.lit "Internal Server Error" ++ newline
                      ++ JS.lit "Request ID: " ++ w_reqId w ++ newline
                      ++ JS.lit "RangeError: Invalid time value").
Proof.
  cbv zeta.
  destruct (malformed_metadata_lookup (Toy.world "# Foo")
              (Toy.get "/articles/foo.md" [] None) (JS.lit "/articles/foo.md")
              {[ JS.lit "articles/foo.md" := Toy.undated ]} Toy.undated
              eq_refl eq_refl eq_refl)
    as [Hindex Hfinal].
  split.
  - apply Hindex;
      [reflexivity | reflexivity | apply lookup_singleton_eq | right; left; reflexivity].
  - destruct Hfinal as [_ Hinvalid];
      [reflexivity | reflexivity | apply lookup_singleton_eq |].
    destruct (Hinvalid eq_refl) as (Htrace & _ & _ & Hresp).
    split; [exact Htrace | exact (Hresp eq_refl)].
Defined.

(** ** The conversion *)

Lemma contains_middle (a x b : jsstring) : contains (a ++ x ++ b) x.
Proof. exists a, b. reflexivity. Qed.

Lemma contains_end (a x : jsstring) : contains (a ++ x) x.
Proof. exists a, []. rewrite app_nil_r. reflexivity. Qed.

(** The facts about the converter's answer on one path of a run. *)
Ltac converter_facts Hin Hor Hdata :=
  in_trace Hin; injection Hin as <- <-;
  match goal with
  | E : w_toMarkdown _ _ _ = _ |- _ => rewrite Hor in E; try discriminate E;
                                       injection E as E; subst
  end;
  cbn [ai_data] in Hdata; try discriminate Hdata;
  try (injection Hdata as Hdata; subst).

(** A literal is not the empty string. *)
Ltac literal_nonempty :=
  let Hn := fresh in intros Hn; vm_compute in Hn; discriminate Hn.

(** A key with a suffix is not the key. *)
Ltac other_key :=
  match goal with
  | E : _ ++ _ = _ |- _ => exfalso; revert E; apply app_ne_self; literal_nonempty
  | |- _ ++ _ <> _ => apply app_ne_self; literal_nonempty
  end.

(** The parts of [quarantined] on one path of a run. *)
Ltac quarantine_leaf :=
  unfold quarantined; cbn [store trace];
  split; [intros content ct Hin; in_trace Hin; injection Hin; intros; other_key|];
  split; [rewrite ?lookup_insert_ne by other_key; reflexivity|];
  split; [intros k ct Hin; in_trace Hin; injection Hin as <- <-; split; reflexivity|];
  split; [intros Hb; first [congruence | apply last_snoc]|];
  split;
    [intros Hb Hput;
     first [congruence
           | eexists; split; [apply lookup_insert_eq|]; split; reflexivity]|];
  split;
    [intros Hb k content ct Hin;
     first [congruence
           | rewrite Hb in *; rewrite ?andb_false_r in *;
             first [discriminate | in_trace Hin]]|];
  eexists; split; [reflexivity|]; split; [reflexivity|]; split; [reflexivity|];
  header_value.

Section Conversion.
Context `{Platform}.

Lemma looksLikeHtml_trimStart (markdown : jsstring) :
  JS.startsWith (JS.trim markdown) (JS.lit "<")
  = JS.startsWith (JS.trimStart markdown) (JS.lit "<").
Proof. apply trim_head. Qed.

(** index.ts: a conversion that looks like HTML is quarantined. *)
Lemma index_quarantine (w : World) (request : Request) (pathname : jsstring)
    (objects : gmap jsstring R2Object) (out : Res Response) (s1 : State)
    (name : jsstring) (blob : Blob) (entry : AiEntry) (markdown : jsstring) :
  decodedPath request = Some pathname ->
  IndexTs.triggered request pathname = true ->
  IndexTs.fetch w request (start objects) = (out, s1) ->
  In (EToMarkdown name blob) (trace s1) ->
  w_toMarkdown w name blob = Ok (AiArray (Some entry)) ->
  ai_data entry = Some markdown ->
  JS.startsWith (JS.trimStart markdown) (JS.lit "<") = true ->
  quarantined w (IndexTs.keyOf request pathname) markdown objects out s1.
Proof.
  intros Hd Ht Hrun. rewrite <- looksLikeHtml_trimStart.
  rewrite (index_fetch_triggered _ _ _ Hd Ht) in Hrun. wp_start Hrun.
  unfold IndexTs.tryBlock, IndexTs.guarded, IndexTs.cacheCheck, IndexTs.convert,
    IndexTs.onUnhandled, start.
  wp_steps.
  all: intros Hin Hor Hdata Htrim.
  all: converter_facts Hin Hor Hdata.
  all: try congruence.
  all: quarantine_leaf.
Qed.

(** worker-md-accept-presence-logs.ts: the same. *)
Lemma logs_quarantine (w : World) (request : Request) (pathname : jsstring)
    (objects : gmap jsstring R2Object) (out : Res Response) (s1 : State)
    (name : jsstring) (blob : Blob) (entry : AiEntry) (markdown : jsstring) :
  decodedPath request = Some pathname ->
  WorkerMdAcceptPresenceLogs.triggered request pathname = true ->
  WorkerMdAcceptPresenceLogs.fetch w request (start objects) = (out, s1) ->
  In (EToMarkdown name blob) (trace s1) ->
  w_toMarkdown w name blob = Ok (AiArray (Some entry)) ->
  ai_data entry = Some markdown ->
  JS.startsWith (JS.trimStart markdown) (JS.lit "<") = true ->
  quarantined w (WorkerMdAcceptPresenceLogs.keyOf request pathname) markdown objects
    out s1.
Proof.
  intros Hd Ht Hrun. rewrite <- looksLikeHtml_trimStart.
  rewrite (logs_fetch_triggered _ _ _ Hd Ht) in Hrun. wp_start Hrun.
  unfold WorkerMdAcceptPresenceLogs.tryBlock, WorkerMdAcceptPresenceLogs.guarded,
    WorkerMdAcceptPresenceLogs.cacheCheck, WorkerMdAcceptPresenceLogs.convert,
    WorkerMdAcceptPresenceLogs.onUnhandled, start.
  wp_steps.
  all: intros Hin Hor Hdata Htrim.
  all: converter_facts Hin Hor Hdata.
  all: try congruence.
  all: quarantine_leaf.
Qed.

(** worker-md-final.ts: the same. *)
Lemma final_quarantine (w : World) (request : Request) (pathname : jsstring)
    (objects : gmap jsstring R2Object) (out : Res Response) (s1 : State)
    (name : jsstring) (blob : Blob) (entry : AiEntry) (markdown : jsstring) :
  decodedPath request = Some pathname ->
  WorkerMdFinal.triggered pathname = true ->
  WorkerMdFinal.fetch w request (start objects) = (out, s1) ->
  In (EToMarkdown name blob) (trace s1) ->
  w_toMarkdown w name blob = Ok (AiArray (Some entry)) ->
  ai_data entry = Some markdown ->
  JS.startsWith (JS.trimStart markdown) (JS.lit "<") = true ->
  quarantined w (WorkerMdFinal.keyOf pathname) markdown objects out s1.
Proof.
  intros Hd Ht Hrun. rewrite <- looksLikeHtml_trimStart.
  rewrite (final_fetch_triggered _ _ _ Hd Ht) in Hrun. wp_start Hrun.
  unfold WorkerMdFinal.tryBlock, WorkerMdFinal.guarded, WorkerMdFinal.cacheCheck,
    WorkerMdFinal.convert, WorkerMdFinal.onUnhandled, start.
  wp_steps.
  all: intros Hin Hor Hdata Htrim.
  all: converter_facts Hin Hor Hdata.
  all: try congruence.
  all: quarantine_leaf.
Qed.

(** C1: whenever the converter is called and returns a text that, with its
    leading white space trimmed, begins with [<], no variant writes to the
    key, and the object under it is what it was.  The text is written under
    the key with [.ai-failed.txt] appended, as plain text, and nowhere else:
    with a store bound that write is the last call of the request, and when
    it goes through the store holds the text under that key as plain text;
    without a store nothing is written.  The response has status 200, the
    text as its body and the content type [text/plain; charset=utf-8]. *)
Theorem suspect_output_is_quarantined (w : World) (request : Request)
    (pathname : jsstring) (objects : gmap jsstring R2Object)
    (name : jsstring) (blob : Blob) (entry : AiEntry) (markdown : jsstring) :
  decodedPath request = Some pathname ->
  w_toMarkdown w name blob = Ok (AiArray (Some entry)) ->
  ai_data entry = Some markdown ->
  JS.startsWith (JS.trimStart markdown) (JS.lit "<") = true ->
  (IndexTs.triggered request pathname = true ->
   let run := IndexTs.fetch w request (start objects) in
   In (EToMarkdown name blob) (trace (snd run)) ->
   quarantined w (IndexTs.keyOf request pathname) markdown objects (fst run) (snd run))
  /\ (WorkerMdAcceptPresenceLogs.triggered request pathname = true ->
      let run := WorkerMdAcceptPresenceLogs.fetch w request (start objects) in
      In (EToMarkdown name blob) (trace (snd run)) ->
      quarantined w (WorkerMdAcceptPresenceLogs.keyOf request pathname) markdown
        objects (fst run) (snd run))
  /\ (WorkerMdFinal.triggered pathname = true ->
      let run := WorkerMdFinal.fetch w request (start objects) in
      In (EToMarkdown name blob) (trace (snd run)) ->
      quarantined w (WorkerMdFinal.keyOf pathname) markdown objects (fst run)
        (snd run)).
Proof.
  intros Hd Hor Hdata Htrim. split; [|split]; intros Ht run Hin.
  - exact (index_quarantine _ _ _ _ _ _ _ _ _ _ Hd Ht (surjective_pairing _)
             Hin Hor Hdata Htrim).
  - exact (logs_quarantine _ _ _ _ _ _ _ _ _ _ Hd Ht (surjective_pairing _)
             Hin Hor Hdata Htrim).
  - exact (final_quarantine _ _ _ _ _ _ _ _ _ _ Hd Ht (surjective_pairing _)
             Hin Hor Hdata Htrim).
Qed.

End Conversion.

(** A run of C1 (scenario D): the converter echoes the page.  In each of the
    three variants the text is quarantined: the key [articles/foo.md] stays
    empty and the text is held under [articles/foo.md.ai-failed.txt]. *)
Lemma suspect_output_is_quarantined_run :
  let request := Toy.get "/articles/foo.md" [] None in
  let w := Toy.world "<html>...</html>" in
  let key := JS.lit "articles/foo.md" in
  let text := JS.lit "<html>...</html>" in
  let index := IndexTs.fetch w request (start ∅) in
  let logs := WorkerMdAcceptPresenceLogs.fetch w request (start ∅) in
  let final := WorkerMdFinal.fetch w request (start ∅) in
  (quarantined w key text ∅ (fst index) (snd index)
   /\ quarantined w key text ∅ (fst logs) (snd logs)
   /\ quarantined w key text ∅ (fst final) (snd final))
  /\ store (snd index) !! key = None
  /\ store (snd logs) !! key = None
  /\ store (snd final) !! key = None
  /\ is_Some (store (snd index) !! JS.lit "articles/foo.md.ai-failed.txt")
  /\ is_Some (store (snd logs) !! JS.lit "articles/foo.md.ai-failed.txt")
  /\ is_Some (store (snd final) !! JS.lit "articles/foo.md.ai-failed.txt").
Proof.
  cbv zeta. split; [|repeat split; vm_compute; eauto].
  pose proof (suspect_output_is_quarantined (Toy.world "<html>...</html>")
                (Toy.get "/articles/foo.md" [] None) (JS.lit "/articles/foo.md")
                ∅ (JS.lit "foo") (newBlob Toy.htmlPage (JS.lit "text/html"))
                (Toy.entry "<html>...</html>") (JS.lit "<html>...</html>")
                eq_refl eq_refl eq_refl eq_refl) as (Hindex & Hlogs & Hfinal).
  cbv zeta in Hindex, Hlogs, Hfinal.
  split; [|split].
  - apply Hindex; [reflexivity|]. vm_compute. auto 10.
  - apply Hlogs; [reflexivity|]. vm_compute. auto 10.
  - apply Hfinal; [reflexivity|]. vm_compute. auto 10.
Defined.

(** ** Failures of the origin and of the store *)

Section Failures.
Context `{Platform}.

(** C7: when the fetch of the source answers with a status outside 200..299,
    the response has status 502 and its body holds the status of the origin
    and its status text; the source is fetched once, and the store is left
    as it was. *)
Theorem upstream_failure_is_502 (w : World) (request : Request) (pathname : jsstring)
    (objects : gmap jsstring R2Object) (out : Res Response) (s1 : State)
    (target ua : jsstring) (upstream : Fetched) :
  decodedPath request = Some pathname ->
  IndexTs.triggered request pathname = true ->
  IndexTs.fetch w request (start objects) = (out, s1) ->
  In (EFetch target ua) (trace s1) ->
  w_fetch w target ua = Ok upstream ->
  ok upstream = false ->
  (exists resp text,
     out = Ok resp /\ status resp = 502 /\ body resp = BodyText text
     /\ text = JS.lit "Upstream fetch failed: " ++ JS.numberToString (f_status upstream)
               ++ JS.lit " " ++ f_statusText upstream
     /\ contains text (JS.numberToString (f_status upstream))
     /\ contains text (f_statusText upstream))
  /\ length (List.filter isFetch (trace s1)) = 1%nat
  /\ store s1 = objects.
Proof.
  intros Hd Ht Hrun.
  rewrite (index_fetch_triggered _ _ _ Hd Ht) in Hrun. wp_start Hrun.
  unfold IndexTs.tryBlock, IndexTs.guarded, IndexTs.cacheCheck, IndexTs.convert,
    IndexTs.onUnhandled, start.
  wp_steps.
  all: intros Hin Hor Hok.
  all: in_trace Hin; injection Hin as <- <-.
  all: match goal with
       | E : w_fetch _ _ _ = _ |- _ =>
           rewrite Hor in E; try discriminate E; injection E as <-
       end.
  all: match goal with
       | E : negb (ok _) = _ |- _ => rewrite Hok in E; try discriminate E
       end.
  all: split; [|split; reflexivity].
  all: eexists; eexists; split; [reflexivity|]; split; [reflexivity|];
       split; [reflexivity|]; split; [reflexivity|]; split.
  all: first [apply contains_middle
             | rewrite !app_assoc; apply contains_end].
Qed.

(** index.ts: a genuine conversion is delivered with status 200, whether or
    not the write to the store goes through. *)
Lemma index_delivers (w : World) (request : Request) (pathname : jsstring)
    (objects : gmap jsstring R2Object) (out : Res Response) (s1 : State)
    (name : jsstring) (blob : Blob) (entry : AiEntry) (markdown : jsstring) :
  decodedPath request = Some pathname ->
  IndexTs.triggered request pathname = true ->
  IndexTs.fetch w request (start objects) = (out, s1) ->
  In (EToMarkdown name blob) (trace s1) ->
  w_toMarkdown w name blob = Ok (AiArray (Some entry)) ->
  ai_data entry = Some markdown ->
  JS.startsWith (JS.trimStart markdown) (JS.lit "<") = false ->
  delivered markdown out.
Proof.
  intros Hd Ht Hrun. rewrite <- looksLikeHtml_trimStart.
  rewrite (index_fetch_triggered _ _ _ Hd Ht) in Hrun. wp_start Hrun.
  unfold IndexTs.tryBlock, IndexTs.guarded, IndexTs.cacheCheck, IndexTs.convert,
    IndexTs.onUnhandled, start.
  wp_steps.
  all: intros Hin Hor Hdata Htrim.
  all: converter_facts Hin Hor Hdata.
  all: try congruence.
  all: eexists; split; [reflexivity|]; split; [reflexivity|]; split; [reflexivity|].
  all: header_value.
Qed.

(** worker-md-final.ts: the same. *)
Lemma final_delivers (w : World) (request : Request) (pathname : jsstring)
    (objects : gmap jsstring R2Object) (out : Res Response) (s1 : State)
    (name : jsstring) (blob : Blob) (entry : AiEntry) (markdown : jsstring) :
  decodedPath request = Some pathname ->
  WorkerMdFinal.triggered pathname = true ->
  WorkerMdFinal.fetch w request (start objects) = (out, s1) ->
  In (EToMarkdown name blob) (trace s1) ->
  w_toMarkdown w name blob = Ok (AiArray (Some entry)) ->
  ai_data entry = Some markdown ->
  JS.startsWith (JS.trimStart markdown) (JS.lit "<") = false ->
  delivered markdown out.
Proof.
  intros Hd Ht Hrun. rewrite <- looksLikeHtml_trimStart.
  rewrite (final_fetch_triggered _ _ _ Hd Ht) in Hrun. wp_start Hrun.
  unfold WorkerMdFinal.tryBlock, WorkerMdFinal.guarded, WorkerMdFinal.cacheCheck,
    WorkerMdFinal.convert, WorkerMdFinal.onUnhandled, start.
  wp_steps.
  all: intros Hin Hor Hdata Htrim.
  all: converter_facts Hin Hor Hdata.
  all: try congruence.
  all: eexists; split; [reflexivity|]; split; [reflexivity|]; split; [reflexivity|].
  all: header_value.
Qed.

End Failures.

(** C5 fails in worker-md-accept-presence-logs.ts: the page converts to
    genuine markdown and the write to the key fails; the logging variant
    answers 500 with the text of the error, while index.ts and
    worker-md-final.ts deliver the markdown with status 200. *)
Theorem logs_write_failure_is_fatal :
  let request := Toy.get "/articles/foo.md" [] None in
  let w := Toy.worldPutFails "# Foo" in
  (exists resp,
     fst (WorkerMdAcceptPresenceLogs.fetch w request (start ∅)) = Ok resp
     /\ status resp = 500
     /\ body resp = BodyText (JS.lit "Error: put failed"))
  /\ delivered (JS.lit "# Foo") (fst (IndexTs.fetch w request (start ∅)))
  /\ delivered (JS.lit "# Foo") (fst (WorkerMdFinal.fetch w request (start ∅))).
Proof.
  cbv zeta. split; [|split].
  - eexists. split; [vm_compute; reflexivity|]. split; reflexivity.
  - eexists. split; [vm_compute; reflexivity|]. repeat split; vm_compute; reflexivity.
  - eexists. split; [vm_compute; reflexivity|]. repeat split; vm_compute; reflexivity.
Qed.

(** A run of C7 (scenario C): the origin answers 404 and the response is a
    502 whose body mentions 404. *)
Lemma upstream_failure_is_502_run :
  let request := Toy.get "/articles/foo.md" [] None in
  let run := IndexTs.fetch Toy.worldOrigin404 request (start ∅) in
  exists resp,
    fst run = Ok resp /\ status resp = 502
    /\ body resp = BodyText (JS.lit "Upstream fetch failed: 404 Not Found")
    /\ contains (JS.lit "Upstream fetch failed: 404 Not Found") (JS.lit "404").
Proof.
  cbv zeta.
  set (request := Toy.get "/articles/foo.md" [] None).
  set (run := IndexTs.fetch Toy.worldOrigin404 request (start ∅)).
  assert (Hin : In (EFetch (JS.lit "https://example.com/articles/foo") DEFAULT_USER_AGENT)
                   (trace (snd run))) by (vm_compute; auto).
  destruct (upstream_failure_is_502 Toy.worldOrigin404 request
              (JS.lit "/articles/foo.md") ∅ (fst run) (snd run)
              (JS.lit "https://example.com/articles/foo") DEFAULT_USER_AGENT
              {| f_status := 404; f_statusText := JS.lit "Not Found"; f_headers := [];
                 f_body := Ok [] |}
              eq_refl eq_refl (surjective_pairing _) Hin eq_refl eq_refl)
    as [(resp & text & Hout & Hst & Hbody & Htext & Hnum & _) _].
  exists resp. rewrite Htext in Hbody, Hnum. auto.
Defined.

(** ** Faults and the content type of a hit *)

Section Faults.
Context `{Platform}.

(** C6, as index.ts and worker-md-final.ts have it.  A path that does not
    percent-decode makes the handler throw before its try block is entered.
    For a request on the conversion path whose path decodes, index.ts
    always returns a response; when its try block throws, the response has
    status 500, its body holds the correlation id and the text of the
    error, and its headers are the correlation id and the plain-text content
    type: no stack is attached.  worker-md-final.ts returns what its try
    block returns; when the try block throws and [debug=1] is not given, or
    the text of the error and the head of its stack are header values, it
    answers with status 500 and a body that holds the correlation id and
    the text of the error, and the head of the stack is attached, as
    X-Debug-Stack, only under [debug=1]. *)
Theorem unhandled_fault_is_500 (w : World) (request : Request) (s : State) :
  (decodedPath request = None ->
   IndexTs.fetch w request s = (Throw URIError_malformed, s)
   /\ WorkerMdFinal.fetch w request s = (Throw URIError_malformed, s))
  /\ (forall pathname,
        decodedPath request = Some pathname ->
        IndexTs.triggered request pathname = true ->
        exists resp s1,
          IndexTs.fetch w request s = (Ok resp, s1)
          /\ forall err s',
               IndexTs.tryBlock w request pathname s = (Throw err, s') ->
               s1 = s' /\ status resp = 500
               /\ (exists text, body resp = BodyText text /\ contains text (w_reqId w))
               /\ body resp
                  = BodyText (JS.lit "Internal Server Error" ++ newline
                              ++ JS.lit "Request ID: " ++ w_reqId w ++ newline
                              ++ String_of_thrown err)
               /\ headers resp
                  = [(JS.lit "X-Debug-Request-Id", w_reqId w);
                     (JS.lit "Content-Type", JS.lit "text/plain; charset=utf-8")])
  /\ (forall pathname,
        decodedPath request = Some pathname ->
        WorkerMdFinal.triggered pathname = true ->
        let debug := flagSet (req_url request) "debug" in
        let run := WorkerMdFinal.fetch w request s in
        (forall resp s',
           WorkerMdFinal.tryBlock w request pathname s = (Ok resp, s') ->
           run = (Ok resp, s'))
        /\ forall err s',
             WorkerMdFinal.tryBlock w request pathname s = (Throw err, s') ->
             let emsg := WorkerMdFinal.errorText err in
             let stack := WorkerMdFinal.stackHead <$> WorkerMdFinal.stackOf err in
             let valid :=
               Headers.isValue (Headers.normalize emsg)
               && from_option (fun text => Headers.isValue (Headers.normalize text))
                    true stack in
             snd run = s'
             /\ (debug = false \/ valid = true ->
                 exists resp,
                   fst run = Ok resp /\ status resp = 500
                   /\ (exists text,
                         body resp = BodyText text /\ contains text (w_reqId w))
                   /\ body resp
                      = BodyText (JS.lit "Internal Server Error" ++ newline
                                  ++ JS.lit "Request ID: " ++ w_reqId w ++ newline
                                  ++ emsg)
                   /\ header resp "X-Debug-Request-Id" = Some (w_reqId w)
                   /\ header resp "X-Debug-Stack"
                      = (if debug then Headers.normalize <$> stack else None))).
Proof.
  split; [|split].
  - unfold decodedPath, IndexTs.fetch, WorkerMdFinal.fetch. intros ->.
    split; reflexivity.
  - intros pathname Hd Ht. rewrite (index_fetch_triggered _ _ _ Hd Ht).
    unfold tryCatch.
    destruct (IndexTs.tryBlock w request pathname s) as [[r|err] s'].
    + exists r, s'. split; [reflexivity|]. intros ? ? ?. discriminate.
    + eexists _, s'. split; [reflexivity|].
      intros err0 s0 E. injection E as <- <-.
      split; [reflexivity|]. split; [reflexivity|]. split; [|split; reflexivity].
      eexists. split; [reflexivity|].
      exists (JS.lit "Internal Server Error" ++ newline ++ JS.lit "Request ID: "),
             (newline ++ String_of_thrown err).
      rewrite <- !app_assoc. reflexivity.
  - intros pathname Hd Ht. cbv zeta.
    rewrite (final_fetch_triggered _ _ _ Hd Ht). unfold tryCatch.
    split; [intros resp s' ->; reflexivity|].
    intros err s' ->.
    unfold WorkerMdFinal.onUnhandled, bind, liftRes, ret, respond, newResponse,
      Headers.set, header.
    cbn [negb andb N.leb isNullBodyStatus].
    destruct (flagSet (req_url request) "debug").
    + destruct (Headers.isValue (Headers.normalize (WorkerMdFinal.errorText err)));
        [|split; [reflexivity|]; intros [Hc|Hc]; discriminate Hc].
      destruct (WorkerMdFinal.stackOf err) as [stack|]; cbn [fmap option_fmap option_map from_option andb].
      * destruct (Headers.isValue (Headers.normalize (WorkerMdFinal.stackHead stack)));
          [|split; [reflexivity|]; intros [Hc|Hc]; discriminate Hc].
        split; [reflexivity|]. intros _. eexists. split; [reflexivity|].
        split; [reflexivity|]. split; [|split; [reflexivity|split; reflexivity]].
        eexists. split; [reflexivity|].
        eexists (JS.lit "Internal Server Error" ++ newline ++ JS.lit "Request ID: "), _.
        rewrite <- !app_assoc. reflexivity.
      * split; [reflexivity|]. intros _. eexists. split; [reflexivity|].
        split; [reflexivity|]. split; [|split; [reflexivity|split; reflexivity]].
        eexists. split; [reflexivity|].
        eexists (JS.lit "Internal Server Error" ++ newline ++ JS.lit "Request ID: "), _.
        rewrite <- !app_assoc. reflexivity.
    + split; [reflexivity|]. intros _. eexists. split; [reflexivity|].
      split; [reflexivity|]. split; [|split; [reflexivity|split; reflexivity]].
      eexists. split; [reflexivity|].
      eexists (JS.lit "Internal Server Error" ++ newline ++ JS.lit "Request ID: "), _.
      rewrite <- !app_assoc. reflexivity.
Qed.

(** worker-md-final.ts under [debug=1]: when the text of the error, or the
    head of its stack, is no header value, the catch block throws and the
    request is not answered. *)
Lemma final_catch_throws (w : World) (request : Request) (pathname : jsstring)
    (s s' : State) (err : Thrown) :
  decodedPath request = Some pathname ->
  WorkerMdFinal.triggered pathname = true ->
  flagSet (req_url request) "debug" = true ->
  WorkerMdFinal.tryBlock w request pathname s = (Throw err, s') ->
  Headers.isValue (Headers.normalize (WorkerMdFinal.errorText err))
  && from_option (fun text => Headers.isValue (Headers.normalize text)) true
       (WorkerMdFinal.stackHead <$> WorkerMdFinal.stackOf err) = false ->
  WorkerMdFinal.fetch w request s = (Throw Headers.invalidValue, s').
Proof.
  intros Hd Ht Hdebug Hrun.
  rewrite (final_fetch_triggered _ _ _ Hd Ht). unfold tryCatch. rewrite Hrun, Hdebug.
  unfold WorkerMdFinal.onUnhandled, bind, liftRes, ret, respond, Headers.set.
  destruct (Headers.isValue (Headers.normalize (WorkerMdFinal.errorText err)));
    [|reflexivity].
  destruct (WorkerMdFinal.stackOf err) as [stack|];
    cbn [fmap option_fmap option_map from_option andb]; [|discriminate].
  intros ->. reflexivity.
Qed.

(** Every hit of index.ts that is answered with status 200 carries the
    content type that the Response constructor gives to a string body, not
    the markdown one: no branch of the hit sets the header. *)
Lemma index_hit_content_type (w : World) (request : Request) (pathname : jsstring)
    (objects : gmap jsstring R2Object) (obj : R2Object) (out : Res Response)
    (s1 : State) :
  decodedPath request = Some pathname ->
  IndexTs.triggered request pathname = true ->
  w_bucket w = true ->
  flagSet (req_url request) "refresh" = false ->
  w_get w (IndexTs.keyOf request pathname) = None ->
  objects !! IndexTs.keyOf request pathname = Some obj ->
  IndexTs.ageOk w obj && IndexTs.isMarkdownCT obj = true ->
  IndexTs.fetch w request (start objects) = (out, s1) ->
  forall resp, out = Ok resp -> status resp = 200 ->
    Headers.get (headers resp) (JS.lit "Content-Type")
    = Some (JS.lit "text/plain;charset=UTF-8").
Proof.
  intros Hd Ht Hb Hr Hget Hobj Hv Hrun.
  rewrite (index_fetch_triggered _ _ _ Hd Ht) in Hrun. wp_start Hrun.
  unfold IndexTs.tryBlock, IndexTs.guarded, IndexTs.cacheCheck, start.
  rewrite Hb, Hr. cbn [andb negb].
  apply wp_tryCatch, wp_bind, wp_bind, wp_bucketGet. rewrite Hget.
  cbv beta iota. rewrite Hobj, Hv.
  unfold IndexTs.onUnhandled, IndexTs.debugHeadersOf.
  wp_steps.
  all: intros resp E Hst; injection E as <-; cbn [status] in Hst; try discriminate Hst.
  all: cbn [headers]; destruct (flagSet (req_url request) "debug"); reflexivity.
Qed.

End Faults.

(** C6 fails as stated: the path [/%.md] does not percent-decode, and every
    variant throws the URIError instead of answering 500; the request is on
    the conversion path by its Accept header. *)
Lemma percent_decoding_error_escapes :
  let request := Toy.get "/%.md" [] (Some "text/markdown"%string) in
  let w := Toy.world "# Foo" in
  decodedPath request = None
  /\ IndexTs.prefersMarkdownByPresence (req_accept request) = true
  /\ IndexTs.fetch w request (start ∅) = (Throw URIError_malformed, start ∅)
  /\ WorkerMdAcceptPresenceLogs.fetch w request (start ∅)
     = (Throw URIError_malformed, start ∅)
  /\ WorkerMdFinal.fetch w request (start ∅) = (Throw URIError_malformed, start ∅).
Proof. cbv zeta. repeat split. Qed.

(** A fault inside the try block: the origin cannot be reached.  index.ts
    answers 500 with the correlation id in the body; the logging variant
    answers 500 with the text of the error alone. *)
Example unreachable_origin_run :
  let request := Toy.get "/articles/foo.md" [] None in
  let w := Toy.worldFetchThrows in
  (exists resp,
     fst (IndexTs.fetch w request (start ∅)) = Ok resp /\ status resp = 500
     /\ body resp
        = BodyText (JS.lit "Internal Server Error" ++ newline
                    ++ JS.lit "Request ID: req-1" ++ newline
                    ++ JS.lit "TypeError: fetch failed"))
  /\ (exists resp,
        fst (WorkerMdAcceptPresenceLogs.fetch w request (start ∅)) = Ok resp
        /\ status resp = 500
        /\ body resp = BodyText (JS.lit "TypeError: fetch failed")).
Proof.
  cbv zeta. split; eexists; (split; [vm_compute; reflexivity|]); split; reflexivity.
Qed.

(** C9 fails in index.ts: a fresh markdown object under the key is served
    with status 200 and the content type [text/plain;charset=UTF-8], the one
    the Response constructor gives to a string body; the other two variants
    serve the same object as [text/markdown; charset=utf-8], and so does
    index.ts on a miss. *)
Theorem index_cache_hit_content_type :
  let request := Toy.get "/articles/foo.md" [] None in
  let w := Toy.world "# Foo" in
  let objects : gmap jsstring R2Object :=
    {[ JS.lit "articles/foo.md" := Toy.cached "# Old" dayMs ]} in
  (exists resp,
     fst (IndexTs.fetch w request (start objects)) = Ok resp
     /\ status resp = 200 /\ body resp = BodyText (JS.lit "# Old")
     /\ header resp "X-Cache" = Some (JS.lit "r2")
     /\ header resp "Content-Type" = Some (JS.lit "text/plain;charset=UTF-8"))
  /\ (exists resp,
        fst (WorkerMdFinal.fetch w request (start objects)) = Ok resp
        /\ status resp = 200 /\ body resp = BodyText (JS.lit "# Old")
        /\ header resp "Content-Type" = Some (JS.lit "text/markdown; charset=utf-8"))
  /\ (exists resp,
        fst (WorkerMdAcceptPresenceLogs.fetch w request (start objects)) = Ok resp
        /\ status resp = 200 /\ body resp = BodyText (JS.lit "# Old")
        /\ header resp "Content-Type" = Some (JS.lit "text/markdown; charset=utf-8"))
  /\ (exists resp,
        fst (IndexTs.fetch w request (start ∅)) = Ok resp
        /\ status resp = 200 /\ body resp = BodyText (JS.lit "# Foo")
        /\ header resp "Content-Type" = Some (JS.lit "text/markdown; charset=utf-8")).
Proof.
  cbv zeta. repeat split.
  all: eexists; (split; [vm_compute; reflexivity|]); repeat split.
Qed.

(** ** The scenarios of the specification *)

(** Scenario A: [/articles/foo.md], nothing cached, the origin answers with a
    page and the converter with markdown: 200, markdown, and the object is
    stored under [articles/foo.md]. *)
Example scenario_A :
  let run := IndexTs.fetch (Toy.world "# Foo") (Toy.get "/articles/foo.md" [] None)
               (start ∅) in
  delivered (JS.lit "# Foo") (fst run)
  /\ payload <$> (store (snd run) !! JS.lit "articles/foo.md")
     = Some (BodyText (JS.lit "# Foo"))
  /\ map isFetch (trace (snd run)) = [false; true; false; false].
Proof.
  cbv zeta. split; [eexists; split; [vm_compute; reflexivity|]|]; repeat split.
Qed.

(** Scenario B: the same request again, within 90 days: served from the
    store, and the origin is not fetched. *)
Example scenario_B :
  let request := Toy.get "/articles/foo.md" [] None in
  let first := IndexTs.fetch (Toy.world "# Foo") request (start ∅) in
  let again := IndexTs.fetch (Toy.world "# Foo") request (start (store (snd first))) in
  servedFromStore (JS.lit "articles/foo.md") (snd again)
  /\ bodyText <$> (match fst again with Ok r => Some r | Throw _ => None end)
     = Some (Some (JS.lit "# Foo")).
Proof. cbv zeta. split; vm_compute; reflexivity. Qed.

(** Scenario C: the origin answers 404: the response is 502 and its body
    mentions 404.  No content type is set on this branch, so the response
    carries the one the Response constructor gives to a string body. *)
Example scenario_C :
  let run := IndexTs.fetch Toy.worldOrigin404 (Toy.get "/articles/foo.md" [] None)
               (start ∅) in
  exists resp,
    fst run = Ok resp /\ status resp = 502
    /\ bodyText resp = Some (JS.lit "Upstream fetch failed: 404 Not Found")
    /\ header resp "Content-Type" = Some (JS.lit "text/plain;charset=UTF-8")
    /\ store (snd run) = ∅.
Proof. cbv zeta. eexists. split; [vm_compute; reflexivity|]. repeat split. Qed.

(** Scenario D: the converter returns a page: 200 as plain text, the text
    stored under [articles/foo.md.ai-failed.txt] and nothing under
    [articles/foo.md]. *)
Example scenario_D :
  let page := "<html>...</html>"%string in
  let run := IndexTs.fetch (Toy.world page) (Toy.get "/articles/foo.md" [] None)
               (start ∅) in
  (exists resp,
     fst run = Ok resp /\ status resp = 200
     /\ bodyText resp = Some (JS.lit page)
     /\ header resp "Content-Type" = Some (JS.lit "text/plain; charset=utf-8"))
  /\ payload <$> (store (snd run) !! JS.lit "articles/foo.md.ai-failed.txt")
     = Some (BodyText (JS.lit page))
  /\ store (snd run) !! JS.lit "articles/foo.md" = None.
Proof.
  cbv zeta. split; [eexists; split; [vm_compute; reflexivity|]|]; repeat split.
Qed.

(** Scenario E: [Accept: text/plain] on the path [/]: the object is stored
    under [index.md]. *)
Example scenario_E :
  let run := IndexTs.fetch (Toy.world "# Home")
               (Toy.get "/" [] (Some "text/plain"%string)) (start ∅) in
  delivered (JS.lit "# Home") (fst run)
  /\ payload <$> (store (snd run) !! JS.lit "index.md")
     = Some (BodyText (JS.lit "# Home")).
Proof.
  cbv zeta. split; [eexists; split; [vm_compute; reflexivity|]|]; repeat split.
Qed.

(** ** Splitting, joining and the strings derived from a URL *)

Lemma split_nonempty (sep : N) (s : jsstring) : JS.split sep s <> [].
Proof.
  destruct s as [|c s]; simpl; [discriminate|].
  destruct (c =? sep); [discriminate|]. destruct (JS.split sep s); discriminate.
Qed.

Lemma split_app (sep : N) (x y : jsstring) :
  JS.split sep (x ++ sep :: y) = JS.split sep x ++ JS.split sep y.
Proof.
  induction x as [|c x IH]; simpl.
  - rewrite N.eqb_refl. reflexivity.
  - destruct (c =? sep); [rewrite IH; reflexivity|].
    rewrite IH. pose proof (split_nonempty sep x) as Hn.
    destruct (JS.split sep x) as [|p ps]; [contradiction|]. reflexivity.
Qed.

Lemma split_without (sep : N) (s : jsstring) :
  without sep s -> JS.split sep s = [s].
Proof.
  unfold without. induction s as [|c s IH]; simpl; [reflexivity|]. intros Hn.
  destruct (c =? sep) eqn:E.
  - apply N.eqb_eq in E. exfalso. apply Hn. left. exact E.
  - rewrite IH by (intros Hi; apply Hn; right; exact Hi). reflexivity.
Qed.

Lemma split_parts_without (sep : N) (s : jsstring) :
  Forall (without sep) (JS.split sep s).
Proof.
  induction s as [|c s IH]; simpl.
  - constructor; [intros []|constructor].
  - destruct (c =? sep) eqn:E.
    + constructor; [intros []|exact IH].
    + destruct (JS.split sep s) as [|p ps]; [repeat constructor|].
      * intros [Hc|[]]. rewrite Hc, N.eqb_refl in E. discriminate.
      * inversion IH as [|? ? Hp Hps]; subst. constructor; [|exact Hps].
        intros [Hc|Hi]; [rewrite Hc, N.eqb_refl in E; discriminate|exact (Hp Hi)].
Qed.

(** Splitting what was joined gives the parts back, and joining what was
    split gives the string back. *)
Lemma split_join (sep : N) (parts : list jsstring) :
  parts <> [] -> Forall (without sep) parts ->
  JS.split sep (JS.join [sep] parts) = parts.
Proof.
  induction parts as [|p rest IH]; [contradiction|]. intros _ Hall.
  inversion Hall as [|? ? Hp Hrest]; subst.
  destruct rest as [|q rest].
  - apply split_without. exact Hp.
  - change (JS.join [sep] (p :: q :: rest)) with (p ++ sep :: JS.join [sep] (q :: rest)).
    rewrite split_app, (split_without sep p Hp), IH by (discriminate || exact Hrest).
    reflexivity.
Qed.

Lemma join_split (sep : N) (s : jsstring) : JS.join [sep] (JS.split sep s) = s.
Proof.
  induction s as [|c s IH]; [reflexivity|]. simpl JS.split.
  pose proof (split_nonempty sep s) as Hn.
  destruct (c =? sep) eqn:E.
  - apply N.eqb_eq in E. subst c.
    destruct (JS.split sep s) as [|p ps]; [contradiction|].
    change (JS.join [sep] ([] :: p :: ps)) with (sep :: JS.join [sep] (p :: ps)).
    rewrite IH. reflexivity.
  - destruct (JS.split sep s) as [|p ps]; [contradiction|].
    rewrite <- IH. destruct ps; reflexivity.
Qed.

Lemma join_without (c : N) (sep : jsstring) (parts : list jsstring) :
  without c sep -> Forall (without c) parts -> without c (JS.join sep parts).
Proof.
  unfold without. intros Hs. induction 1 as [|p rest Hp Hrest IH]; [intros []|].
  destruct rest as [|q rest]; [exact Hp|].
  change (JS.join sep (p :: q :: rest)) with (p ++ sep ++ JS.join sep (q :: rest)).
  rewrite !in_app_iff. intros [Hi|[Hi|Hi]]; [exact (Hp Hi)|exact (Hs Hi)|exact (IH Hi)].
Qed.

Lemma Forall_firstn {A} (P : A -> Prop) (n : nat) (l : list A) :
  Forall P l -> Forall P (firstn n l).
Proof.
  intros Hl. revert n. induction Hl; intros [|n]; simpl; constructor; auto.
Qed.

(** X21 (worker-md-final.ts, the catch block): the value written to
    X-Debug-Stack is made of the first six lines of the stack, joined by
    [ | ], and it holds no line feed, however long the stack is. *)
Theorem stack_head_six_lines (lines : list jsstring) :
  lines <> [] ->
  Forall (without 10) lines ->
  WorkerMdFinal.stackHead (JS.join newline lines)
  = JS.join (JS.lit " | ") (firstn 6 lines)
  /\ without 10 (WorkerMdFinal.stackHead (JS.join newline lines)).
Proof.
  intros Hne Hall. unfold WorkerMdFinal.stackHead, newline.
  rewrite split_join by assumption. split; [reflexivity|].
  apply join_without.
  - unfold without. vm_compute. intuition discriminate.
  - apply Forall_firstn. exact Hall.
Qed.

(** A stack of eight lines: the header keeps six of them. *)
Lemma stack_head_six_lines_run :
  let lines := map JS.lit ["TypeError: fetch failed"; "at a"; "at b"; "at c"; "at d";
                           "at e"; "at f"; "at g"]%string in
  WorkerMdFinal.stackHead (JS.join newline lines)
  = JS.lit "TypeError: fetch failed | at a | at b | at c | at d | at e"
  /\ without 10 (WorkerMdFinal.stackHead (JS.join newline lines)).
Proof.
  cbv zeta.
  refine (let H := stack_head_six_lines
                     (map JS.lit ["TypeError: fetch failed"; "at a"; "at b"; "at c";
                                  "at d"; "at e"; "at f"; "at g"]%string) _ _ in
          conj (eq_trans (proj1 H) eq_refl) (proj2 H)).
  - discriminate.
  - repeat constructor; unfold without; vm_compute; intuition discriminate.
Defined.

(** *** The extension pattern [/\.[^.]+$/] *)

Lemma plusEnds_to_end (b a : jsstring) :
  flat_map (Regex.ends false Regex.REol) (Regex.plusEnds false (Regex.CsNot 46) b a)
  = if forallb notDot a && negb (Nat.eqb (length a) 0) then [(rev a ++ b, [])] else [].
Proof.
  revert b. induction a as [|c a IH]; intros b; [reflexivity|].
  cbn [Regex.plusEnds Regex.inSet forallb length Nat.eqb negb].
  unfold Regex.canonicalize. cbn [andb]. fold (notDot c).
  destruct (notDot c); [|reflexivity].
  rewrite flat_map_app, IH. cbn [flat_map Regex.ends snd fst andb].
  destruct a as [|d a].
  - reflexivity.
  - cbn [length Nat.eqb negb]. rewrite !andb_true_r, !app_nil_r.
    destruct (forallb notDot (d :: a)); [|reflexivity].
    cbn [rev]. rewrite <- !app_assoc. reflexivity.
Qed.

Lemma ends_extension (b a : jsstring) :
  Regex.ends false extensionPattern (b, a)
  = match a with
    | c :: ext =>
        if (46 =? c) && (forallb notDot ext && negb (Nat.eqb (length ext) 0))
        then [(rev ext ++ c :: b, [])] else []
    | [] => []
    end.
Proof.
  unfold extensionPattern. destruct a as [|c ext]; [reflexivity|].
  cbn [Regex.ends snd fst Regex.inSet]. unfold Regex.canonicalize. cbn [andb].
  destruct (46 =? c); [|reflexivity].
  cbn [flat_map]. rewrite app_nil_r. cbn [Regex.ends fst snd].
  rewrite plusEnds_to_end. reflexivity.
Qed.

Lemma forallb_notDot (s : jsstring) : forallb notDot s = true <-> without 46 s.
Proof.
  unfold without. induction s as [|c s IH]; simpl; [tauto|].
  rewrite andb_true_iff, IH. unfold notDot. rewrite negb_true_iff, N.eqb_neq.
  intuition congruence.
Qed.

(** The pattern matches at the last dot, when something follows it. *)
Lemma search_extension (b stem ext : jsstring) :
  ext <> [] -> without 46 ext ->
  Regex.search false extensionPattern b (stem ++ 46 :: ext)
  = Some ((rev stem ++ b, 46 :: ext), (rev ext ++ 46 :: rev stem ++ b, [])).
Proof.
  intros Hne Hext. revert b. induction stem as [|c stem IH]; intros b.
  - cbn [app rev]. destruct ext as [|e ext]; [contradiction|].
    cbn [Regex.search]. rewrite ends_extension.
    rewrite (proj2 (forallb_notDot (e :: ext)) Hext). reflexivity.
  - cbn [app Regex.search]. rewrite ends_extension.
    replace (forallb notDot (stem ++ 46 :: ext)) with false.
    + rewrite andb_false_r. cbn [rev]. rewrite IH, <- !app_assoc. reflexivity.
    + symmetry. apply not_true_is_false. rewrite forallb_notDot. unfold without.
      intros Hn. apply Hn, in_or_app. right. left. reflexivity.
Qed.

(** It matches nowhere in a string without a dot or ending in one. *)
Lemma search_no_extension (b a : jsstring) :
  without 46 a \/ (exists init, a = init ++ [46]) ->
  Regex.search false extensionPattern b a = None.
Proof.
  revert b. induction a as [|c a IH]; intros b Ha.
  - reflexivity.
  - cbn [Regex.search]. rewrite ends_extension.
    assert (Hrest : (46 =? c) && (forallb notDot a && negb (Nat.eqb (length a) 0)) = false).
    { destruct (46 =? c) eqn:Ec; [|reflexivity]. apply N.eqb_eq in Ec. subst c.
      destruct Ha as [Hn|[init Hi]]; [exfalso; apply Hn; left; reflexivity|].
      destruct a as [|d a]; [reflexivity|].
      cbn [andb length Nat.eqb negb]. rewrite andb_true_r.
      apply not_true_is_false. rewrite forallb_notDot. unfold without. intros Hn.
      apply Hn. destruct init as [|i init]; [discriminate Hi|].
      injection Hi as _ ->. apply in_or_app. right. left. reflexivity. }
    rewrite Hrest. destruct a as [|d a]; [reflexivity|].
    apply IH. destruct Ha as [Hn|[init Hi]].
    + left. intros Hin. apply Hn. right. exact Hin.
    + right. destruct init as [|i init]; [discriminate Hi|].
      injection Hi as _ Hi. exists init. exact Hi.
Qed.

Lemma replace_extension_stem (stem ext : jsstring) :
  ext <> [] -> without 46 ext ->
  Regex.replace false extensionPattern (stem ++ 46 :: ext) [] = stem.
Proof.
  intros Hne Hext. unfold Regex.replace. rewrite search_extension by assumption.
  rewrite app_nil_r, rev_app_distr, rev_involutive. reflexivity.
Qed.

Lemma replace_extension_none (seg : jsstring) :
  without 46 seg \/ (exists init, seg = init ++ [46]) ->
  Regex.replace false extensionPattern seg [] = seg.
Proof. intros Hs. unfold Regex.replace. rewrite search_no_extension by exact Hs. reflexivity. Qed.

(** *** The filename hint and the declared type *)

Lemma filterBoolean_slashes (slashes : jsstring) :
  Forall (eq 47) slashes -> JS.filterBoolean (JS.split 47 slashes) = [].
Proof.
  induction 1 as [|c slashes Hc _ IH]; [reflexivity|]. subst c.
  cbn [JS.split]. rewrite N.eqb_refl. exact IH.
Qed.

Lemma filterBoolean_last (dir seg slashes : jsstring) :
  seg <> [] -> without 47 seg -> Forall (eq 47) slashes ->
  rev (JS.filterBoolean (JS.split 47 (dir ++ 47 :: seg ++ slashes)))
  = seg :: rev (JS.filterBoolean (JS.split 47 dir)).
Proof.
  intros Hne Hseg Hsl. rewrite split_app. unfold JS.filterBoolean at 1.
  rewrite List.filter_app, rev_app_distr. f_equal.
  assert (Hs : List.filter (fun p => negb (Nat.eqb (length p) 0))
                 (JS.split 47 (seg ++ slashes)) = [seg]).
  { destruct slashes as [|c slashes].
    - rewrite app_nil_r, split_without by exact Hseg.
      destruct seg; [contradiction|reflexivity].
    - inversion Hsl as [|? ? Hc Hrest]; subst.
      rewrite split_app, List.filter_app, split_without by exact Hseg.
      fold (JS.filterBoolean (JS.split 47 slashes)).
      rewrite filterBoolean_slashes by exact Hrest.
      destruct seg; [contradiction|reflexivity]. }
  rewrite Hs. reflexivity.
Qed.

Section UrlStrings.
Context `{Platform}.

(** X8 (index.ts, lines 138-142; the same lines in the two other
    variants): the name handed to the converter is [document] when the
    target does not parse or its path has no segment; otherwise it is the
    last non-empty segment of the path, cut at its last dot when something
    follows that dot, and whole when it has no dot or ends in one. *)
Theorem filename_hint (target : jsstring) :
  (url_parse target = None -> filenameOf target = JS.lit "document")
  /\ forall u, url_parse target = Some u ->
       (Forall (eq 47) (url_pathname u) -> filenameOf target = JS.lit "document")
       /\ forall dir seg slashes,
            url_pathname u = dir ++ 47 :: seg ++ slashes ->
            seg <> [] -> without 47 seg -> Forall (eq 47) slashes ->
            (forall stem ext,
               seg = stem ++ 46 :: ext -> ext <> [] -> without 46 ext ->
               filenameOf target = stem)
            /\ (without 46 seg \/ (exists init, seg = init ++ [46]) ->
                filenameOf target = seg).
Proof.
  unfold filenameOf. split; [intros ->; reflexivity|].
  intros u ->. split.
  - intros Hsl. rewrite filterBoolean_slashes by exact Hsl. reflexivity.
  - intros dir seg slashes -> Hne Hseg Hsl.
    rewrite filterBoolean_last by assumption. split.
    + intros stem ext -> Hext Hdot. apply replace_extension_stem; assumption.
    + apply replace_extension_none.
Qed.

(** X9 (index.ts, lines 122 and 137): the declared type of the source
    is the Content-Type of the origin up to its first semicolon, as it is
    written; it is [text/html] when the origin sends none or an empty one,
    it never holds a semicolon, and the type of the blob handed to the
    converter is never empty. *)
Theorem declared_type (upstream : Fetched) :
  let value := Headers.get (f_headers upstream) (JS.lit "content-type") in
  ((value = None \/ value = Some []) -> declaredType upstream = JS.lit "text/html")
  /\ (forall ty, value = Some ty -> ty <> [] -> without 59 ty ->
        declaredType upstream = ty)
  /\ (forall ty params, value = Some (ty ++ 59 :: params) -> without 59 ty ->
        declaredType upstream = ty)
  /\ without 59 (declaredType upstream)
  /\ JS.orElse (declaredType upstream) (JS.lit "text/html") <> [].
Proof.
  cbv zeta. unfold declaredType.
  destruct (Headers.get (f_headers upstream) (JS.lit "content-type")) as [v|];
    unfold default; cbn [from_option id].
  - split; [intros [E|E]; [discriminate E|injection E as ->; reflexivity]|].
    split.
    { intros ty E Hne Hty. injection E as ->.
      destruct ty as [|c ty]; [contradiction|]. cbn [JS.orElse].
      rewrite split_without by exact Hty. reflexivity. }
    split.
    { intros ty params E Hty. injection E as ->.
      destruct ty as [|c ty].
      - reflexivity.
      - change (JS.orElse ((c :: ty) ++ 59 :: params) (JS.lit "text/html"))
          with ((c :: ty) ++ 59 :: params).
        rewrite split_app, split_without by exact Hty. reflexivity. }
    split.
    { pose proof (split_parts_without 59 (JS.orElse v (JS.lit "text/html"))) as Hp.
      destruct (JS.split 59 (JS.orElse v (JS.lit "text/html"))) as [|p ps]; [intros []|].
      inversion Hp; assumption. }
    { destruct (match JS.split 59 (JS.orElse v (JS.lit "text/html")) with
                | first :: _ => first | [] => [] end); discriminate. }
  - split; [reflexivity|]. split; [discriminate|]. split; [discriminate|].
    split; [|discriminate]. unfold without. vm_compute. intuition discriminate.
Qed.

End UrlStrings.

(** Runs of X8: [/docs/guide.v2.html] gives [guide.v2], [/posts/]
    gives [posts], and a segment that is all extension gives the empty
    name. *)
Lemma filename_hint_run :
  let name := @filenameOf Toy.platform in
  name (JS.lit "https://example.com/docs/guide.v2.html") = JS.lit "guide.v2"
  /\ name (JS.lit "https://example.com/posts/") = JS.lit "posts"
  /\ name (JS.lit "https://example.com/.well-known") = []
  /\ name (JS.lit "https://example.com/") = JS.lit "document"
  /\ name (JS.lit "no url") = JS.lit "document".
Proof.
  cbv zeta. pose proof (@filename_hint Toy.platform) as Hf.
  split; [|split; [|split; [|split]]].
  - edestruct (Hf (JS.lit "https://example.com/docs/guide.v2.html")) as [_ Hu].
    edestruct Hu as [_ Hs]; [vm_compute; reflexivity|].
    edestruct (Hs (JS.lit "/docs") (JS.lit "guide.v2.html") []) as [Hstem _];
      [vm_compute; reflexivity | discriminate
      | unfold without; vm_compute; intuition discriminate | constructor |].
    apply (Hstem (JS.lit "guide.v2") (JS.lit "html"));
      [vm_compute; reflexivity | discriminate
      | unfold without; vm_compute; intuition discriminate].
  - edestruct (Hf (JS.lit "https://example.com/posts/")) as [_ Hu].
    edestruct Hu as [_ Hs]; [vm_compute; reflexivity|].
    edestruct (Hs [] (JS.lit "posts") [47]) as [_ Hwhole];
      [vm_compute; reflexivity | discriminate
      | unfold without; vm_compute; intuition discriminate | repeat constructor |].
    apply Hwhole. left. unfold without; vm_compute; intuition discriminate.
  - edestruct (Hf (JS.lit "https://example.com/.well-known")) as [_ Hu].
    edestruct Hu as [_ Hs]; [vm_compute; reflexivity|].
    edestruct (Hs [] (JS.lit ".well-known") []) as [Hstem _];
      [vm_compute; reflexivity | discriminate
      | unfold without; vm_compute; intuition discriminate | constructor |].
    apply (Hstem [] (JS.lit "well-known"));
      [vm_compute; reflexivity | discriminate
      | unfold without; vm_compute; intuition discriminate].
  - edestruct (Hf (JS.lit "https://example.com/")) as [_ Hu].
    edestruct Hu as [Hdoc _]; [vm_compute; reflexivity|].
    apply Hdoc. repeat constructor.
  - edestruct (Hf (JS.lit "no url")) as [Hnone _]. apply Hnone. vm_compute. reflexivity.
Defined.

(** *** Percent-decoding *)

(** A unit other than the percent sign is copied. *)
Lemma decodeFrom_copy (c : N) (rest : jsstring) :
  c <> 37 ->
  JS.decodeFrom 0 [] (c :: rest) = option_map (cons c) (JS.decodeFrom 0 [] rest).
Proof.
  intros Hc. destruct c as [|p]; [reflexivity|].
  do 6 (destruct p as [p|p|]; try reflexivity).
  all: try (exfalso; apply Hc; reflexivity).
Qed.

Lemma decode_without_percent (s : jsstring) :
  without 37 s -> JS.decodeURIComponent s = Some s.
Proof.
  unfold JS.decodeURIComponent, without. induction s as [|c s IH]; [reflexivity|].
  intros Hn. rewrite decodeFrom_copy by (intros ->; apply Hn; left; reflexivity).
  rewrite IH by (intros Hi; apply Hn; right; exact Hi). reflexivity.
Qed.

Section Decoding.
Context `{Platform}.

(** X6 (index.ts, line 33, and the same line of the logging variant):
    a path without a percent sign decodes to itself, the empty path to [/];
    a request on the conversion path with such a path is always answered,
    with the response of the try block when it returns one, and with status
    500 when it throws. *)
Theorem percent_free_path_is_answered (w : World) (request : Request) (s : State) :
  let path := JS.orElse (url_pathname (req_url request)) (JS.lit "/") in
  without 37 (url_pathname (req_url request)) ->
  decodedPath request = Some path
  /\ (IndexTs.triggered request path = true ->
      exists resp s1,
        IndexTs.fetch w request s = (Ok resp, s1)
        /\ (forall r s', IndexTs.tryBlock w request path s = (Ok r, s') ->
              resp = r /\ s1 = s')
        /\ (forall err s', IndexTs.tryBlock w request path s = (Throw err, s') ->
              status resp = 500 /\ s1 = s'))
  /\ (WorkerMdAcceptPresenceLogs.triggered request path = true ->
      exists resp s1,
        WorkerMdAcceptPresenceLogs.fetch w request s = (Ok resp, s1)
        /\ (forall r s',
              WorkerMdAcceptPresenceLogs.tryBlock w request path s = (Ok r, s') ->
              resp = r /\ s1 = s')
        /\ (forall err s',
              WorkerMdAcceptPresenceLogs.tryBlock w request path s = (Throw err, s') ->
              status resp = 500 /\ s1 = s')).
Proof.
  cbv zeta. intros Hp.
  assert (Hd : decodedPath request
               = Some (JS.orElse (url_pathname (req_url request)) (JS.lit "/"))).
  { unfold decodedPath. apply decode_without_percent.
    destruct (url_pathname (req_url request)) as [|c p]; [|exact Hp].
    unfold without. vm_compute. intuition discriminate. }
  split; [exact Hd|]. split; intros Ht.
  - rewrite (index_fetch_triggered _ _ _ Hd Ht). unfold tryCatch.
    destruct (IndexTs.tryBlock w request _ s) as [[r|err] s'].
    + exists r, s'. split; [reflexivity|].
      split; intros ? ? E; [injection E as <- <-; auto | discriminate E].
    + eexists _, s'. split; [reflexivity|].
      split; intros ? ? E; [discriminate E | injection E as <- <-].
      split; reflexivity.
  - rewrite (logs_fetch_triggered _ _ _ Hd Ht). unfold tryCatch.
    destruct (WorkerMdAcceptPresenceLogs.tryBlock w request _ s) as [[r|err] s'].
    + exists r, s'. split; [reflexivity|].
      split; intros ? ? E; [injection E as <- <-; auto | discriminate E].
    + eexists _, s'. split; [reflexivity|].
      split; intros ? ? E; [discriminate E | injection E as <- <-].
      split; reflexivity.
Qed.

Lemma stripTrailing_keeps (q : jsstring) :
  JS.endsWith q (JS.lit "/") = false -> Spec.stripTrailingSeparator q = q.
Proof.
  unfold JS.endsWith, Spec.stripTrailingSeparator. change (rev (JS.lit "/")) with [47].
  rewrite startsWith_head. destruct (rev q) as [|c r] eqn:Er.
  - intros _. apply (f_equal (@rev N)) in Er. rewrite rev_involutive in Er.
    rewrite Er. reflexivity.
  - rewrite N.eqb_sym. intros ->. reflexivity.
Qed.

(** X5 (index.ts, lines 63-72): the two triggers meet on one key.  A
    path [/q] that is converted because of the Accept header and the path
    [/q.md] are stored under the same key [q.md], in every variant; so are
    the path [/] under the header trigger and the path [/index.md]. *)
Theorem triggers_share_key (header path : Request) (q : jsstring) :
  q <> [] ->
  JS.endsWith q (JS.lit "/") = false ->
  JS.endsWith (47 :: q) (JS.lit ".md") = false ->
  IndexTs.keyOf header (47 :: q) = q ++ JS.lit ".md"
  /\ IndexTs.keyOf path (47 :: q ++ JS.lit ".md") = q ++ JS.lit ".md"
  /\ WorkerMdAcceptPresenceLogs.keyOf header (47 :: q) = q ++ JS.lit ".md"
  /\ WorkerMdAcceptPresenceLogs.keyOf path (47 :: q ++ JS.lit ".md") = q ++ JS.lit ".md"
  /\ WorkerMdFinal.keyOf (47 :: q ++ JS.lit ".md") = q ++ JS.lit ".md"
  /\ IndexTs.keyOf header (JS.lit "/") = IndexTs.keyOf path (JS.lit "/index.md").
Proof.
  intros Hne Hslash Hmd.
  assert (Hends : JS.endsWith (47 :: q ++ JS.lit ".md") (JS.lit ".md") = true).
  { apply endsWith_spec. exists (47 :: q). reflexivity. }
  assert (Hkey : Regex.replace false leadingSlash (47 :: q ++ JS.lit ".md") []
                 = q ++ JS.lit ".md").
  { rewrite replace_leadingSlash. reflexivity. }
  assert (Hbase : JS.orElse
                    (Regex.replace false trailingSlash
                       (Regex.replace false leadingSlash (47 :: q) []) [])
                    (JS.lit "index") = q).
  { rewrite replace_leadingSlash, replace_trailingSlash.
    change (Spec.stripLeadingSeparator (47 :: q)) with q.
    rewrite stripTrailing_keeps by exact Hslash. destruct q; [contradiction|reflexivity]. }
  unfold IndexTs.keyOf, IndexTs.keyAndSource, WorkerMdAcceptPresenceLogs.keyOf,
    WorkerMdAcceptPresenceLogs.keyAndSource, WorkerMdFinal.keyOf.
  rewrite Hmd, Hends. cbn [fst]. rewrite Hkey, Hbase. repeat split.
Qed.

End Decoding.

(** A run of X6: the path [/articles/foo.md], with an origin that
    cannot be reached: both variants answer 500. *)
Lemma percent_free_path_is_answered_run :
  let request := Toy.get "/articles/foo.md" [] None in
  let w := Toy.worldFetchThrows in
  decodedPath request = Some (JS.lit "/articles/foo.md")
  /\ (exists resp s1,
        IndexTs.fetch w request (start ∅) = (Ok resp, s1) /\ status resp = 500)
  /\ (exists resp s1,
        WorkerMdAcceptPresenceLogs.fetch w request (start ∅) = (Ok resp, s1)
        /\ status resp = 500).
Proof.
  cbv zeta.
  assert (Hp : without 37 (url_pathname (req_url (Toy.get "/articles/foo.md" [] None))))
    by (unfold without; vm_compute; intuition discriminate).
  destruct (percent_free_path_is_answered Toy.worldFetchThrows
              (Toy.get "/articles/foo.md" [] None) (start ∅) Hp)
    as (Hd & Hindex & Hlogs).
  split; [exact Hd|]. split.
  - destruct Hindex as (resp & s1 & Hrun & _ & Hthrow); [reflexivity|].
    exists resp, s1. split; [exact Hrun|].
    refine (proj1 (Hthrow _ _ _)). vm_compute. reflexivity.
  - destruct Hlogs as (resp & s1 & Hrun & _ & Hthrow); [reflexivity|].
    exists resp, s1. split; [exact Hrun|].
    refine (proj1 (Hthrow _ _ _)). vm_compute. reflexivity.
Defined.

(** A run of X5: [/articles/foo] with the header and [/articles/foo.md]. *)
Lemma triggers_share_key_run :
  let header := Toy.get "/articles/foo" [] (Some "text/markdown"%string) in
  let path := Toy.get "/articles/foo.md" [] None in
  IndexTs.keyOf header (JS.lit "/articles/foo") = JS.lit "articles/foo.md"
  /\ IndexTs.keyOf path (JS.lit "/articles/foo.md") = JS.lit "articles/foo.md".
Proof.
  cbv zeta.
  pose proof (triggers_share_key
                (Toy.get "/articles/foo" [] (Some "text/markdown"%string))
                (Toy.get "/articles/foo.md" [] None) (JS.lit "articles/foo")) as Hk.
  destruct Hk as (H1 & H2 & _); [discriminate|reflexivity|reflexivity|].
  split; [exact H1|exact H2].
Defined.

(** *** Lists of media types *)

Lemma endsWithWordChar_after (h pre : jsstring) (c : N) :
  Regex.isWordChar c = false ->
  endsWithWordChar pre = false ->
  endsWithWordChar (h ++ c :: pre) = false.
Proof.
  unfold endsWithWordChar. intros Hc Hpre.
  rewrite rev_app_distr. cbn [rev]. rewrite <- app_assoc. cbn [app].
  destruct (rev pre) as [|d r]; [exact Hc|exact Hpre].
Qed.

Lemma startsWithWordChar_before (post h : jsstring) (c : N) :
  Regex.isWordChar c = false ->
  startsWithWordChar post = false ->
  startsWithWordChar (post ++ c :: h) = false.
Proof.
  unfold startsWithWordChar. intros Hc Hpost.
  destruct post as [|d post]; [exact Hc|exact Hpost].
Qed.

(** X4 (index.ts, lines 20-24): the header trigger looks for one of the
    two media types anywhere in the header.  A header that fires it still
    fires it when other entries are listed before or after it, behind a
    comma or any other unit that is not a letter, a digit or an underscore:
    neither the other entries nor parameters such as a quality value are
    looked at. *)
Theorem header_trigger_ignores_other_entries (h other : jsstring) (sep : N) :
  IndexTs.prefersMarkdownByPresence (Some h) = true ->
  Regex.isWordChar sep = false ->
  IndexTs.prefersMarkdownByPresence (Some (h ++ sep :: other)) = true
  /\ IndexTs.prefersMarkdownByPresence (Some (other ++ sep :: h)) = true.
Proof.
  intros Hh Hsep. apply prefers_spec in Hh.
  destruct Hh as (pre & mid & post & Eh & Hmid & Hpre & Hpost).
  injection Eh as ->. split; apply prefers_spec.
  - exists pre, mid, (post ++ sep :: other). rewrite <- !app_assoc.
    split; [reflexivity|]. split; [exact Hmid|]. split; [exact Hpre|].
    apply startsWithWordChar_before; assumption.
  - exists (other ++ sep :: pre), mid, post.
    split; [rewrite <- !app_assoc; reflexivity|]. split; [exact Hmid|].
    split; [apply endsWithWordChar_after; assumption|exact Hpost].
Qed.

(** A run of X4: [text/markdown;q=0] after [text/html]. *)
Lemma header_trigger_ignores_other_entries_run :
  IndexTs.prefersMarkdownByPresence (Some (JS.lit "text/html,text/markdown;q=0")) = true.
Proof.
  refine (proj2 (header_trigger_ignores_other_entries (JS.lit "text/markdown;q=0")
                   (JS.lit "text/html") 44 _ _)); reflexivity.
Defined.

(** ** Requests that are handed to the origin *)

Section PassThrough.
Context `{Platform}.

Lemma index_fetch_untriggered w request pathname :
  decodedPath request = Some pathname ->
  IndexTs.triggered request pathname = false ->
  IndexTs.fetch w request =
  (proxied <- proxyFetch w ;;
   if flagSet (req_url request) "debug" then
     let headers := Headers.put (JS.lit "X-Debug-Request-Id") (w_reqId w)
                      (f_headers proxied) in
     let headers := Headers.put (JS.lit "X-Debug-Accept")
                      (String_of_nullable (req_accept request)) headers in
     let headers := Headers.put (JS.lit "X-Debug-Triggered") (JS.lit "proxy") headers in
     content <- liftRes (f_body proxied) ;;
     liftRes (newResponse (BodyBytes content) (f_status proxied)
                (f_statusText proxied) headers)
   else ret (passThrough proxied))%req.
Proof.
  unfold decodedPath, IndexTs.triggered, IndexTs.fetch. intros -> Ht.
  replace (negb (IndexTs.prefersMarkdownByPresence (req_accept request))
           && negb (JS.endsWith pathname (JS.lit ".md"))) with true
    by (rewrite <- negb_orb, Ht; reflexivity).
  reflexivity.
Qed.

(** X1 (index.ts, lines 47-58): a request that neither trigger selects,
    without [debug=1], is answered with the response of the origin as it
    is: one call is made, the store is neither read nor written, and a
    failure of that call is thrown on, for it is outside the try block. *)
Theorem untriggered_request_is_proxied (w : World) (request : Request)
    (pathname : jsstring) (objects : gmap jsstring R2Object) :
  decodedPath request = Some pathname ->
  IndexTs.triggered request pathname = false ->
  flagSet (req_url request) "debug" = false ->
  IndexTs.fetch w request (start objects)
  = (match w_proxy w with
     | Ok proxied => Ok (passThrough proxied)
     | Throw err => Throw err
     end,
     {| store := objects; trace := [EProxy] |}).
Proof.
  intros Hd Ht Hdebug. rewrite (index_fetch_untriggered _ _ _ Hd Ht), Hdebug.
  cbv [start bind proxyFetch emit liftRes ret store trace app].
  destruct (w_proxy w); reflexivity.
Qed.

(** X2 (index.ts, lines 50-56): with [debug=1] the response of the
    origin is rebuilt: same status, status text and body, the three debug
    headers set, and every other header of the origin kept.  The status
    must be one for which a response with a body can be built. *)
Theorem debug_proxy_adds_headers (w : World) (request : Request)
    (pathname : jsstring) (objects : gmap jsstring R2Object)
    (proxied : Fetched) (content : list N) :
  decodedPath request = Some pathname ->
  IndexTs.triggered request pathname = false ->
  flagSet (req_url request) "debug" = true ->
  w_proxy w = Ok proxied ->
  f_body proxied = Ok content ->
  (200 <=? f_status proxied) && (f_status proxied <=? 599) = true ->
  isNullBodyStatus (f_status proxied) = false ->
  exists resp,
    IndexTs.fetch w request (start objects)
    = (Ok resp, {| store := objects; trace := [EProxy] |})
    /\ status resp = f_status proxied
    /\ statusText resp = f_statusText proxied
    /\ body resp = BodyBytes content
    /\ header resp "X-Debug-Request-Id" = Some (w_reqId w)
    /\ header resp "X-Debug-Accept" = Some (String_of_nullable (req_accept request))
    /\ header resp "X-Debug-Triggered" = Some (JS.lit "proxy")
    /\ forall name,
         Headers.sameName (JS.lit "X-Debug-Request-Id") name = false ->
         Headers.sameName (JS.lit "X-Debug-Accept") name = false ->
         Headers.sameName (JS.lit "X-Debug-Triggered") name = false ->
         Headers.get (headers resp) name = Headers.get (f_headers proxied) name.
Proof.
  intros Hd Ht Hdebug Hp Hbody Hrange Hnull.
  rewrite (index_fetch_untriggered _ _ _ Hd Ht), Hdebug.
  cbv [start bind proxyFetch emit liftRes ret newResponse store trace app].
  rewrite Hp. cbv beta iota. rewrite Hbody. cbv beta iota.
  rewrite Hrange, Hnull. cbn [negb].
  eexists. split; [reflexivity|]. cbn [status statusText body headers withDefaultType].
  unfold header. cbn [headers].
  split; [reflexivity|]. split; [reflexivity|]. split; [reflexivity|].
  split; [|split; [|split]].
  - rewrite !headers_get_set_other by reflexivity. apply headers_get_set. reflexivity.
  - rewrite !headers_get_set_other by reflexivity. apply headers_get_set. reflexivity.
  - apply headers_get_set. reflexivity.
  - intros name H1 H2 H3. rewrite !headers_get_set_other; auto.
Qed.

(** X3 (index.ts, line 55): with [debug=1] and a response of the
    origin whose status admits no body (204, 205 or 304), the response is
    rebuilt when no byte was read from it, as is the case for such a
    status: same status and status text, no body, the three debug headers
    set and every other header kept.  Had bytes been read, the constructor
    would throw a TypeError and, outside any try block, so would the
    handler.  Either way the origin is the only call. *)
Theorem debug_proxy_of_bodiless_status (w : World) (request : Request)
    (pathname : jsstring) (objects : gmap jsstring R2Object)
    (proxied : Fetched) (content : list N) :
  decodedPath request = Some pathname ->
  IndexTs.triggered request pathname = false ->
  flagSet (req_url request) "debug" = true ->
  w_proxy w = Ok proxied ->
  f_body proxied = Ok content ->
  (200 <=? f_status proxied) && (f_status proxied <=? 599) = true ->
  isNullBodyStatus (f_status proxied) = true ->
  let run := IndexTs.fetch w request (start objects) in
  snd run = {| store := objects; trace := [EProxy] |}
  /\ (content = [] ->
      exists resp,
        fst run = Ok resp
        /\ status resp = f_status proxied
        /\ statusText resp = f_statusText proxied
        /\ body resp = BodyNull
        /\ header resp "X-Debug-Request-Id" = Some (w_reqId w)
        /\ header resp "X-Debug-Accept" = Some (String_of_nullable (req_accept request))
        /\ header resp "X-Debug-Triggered" = Some (JS.lit "proxy")
        /\ forall name,
             Headers.sameName (JS.lit "X-Debug-Request-Id") name = false ->
             Headers.sameName (JS.lit "X-Debug-Accept") name = false ->
             Headers.sameName (JS.lit "X-Debug-Triggered") name = false ->
             Headers.get (headers resp) name = Headers.get (f_headers proxied) name)
  /\ (content <> [] ->
      exists message,
        fst run = Throw (ThrownError (JS.lit "TypeError") message None)).
Proof.
  intros Hd Ht Hdebug Hp Hbody Hrange Hnull. cbv zeta.
  rewrite (index_fetch_untriggered _ _ _ Hd Ht), Hdebug.
  cbv [start bind proxyFetch emit liftRes ret newResponse store trace app].
  rewrite Hp. cbv beta iota. rewrite Hbody. cbv beta iota.
  rewrite Hrange, Hnull. cbn [negb].
  destruct content as [|c content]; cbn [isEmptyBody fst snd].
  - split; [reflexivity|]. split; [|intros Hc; contradiction].
    intros _. eexists. split; [reflexivity|]. cbn [status statusText body headers].
    unfold header. cbn [headers].
    split; [reflexivity|]. split; [reflexivity|]. split; [reflexivity|].
    split; [|split; [|split]].
    + rewrite !headers_get_set_other by reflexivity. apply headers_get_set. reflexivity.
    + rewrite !headers_get_set_other by reflexivity. apply headers_get_set. reflexivity.
    + apply headers_get_set. reflexivity.
    + intros name H1 H2 H3. rewrite !headers_get_set_other; auto.
  - split; [reflexivity|]. split; [discriminate|].
    intros _. eexists. reflexivity.
Qed.

End PassThrough.

(** A run of X1: [/page] without an Accept header. *)
Lemma untriggered_request_is_proxied_run :
  let run := IndexTs.fetch (Toy.world "# Foo") (Toy.get "/page" [] None) (start ∅) in
  trace (snd run) = [EProxy]
  /\ exists resp, fst run = Ok resp /\ status resp = 200
       /\ body resp = BodyStream (Ok Toy.htmlPage).
Proof.
  cbv zeta.
  rewrite (untriggered_request_is_proxied (Toy.world "# Foo") (Toy.get "/page" [] None)
             (JS.lit "/page") ∅ eq_refl eq_refl eq_refl).
  split; [reflexivity|]. eexists. split; [reflexivity|]. split; reflexivity.
Defined.

(** A run of X2: [/page?debug=1]. *)
Lemma debug_proxy_adds_headers_run :
  let run := IndexTs.fetch (Toy.world "# Foo")
               (Toy.get "/page" [("debug", "1")]%string None) (start ∅) in
  exists resp,
    fst run = Ok resp /\ status resp = 200
    /\ header resp "X-Debug-Triggered" = Some (JS.lit "proxy")
    /\ header resp "X-Debug-Accept" = Some (JS.lit "null").
Proof.
  cbv zeta.
  destruct (debug_proxy_adds_headers (Toy.world "# Foo")
              (Toy.get "/page" [("debug", "1")]%string None) (JS.lit "/page") ∅
              {| f_status := 200; f_statusText := JS.lit "OK"; f_headers := [];
                 f_body := Ok Toy.htmlPage |} Toy.htmlPage
              eq_refl eq_refl eq_refl eq_refl eq_refl eq_refl eq_refl)
    as (resp & Hrun & Hst & _ & _ & _ & Hacc & Htr & _).
  exists resp. rewrite Hrun. auto.
Defined.

(** A run of X3: the origin answers 304 to [/page?debug=1]. *)
Lemma debug_proxy_of_bodiless_status_run :
  let w := withProxy (Toy.world "# Foo") (Ok notModified) in
  let run := IndexTs.fetch w (Toy.get "/page" [("debug", "1")]%string None) (start ∅) in
  exists resp,
    fst run = Ok resp /\ status resp = 304 /\ body resp = BodyNull
    /\ header resp "X-Debug-Triggered" = Some (JS.lit "proxy").
Proof.
  cbv zeta.
  destruct (debug_proxy_of_bodiless_status
              (withProxy (Toy.world "# Foo") (Ok notModified))
              (Toy.get "/page" [("debug", "1")]%string None) (JS.lit "/page") ∅
              notModified [] eq_refl eq_refl eq_refl eq_refl eq_refl eq_refl eq_refl)
    as (_ & Hempty & _).
  destruct (Hempty eq_refl) as (resp & Hrun & Hst & _ & Hbody & _ & _ & Htr & _).
  exists resp. auto.
Defined.

(** ** What a conversion leaves behind *)

Lemma headers_get_app_other (h : Headers.t) (n v name : jsstring) :
  Headers.sameName n name = false ->
  Headers.get (h ++ [(n, v)]) name = Headers.get h name.
Proof.
  intros Hn. induction h as [|[n' v'] h IH]; cbn [app Headers.get].
  - rewrite Hn. reflexivity.
  - rewrite IH. reflexivity.
Qed.

(** The type given to a string body does not touch the other headers. *)
Lemma withDefaultType_other (b : Body) (h : Headers.t) (name : jsstring) :
  Headers.sameName (JS.lit "content-type") name = false ->
  Headers.get (withDefaultType b h) name = Headers.get h name.
Proof.
  intros Hn. unfold withDefaultType. destruct b; try reflexivity.
  destruct (Headers.has h (JS.lit "Content-Type")); [reflexivity|].
  apply headers_get_app_other, Hn.
Qed.

(** The value of a header other than the content type after a series of
    [set]. *)
Ltac header_other :=
  unfold header; cbn [headers];
  rewrite withDefaultType_other by reflexivity;
  repeat rewrite headers_get_set_other by reflexivity;
  first [apply headers_get_set; reflexivity | header_literal].

Section Genuine.
Context `{Platform}.

(** index.ts: the facts about a conversion that yields genuine markdown. *)
Lemma index_genuine_run (w : World) (request : Request) (pathname : jsstring)
    (objects : gmap jsstring R2Object) (out : Res Response) (s1 : State)
    (name : jsstring) (blob : Blob) (entry : AiEntry) (markdown : jsstring) :
  decodedPath request = Some pathname ->
  IndexTs.triggered request pathname = true ->
  IndexTs.fetch w request (start objects) = (out, s1) ->
  In (EToMarkdown name blob) (trace s1) ->
  w_toMarkdown w name blob = Ok (AiArray (Some entry)) ->
  ai_data entry = Some markdown ->
  JS.startsWith (JS.trimStart markdown) (JS.lit "<") = false ->
  let key := IndexTs.keyOf request pathname in
  let target := IndexTs.targetOf request pathname in
  let ct := JS.lit "text/markdown; charset=utf-8" in
  (exists resp,
     out = Ok resp /\ status resp = 200 /\ body resp = BodyText markdown
     /\ header resp "Content-Type" = Some ct
     /\ header resp "X-Cache"
        = Some (if w_bucket w then JS.lit "miss,r2-updated" else JS.lit "miss,no-r2")
     /\ header resp "X-Source-URL" = Some target)
  /\ (w_bucket w = true -> last (trace s1) = Some (EPut key (BodyText markdown) ct))
  /\ (w_bucket w = false -> last (trace s1) = Some (EToMarkdown name blob))
  /\ (w_bucket w = true -> w_put w key (BodyText markdown) = None ->
      store s1 !! key
      = Some (written w (BodyText markdown) ct
                [(JS.lit "source", target); (JS.lit "generatedAt", w_nowIso w);
                 (JS.lit "reqId", w_reqId w)]))
  /\ (is_Some (w_put w key (BodyText markdown)) -> store s1 !! key = objects !! key).
Proof.
  intros Hd Ht Hrun. rewrite <- looksLikeHtml_trimStart. cbv zeta.
  rewrite (index_fetch_triggered _ _ _ Hd Ht) in Hrun. wp_start Hrun.
  unfold IndexTs.tryBlock, IndexTs.guarded, IndexTs.cacheCheck, IndexTs.convert,
    IndexTs.onUnhandled, start.
  wp_steps.
  all: intros Hin Hor Hdata Htrim.
  all: converter_facts Hin Hor Hdata.
  all: try congruence.
  all: unfold header, written; cbn [store trace].
  all: split;
    [eexists; split; [reflexivity|]; split; [reflexivity|]; split; [reflexivity|];
     split; [header_value|]; cbv beta iota; split; header_other|].
  all: split; [intros Hb; first [discriminate Hb | apply last_snoc]|].
  all: split; [intros Hb; first [discriminate Hb | apply last_snoc]|].
  all: split;
    [intros Hb Hput; first [discriminate Hb | congruence
                           | rewrite lookup_insert_eq; reflexivity]|].
  all: intros [err Hput]; try congruence.
  all: rewrite ?lookup_insert_ne by other_key; first [reflexivity | assumption].
Qed.

(** X12 (index.ts, lines 168-183): a conversion that yields genuine
    markdown is answered with status 200, the markdown, the markdown content
    type, the target as X-Source-URL and an X-Cache that tells only whether
    a store is bound: [miss,r2-updated] is sent whether or not the write
    went through.  With a store bound the write of the markdown to the key
    is the last call of the request; without one the converter call is. *)
Theorem genuine_conversion_is_delivered (w : World) (request : Request)
    (pathname : jsstring) (objects : gmap jsstring R2Object) (out : Res Response)
    (s1 : State) (name : jsstring) (blob : Blob) (entry : AiEntry)
    (markdown : jsstring) :
  decodedPath request = Some pathname ->
  IndexTs.triggered request pathname = true ->
  IndexTs.fetch w request (start objects) = (out, s1) ->
  In (EToMarkdown name blob) (trace s1) ->
  w_toMarkdown w name blob = Ok (AiArray (Some entry)) ->
  ai_data entry = Some markdown ->
  JS.startsWith (JS.trimStart markdown) (JS.lit "<") = false ->
  let key := IndexTs.keyOf request pathname in
  let ct := JS.lit "text/markdown; charset=utf-8" in
  (exists resp,
     out = Ok resp /\ status resp = 200 /\ body resp = BodyText markdown
     /\ header resp "Content-Type" = Some ct
     /\ header resp "X-Cache"
        = Some (if w_bucket w then JS.lit "miss,r2-updated" else JS.lit "miss,no-r2")
     /\ header resp "X-Source-URL" = Some (IndexTs.targetOf request pathname))
  /\ (w_bucket w = true -> last (trace s1) = Some (EPut key (BodyText markdown) ct))
  /\ (w_bucket w = false -> last (trace s1) = Some (EToMarkdown name blob)).
Proof.
  intros Hd Ht Hrun Hin Hor Hdata Hgen.
  destruct (index_genuine_run _ _ _ _ _ _ _ _ _ _ Hd Ht Hrun Hin Hor Hdata Hgen)
    as (Hresp & Hlast & Hlast' & _).
  cbv zeta. auto.
Qed.

Lemma index_key_of_path (request again : Request) (pathname : jsstring) :
  IndexTs.keyOf again pathname = IndexTs.keyOf request pathname.
Proof.
  unfold IndexTs.keyOf, IndexTs.keyAndSource.
  destruct (JS.endsWith pathname (JS.lit ".md")); reflexivity.
Qed.

(** X14 (index.ts, lines 83-99 and 169-174): what a conversion
    writes, the lookup accepts.  After a conversion whose write to the key
    went through, a request for the same path without [refresh=1], made
    less than 90 days later against a store that returns the text it holds,
    is served from the store with that markdown: the source is not fetched
    and the store is left as it was. *)
Theorem stored_markdown_is_served_again (w later : World) (request again : Request)
    (pathname : jsstring) (objects : gmap jsstring R2Object)
    (out out2 : Res Response) (s1 s2 : State)
    (name : jsstring) (blob : Blob) (entry : AiEntry) (markdown : jsstring) :
  decodedPath request = Some pathname ->
  IndexTs.triggered request pathname = true ->
  IndexTs.fetch w request (start objects) = (out, s1) ->
  In (EToMarkdown name blob) (trace s1) ->
  w_toMarkdown w name blob = Ok (AiArray (Some entry)) ->
  ai_data entry = Some markdown ->
  JS.startsWith (JS.trimStart markdown) (JS.lit "<") = false ->
  let key := IndexTs.keyOf request pathname in
  w_bucket w = true ->
  w_put w key (BodyText markdown) = None ->
  decodedPath again = Some pathname ->
  IndexTs.triggered again pathname = true ->
  flagSet (req_url again) "refresh" = false ->
  w_bucket later = true ->
  w_get later key = None ->
  (w_now later - w_now w < MAX_AGE_MS)%Z ->
  (forall obj text, payload obj = BodyText text -> w_text later key obj = Ok text) ->
  IndexTs.fetch later again (start (store s1)) = (out2, s2) ->
  servedFromStore key s2
  /\ store s2 = store s1
  /\ exists resp, out2 = Ok resp /\ status resp = 200 /\ body resp = BodyText markdown.
Proof.
  intros Hd Ht Hrun Hin Hor Hdata Hgen key Hb Hput Hd2 Ht2 Hr Hb2 Hget Hage Htext Hrun2.
  destruct (index_genuine_run _ _ _ _ _ _ _ _ _ _ Hd Ht Hrun Hin Hor Hdata Hgen)
    as (_ & _ & _ & Hstored & _).
  cbv zeta in Hstored. specialize (Hstored Hb Hput). fold key in Hstored.
  pose proof (index_key_of_path request again pathname) as Hk. fold key in Hk.
  rewrite <- Hk in Hstored, Hget.
  destruct (index_hit later again pathname (store s1) _ out2 s2
              Hd2 Ht2 Hb2 Hr Hget Hstored) as (Hserved & Hstore & Hresp).
  - unfold IndexTs.ageOk, IndexTs.isMarkdownCT, written. cbn.
    apply andb_true_iff. split; [apply Z.ltb_lt; exact Hage|reflexivity].
  - exact Hrun2.
  - rewrite Hk in Hserved, Hresp. split; [exact Hserved|]. split; [exact Hstore|].
    apply Hresp, Htext. reflexivity.
Qed.

(** X13 (index.ts, lines 169-178): a write of genuine markdown that
    goes through replaces whatever the key held: the object under the key is
    then the markdown, declared as markdown, uploaded now, with the target,
    the time and the correlation id as metadata.  A write that fails leaves
    under the key what was there. *)
Theorem conversion_replaces_the_object (w : World) (request : Request)
    (pathname : jsstring) (objects : gmap jsstring R2Object) (out : Res Response)
    (s1 : State) (name : jsstring) (blob : Blob) (entry : AiEntry)
    (markdown : jsstring) :
  decodedPath request = Some pathname ->
  IndexTs.triggered request pathname = true ->
  IndexTs.fetch w request (start objects) = (out, s1) ->
  In (EToMarkdown name blob) (trace s1) ->
  w_toMarkdown w name blob = Ok (AiArray (Some entry)) ->
  ai_data entry = Some markdown ->
  JS.startsWith (JS.trimStart markdown) (JS.lit "<") = false ->
  w_bucket w = true ->
  let key := IndexTs.keyOf request pathname in
  (w_put w key (BodyText markdown) = None ->
   store s1 !! key
   = Some {| uploaded := UploadedDate (w_now w);
             contentType := DeclaredString (JS.lit "text/markdown; charset=utf-8");
             payload := BodyText markdown;
             customMetadata :=
               [(JS.lit "source", IndexTs.targetOf request pathname);
                (JS.lit "generatedAt", w_nowIso w); (JS.lit "reqId", w_reqId w)] |})
  /\ (is_Some (w_put w key (BodyText markdown)) -> store s1 !! key = objects !! key).
Proof.
  intros Hd Ht Hrun Hin Hor Hdata Hgen Hb.
  destruct (index_genuine_run _ _ _ _ _ _ _ _ _ _ Hd Ht Hrun Hin Hor Hdata Hgen)
    as (_ & _ & _ & Hstored & Hfailed).
  cbv zeta in *. split; [apply Hstored, Hb | exact Hfailed].
Qed.

End Genuine.

(** A run of X12: [/articles/foo.md] against a store whose writes
    fail. *)
Lemma genuine_conversion_is_delivered_run :
  let request := Toy.get "/articles/foo.md" [] None in
  let run := IndexTs.fetch (Toy.worldPutFails "# Foo") request (start ∅) in
  (exists resp,
     fst run = Ok resp /\ status resp = 200 /\ body resp = BodyText (JS.lit "# Foo")
     /\ header resp "X-Cache" = Some (JS.lit "miss,r2-updated"))
  /\ store (snd run) = ∅.
Proof.
  cbv zeta. split; [|vm_compute; reflexivity].
  set (run := IndexTs.fetch (Toy.worldPutFails "# Foo")
                (Toy.get "/articles/foo.md" [] None) (start ∅)).
  destruct (genuine_conversion_is_delivered (Toy.worldPutFails "# Foo")
              (Toy.get "/articles/foo.md" [] None) (JS.lit "/articles/foo.md") ∅
              (fst run) (snd run) (JS.lit "foo")
              {| blob_bytes := Toy.htmlPage; blob_type := JS.lit "text/html" |}
              (Toy.entry "# Foo") (JS.lit "# Foo")
              eq_refl eq_refl (surjective_pairing _))
    as ((resp & Hout & Hst & Hbody & _ & Hcache & _) & _).
  - vm_compute. auto 10.
  - reflexivity.
  - reflexivity.
  - reflexivity.
  - exists resp. auto.
Defined.

(** A run of X14: [/articles/foo.md] converted, then asked for
    again a day later. *)
Lemma stored_markdown_is_served_again_run :
  let request := Toy.get "/articles/foo.md" [] None in
  let first := IndexTs.fetch (Toy.world "# Foo") request (start ∅) in
  let again := IndexTs.fetch (Toy.world "# Foo") request (start (store (snd first))) in
  servedFromStore (JS.lit "articles/foo.md") (snd again)
  /\ exists resp, fst again = Ok resp /\ body resp = BodyText (JS.lit "# Foo").
Proof.
  cbv zeta.
  set (first := IndexTs.fetch (Toy.world "# Foo") (Toy.get "/articles/foo.md" [] None)
                  (start ∅)).
  set (again := IndexTs.fetch (Toy.world "# Foo") (Toy.get "/articles/foo.md" [] None)
                  (start (store (snd first)))).
  destruct (stored_markdown_is_served_again (Toy.world "# Foo") (Toy.world "# Foo")
              (Toy.get "/articles/foo.md" [] None) (Toy.get "/articles/foo.md" [] None)
              (JS.lit "/articles/foo.md") ∅ (fst first) (fst again) (snd first)
              (snd again) (JS.lit "foo")
              {| blob_bytes := Toy.htmlPage; blob_type := JS.lit "text/html" |}
              (Toy.entry "# Foo") (JS.lit "# Foo")
              eq_refl eq_refl (surjective_pairing _))
    as (Hserved & _ & resp & Hout & _ & Hbody).
  - vm_compute. auto 10.
  - reflexivity.
  - reflexivity.
  - reflexivity.
  - reflexivity.
  - reflexivity.
  - reflexivity.
  - reflexivity.
  - reflexivity.
  - reflexivity.
  - reflexivity.
  - reflexivity.
  - intros obj text Hp. cbn. rewrite Hp. reflexivity.
  - apply surjective_pairing.
  - split; [exact Hserved|]. exists resp. auto.
Defined.

(** A run of X13: [refresh=1] over an object stored a day ago. *)
Lemma conversion_replaces_the_object_run :
  let objects : gmap jsstring R2Object :=
    {[ JS.lit "articles/foo.md" := Toy.cached "# Old" dayMs ]} in
  let run := IndexTs.fetch (Toy.world "# Foo")
               (Toy.get "/articles/foo.md" [("refresh", "1")]%string None)
               (start objects) in
  payload <$> store (snd run) !! JS.lit "articles/foo.md"
  = Some (BodyText (JS.lit "# Foo")).
Proof.
  cbv zeta.
  set (objects := ({[ JS.lit "articles/foo.md" := Toy.cached "# Old" dayMs ]}
                    : gmap jsstring R2Object)).
  set (request := Toy.get "/articles/foo.md" [("refresh", "1")]%string None).
  set (run := IndexTs.fetch (Toy.world "# Foo") request (start objects)).
  assert (Hin : In (EToMarkdown (JS.lit "foo")
                      {| blob_bytes := Toy.htmlPage; blob_type := JS.lit "text/html" |})
                   (trace (snd run))) by (vm_compute; auto 10).
  pose proof (conversion_replaces_the_object (Toy.world "# Foo") request
                (JS.lit "/articles/foo.md") objects (fst run) (snd run) _ _
                (Toy.entry "# Foo") (JS.lit "# Foo")
                eq_refl eq_refl (surjective_pairing _) Hin eq_refl eq_refl eq_refl
                eq_refl) as Hs.
  cbv zeta in Hs. destruct Hs as [Hstored _]. specialize (Hstored eq_refl).
  change (IndexTs.keyOf request (JS.lit "/articles/foo.md"))
    with (JS.lit "articles/foo.md") in Hstored.
  rewrite Hstored. reflexivity.
Defined.

(** ** The page of the origin on its way to the converter *)

(** Two keys with different suffixes differ. *)
Ltac other_suffix :=
  let E := fresh in
  intros E; apply app_inv_head in E; vm_compute in E; discriminate E.

(** An equation between two of the keys of a request is absurd. *)
Ltac absurd_key E :=
  first [ apply app_inv_head in E; vm_compute in E; discriminate E
        | exfalso; revert E; apply app_ne_self; literal_nonempty
        | symmetry in E; exfalso; revert E; apply app_ne_self; literal_nonempty ].

Ltac distinct_keys := first [other_key | other_suffix | apply not_eq_sym; other_key].

Section OriginPage.
Context `{Platform}.

(** index.ts: the facts about a request whose source was fetched and read. *)
Lemma index_origin_page_run (w : World) (request : Request) (pathname : jsstring)
    (objects : gmap jsstring R2Object) (out : Res Response) (s1 : State)
    (target ua : jsstring) (upstream : Fetched) (bytes : list N) :
  decodedPath request = Some pathname ->
  IndexTs.triggered request pathname = true ->
  IndexTs.fetch w request (start objects) = (out, s1) ->
  In (EFetch target ua) (trace s1) ->
  w_fetch w target ua = Ok upstream ->
  ok upstream = true ->
  f_body upstream = Ok bytes ->
  let key := IndexTs.keyOf request pathname in
  let name := filenameOf (IndexTs.targetOf request pathname) in
  let blob := newBlob bytes (JS.orElse (declaredType upstream) (JS.lit "text/html")) in
  let saved := EPut (sourceKey key) (BodyBytes bytes) (declaredType upstream) in
  (target = IndexTs.targetOf request pathname /\ ua = userAgent request)
  /\ List.filter isConvert (trace s1) = [EToMarkdown name blob]
  /\ (flagSet (req_url request) "saveHtml" && w_bucket w = true ->
      (exists before after, trace s1 = before ++ saved :: EToMarkdown name blob :: after)
      /\ (w_put w (sourceKey key) (BodyBytes bytes) = None ->
          store s1 !! sourceKey key
          = Some (written w (BodyBytes bytes) (declaredType upstream)
                    [(JS.lit "source", IndexTs.targetOf request pathname);
                     (JS.lit "savedAt", w_nowIso w); (JS.lit "reqId", w_reqId w)])))
  /\ (flagSet (req_url request) "saveHtml" && w_bucket w = false ->
      (forall content ct, ~ In (EPut (sourceKey key) content ct) (trace s1))
      /\ store s1 !! sourceKey key = objects !! sourceKey key)
  /\ (forall results,
        w_toMarkdown w name blob = Ok results -> markdownOf results = None ->
        (exists resp,
           out = Ok resp /\ status resp = 500
           /\ body resp = BodyText (JS.lit "AI conversion failed")
           /\ header resp "X-Error" = Some (JS.lit "ai-invalid-result"))
        /\ last (trace s1) = Some (EToMarkdown name blob)
        /\ store s1 !! key = objects !! key).
Proof.
  intros Hd Ht Hrun. cbv zeta.
  rewrite (index_fetch_triggered _ _ _ Hd Ht) in Hrun. wp_start Hrun.
  unfold IndexTs.tryBlock, IndexTs.guarded, IndexTs.cacheCheck, IndexTs.convert,
    IndexTs.onUnhandled, start.
  wp_steps.
  all: intros Hin Hor Hok Hbody.
  all: in_trace Hin; injection Hin as <- <-.
  all: match goal with
       | E : w_fetch _ _ _ = _ |- _ =>
           rewrite Hor in E; try discriminate E; injection E as <-
       end.
  all: match goal with
       | E : negb (ok _) = _ |- _ => rewrite Hok in E; try discriminate E
       end.
  all: match goal with
       | E : f_body _ = _ |- _ => rewrite Hbody in E; try discriminate E; injection E as <-
       end.
  all: cbn [store trace].
  all: split; [split; reflexivity|].
  all: split; [reflexivity|].
  all: split;
    [intros Hc; first
       [discriminate Hc
       |split;
        [unfold sourceKey; rewrite <- ?app_assoc; cbn [app];
         first [eexists [_], _; reflexivity | eexists [_; _], _; reflexivity
               | eexists [], _; reflexivity]
        |intros Hput; unfold sourceKey, written in *; try congruence;
         rewrite ?lookup_insert_ne by distinct_keys; rewrite lookup_insert_eq;
         reflexivity]]|].
  all: split;
    [intros Hc; first
       [discriminate Hc
       |split;
        [intros content ct Hin; in_trace Hin; unfold sourceKey in Hin;
         injection Hin as Hk _ _; absurd_key Hk
        |unfold sourceKey; rewrite ?lookup_insert_ne by distinct_keys; reflexivity]]|].
  all: intros results Hres Hnone.
  all: match goal with
       | E : w_toMarkdown _ _ _ = _ |- _ =>
           rewrite Hres in E; try discriminate E; injection E as E; subst
       end.
  all: cbn [markdownOf ai_data] in Hnone; try discriminate Hnone.
  all: split;
    [eexists; split; [reflexivity|]; split; [reflexivity|]; split; [reflexivity|];
     header_other|].
  all: split; [apply last_snoc|].
  all: rewrite ?lookup_insert_ne by distinct_keys; first [reflexivity | assumption].
Qed.

(** X7 (index.ts, lines 104-143): the source is fetched at the target
    with the user agent of the request, and when it answers with a 2xx
    status and a body that can be read, the converter is called exactly
    once: with the filename hint of the target as name and a Blob of the
    bytes of the body, built with the declared type, or [text/html] when
    that is empty; the Blob holds that type in lower case, or no type when
    it has a unit outside U+0020..U+007E. *)
Theorem origin_page_goes_to_converter (w : World) (request : Request) (pathname : jsstring)
    (objects : gmap jsstring R2Object) (out : Res Response) (s1 : State)
    (target ua : jsstring) (upstream : Fetched) (bytes : list N) :
  decodedPath request = Some pathname ->
  IndexTs.triggered request pathname = true ->
  IndexTs.fetch w request (start objects) = (out, s1) ->
  In (EFetch target ua) (trace s1) ->
  w_fetch w target ua = Ok upstream ->
  ok upstream = true ->
  f_body upstream = Ok bytes ->
  let key := IndexTs.keyOf request pathname in
  let name := filenameOf (IndexTs.targetOf request pathname) in
  let blob := newBlob bytes (JS.orElse (declaredType upstream) (JS.lit "text/html")) in
  target = IndexTs.targetOf request pathname
  /\ ua = userAgent request
  /\ List.filter isConvert (trace s1) = [EToMarkdown name blob].
Proof.
  intros Hd Ht Hrun Hin Hor Hok Hbody.
  destruct (index_origin_page_run _ _ _ _ _ _ _ _ _ _ Hd Ht Hrun Hin Hor Hok Hbody)
    as ((Htarget & Hua) & Hcall & _).
  cbv zeta. auto.
Qed.

(** X10 (index.ts, lines 123-134): with [saveHtml=1] and a store bound,
    the bytes of the source are written under the key with [.source.html]
    appended, with the declared type, right before the converter is called
    and whether or not that write fails; when it goes through, the object
    is in the store at the end of the request.  Otherwise nothing is
    written under that key. *)
Theorem source_is_saved_aside (w : World) (request : Request) (pathname : jsstring)
    (objects : gmap jsstring R2Object) (out : Res Response) (s1 : State)
    (target ua : jsstring) (upstream : Fetched) (bytes : list N) :
  decodedPath request = Some pathname ->
  IndexTs.triggered request pathname = true ->
  IndexTs.fetch w request (start objects) = (out, s1) ->
  In (EFetch target ua) (trace s1) ->
  w_fetch w target ua = Ok upstream ->
  ok upstream = true ->
  f_body upstream = Ok bytes ->
  let key := IndexTs.keyOf request pathname in
  let name := filenameOf (IndexTs.targetOf request pathname) in
  let blob := newBlob bytes (JS.orElse (declaredType upstream) (JS.lit "text/html")) in
  let saved := EPut (sourceKey key) (BodyBytes bytes) (declaredType upstream) in
  (flagSet (req_url request) "saveHtml" && w_bucket w = true ->
   (exists before after, trace s1 = before ++ saved :: EToMarkdown name blob :: after)
   /\ (w_put w (sourceKey key) (BodyBytes bytes) = None ->
       store s1 !! sourceKey key
       = Some (written w (BodyBytes bytes) (declaredType upstream)
                 [(JS.lit "source", IndexTs.targetOf request pathname);
                  (JS.lit "savedAt", w_nowIso w); (JS.lit "reqId", w_reqId w)])))
  /\ (flagSet (req_url request) "saveHtml" && w_bucket w = false ->
      (forall content ct, ~ In (EPut (sourceKey key) content ct) (trace s1))
      /\ store s1 !! sourceKey key = objects !! sourceKey key).
Proof.
  intros Hd Ht Hrun Hin Hor Hok Hbody.
  destruct (index_origin_page_run _ _ _ _ _ _ _ _ _ _ Hd Ht Hrun Hin Hor Hok Hbody)
    as (_ & _ & Hsaved & Hnot & _).
  cbv zeta. auto.
Qed.

(** X11 (index.ts, lines 143-147): when the converter returns
    something that is not an array whose first entry carries a string, the
    response is 500 with the body [AI conversion failed] and the header
    X-Error [ai-invalid-result]; the converter call is the last call of the
    request, and the object under the key is what it was. *)
Theorem invalid_conversion_is_500 (w : World) (request : Request) (pathname : jsstring)
    (objects : gmap jsstring R2Object) (out : Res Response) (s1 : State)
    (target ua : jsstring) (upstream : Fetched) (bytes : list N) :
  decodedPath request = Some pathname ->
  IndexTs.triggered request pathname = true ->
  IndexTs.fetch w request (start objects) = (out, s1) ->
  In (EFetch target ua) (trace s1) ->
  w_fetch w target ua = Ok upstream ->
  ok upstream = true ->
  f_body upstream = Ok bytes ->
  let key := IndexTs.keyOf request pathname in
  let name := filenameOf (IndexTs.targetOf request pathname) in
  let blob := newBlob bytes (JS.orElse (declaredType upstream) (JS.lit "text/html")) in
  forall results,
    w_toMarkdown w name blob = Ok results ->
    markdownOf results = None ->
    (exists resp,
       out = Ok resp /\ status resp = 500
       /\ body resp = BodyText (JS.lit "AI conversion failed")
       /\ header resp "X-Error" = Some (JS.lit "ai-invalid-result"))
    /\ last (trace s1) = Some (EToMarkdown name blob)
    /\ store s1 !! key = objects !! key.
Proof.
  intros Hd Ht Hrun Hin Hor Hok Hbody.
  destruct (index_origin_page_run _ _ _ _ _ _ _ _ _ _ Hd Ht Hrun Hin Hor Hok Hbody)
    as (_ & _ & _ & _ & Hinvalid).
  cbv zeta. exact Hinvalid.
Qed.

End OriginPage.

(** A run of X7: the page of [/articles/foo] goes to the converter under
    the name [foo] and the type [text/html]. *)
Lemma origin_page_goes_to_converter_run :
  let run := IndexTs.fetch (Toy.world "# Foo") (Toy.get "/articles/foo.md" [] None)
               (start ∅) in
  List.filter isConvert (trace (snd run))
  = [EToMarkdown (JS.lit "foo")
       {| blob_bytes := Toy.htmlPage; blob_type := JS.lit "text/html" |}].
Proof.
  cbv zeta.
  set (run := IndexTs.fetch (Toy.world "# Foo") (Toy.get "/articles/foo.md" [] None)
                (start ∅)).
  assert (Hin : In (EFetch (JS.lit "https://example.com/articles/foo") DEFAULT_USER_AGENT)
                   (trace (snd run))) by (vm_compute; auto).
  pose proof (origin_page_goes_to_converter (Toy.world "# Foo")
                (Toy.get "/articles/foo.md" [] None) (JS.lit "/articles/foo.md") ∅
                (fst run) (snd run) _ _ examplePage Toy.htmlPage
                eq_refl eq_refl (surjective_pairing _) Hin eq_refl eq_refl eq_refl) as Hc.
  cbv zeta in Hc. destruct Hc as (_ & _ & Hc). rewrite Hc. vm_compute. reflexivity.
Defined.

(** A run of X10: with [saveHtml=1] the page is stored under
    [articles/foo.md.source.html] as [text/html]. *)
Lemma source_is_saved_aside_run :
  let run := IndexTs.fetch (Toy.world "# Foo")
               (Toy.get "/articles/foo.md" [("saveHtml", "1")]%string None) (start ∅) in
  (payload <$> store (snd run) !! JS.lit "articles/foo.md.source.html")
  = Some (BodyBytes Toy.htmlPage)
  /\ (contentType <$> store (snd run) !! JS.lit "articles/foo.md.source.html")
     = Some (DeclaredString (JS.lit "text/html")).
Proof.
  cbv zeta.
  set (request := Toy.get "/articles/foo.md" [("saveHtml", "1")]%string None).
  set (run := IndexTs.fetch (Toy.world "# Foo") request (start ∅)).
  assert (Hin : In (EFetch (JS.lit "https://example.com/articles/foo?saveHtml=1")
                      DEFAULT_USER_AGENT) (trace (snd run))) by (vm_compute; auto).
  pose proof (source_is_saved_aside (Toy.world "# Foo") request
                (JS.lit "/articles/foo.md") ∅ (fst run) (snd run) _ _ examplePage
                Toy.htmlPage eq_refl eq_refl (surjective_pairing _) Hin
                eq_refl eq_refl eq_refl) as Hs.
  cbv zeta in Hs. destruct Hs as (Hsaved & _).
  destruct (Hsaved eq_refl) as (_ & Hstored).
  specialize (Hstored eq_refl).
  change (sourceKey (IndexTs.keyOf request (JS.lit "/articles/foo.md")))
    with (JS.lit "articles/foo.md.source.html") in Hstored.
  rewrite Hstored. split; vm_compute; reflexivity.
Defined.

(** A run of X11: the converter returns an empty array. *)
Lemma invalid_conversion_is_500_run :
  let w := withConverter (Toy.world "# Foo") (Ok (AiArray None)) in
  let run := IndexTs.fetch w (Toy.get "/articles/foo.md" [] None) (start ∅) in
  (exists resp, fst run = Ok resp /\ status resp = 500
     /\ body resp = BodyText (JS.lit "AI conversion failed"))
  /\ store (snd run) !! JS.lit "articles/foo.md" = None.
Proof.
  cbv zeta.
  set (w := withConverter (Toy.world "# Foo") (Ok (AiArray None))).
  set (run := IndexTs.fetch w (Toy.get "/articles/foo.md" [] None) (start ∅)).
  assert (Hin : In (EFetch (JS.lit "https://example.com/articles/foo") DEFAULT_USER_AGENT)
                   (trace (snd run))) by (vm_compute; auto).
  pose proof (invalid_conversion_is_500 w
                (Toy.get "/articles/foo.md" [] None) (JS.lit "/articles/foo.md") ∅
                (fst run) (snd run) _ _ examplePage Toy.htmlPage
                eq_refl eq_refl (surjective_pairing _) Hin eq_refl eq_refl eq_refl
                (AiArray None) eq_refl eq_refl) as Hi.
  cbv zeta in Hi. destruct Hi as ((resp & Hout & Hst & Hbody & _) & _ & Hkey).
  split; [exists resp; auto|].
  change (IndexTs.keyOf (Toy.get "/articles/foo.md" [] None) (JS.lit "/articles/foo.md"))
    with (JS.lit "articles/foo.md") in Hkey.
  rewrite Hkey. reflexivity.
Defined.

(** ** What every request on the conversion path keeps *)

Section Invariants.
Context `{Platform}.

(** index.ts: the facts that hold at the end of every request on the
    conversion path, whatever the store, the origin and the converter do. *)
Lemma index_run_invariants (w : World) (request : Request) (pathname : jsstring)
    (objects : gmap jsstring R2Object) (out : Res Response) (s1 : State) :
  decodedPath request = Some pathname ->
  IndexTs.triggered request pathname = true ->
  IndexTs.fetch w request (start objects) = (out, s1) ->
  let key := IndexTs.keyOf request pathname in
  (forall k content ct, In (EPut k content ct) (trace s1) ->
     k = key \/ k = sourceKey key \/ k = failedKey key)
  /\ (forall content ct, In (EPut key content ct) (trace s1) ->
        ct = JS.lit "text/markdown; charset=utf-8"
        /\ exists markdown,
             content = BodyText markdown
             /\ JS.startsWith (JS.trim markdown) (JS.lit "<") = false)
  /\ (forall k, In (EGet k) (trace s1) \/ In (EText k) (trace s1) -> k = key)
  /\ (forall k, k <> key -> k <> sourceKey key -> k <> failedKey key ->
        store s1 !! k = objects !! k)
  /\ (forall k, is_Some (objects !! k) -> is_Some (store s1 !! k))
  /\ (length (List.filter isFetch (trace s1)) <= 1
      /\ length (List.filter isConvert (trace s1)) <= 1)%nat
  /\ ~ In EProxy (trace s1)
  /\ (exists resp, out = Ok resp /\ header resp "X-Debug-Request-Id" = Some (w_reqId w))
  /\ (w_bucket w = false ->
      List.filter isStoreCall (trace s1) = [] /\ store s1 = objects).
Proof.
  intros Hd Ht Hrun. cbv zeta.
  rewrite (index_fetch_triggered _ _ _ Hd Ht) in Hrun. wp_start Hrun.
  unfold IndexTs.tryBlock, IndexTs.guarded, IndexTs.cacheCheck, IndexTs.convert,
    IndexTs.onUnhandled, start.
  wp_steps.
  all: cbn [store trace]; unfold sourceKey, failedKey.
  all: split; [intros k content ct Hin; in_trace Hin; injection Hin as <- _ _; auto|].
  all: split;
    [intros content ct Hin; in_trace Hin;
     first [injection Hin as Hk _ _; absurd_key Hk
           | injection Hin as <- <-; split; [reflexivity|];
             eexists; split; [reflexivity|assumption]]|].
  all: split;
    [intros k [Hin|Hin]; in_trace Hin; injection Hin as <-; reflexivity|].
  all: split;
    [intros k H1 H2 H3; rewrite ?lookup_insert_ne by (apply not_eq_sym; assumption);
     first [reflexivity | symmetry; assumption | assumption]|].
  all: split; [intros k Hk; repeat apply lookup_after_put; exact Hk|].
  all: split; [cbn [app List.filter isFetch isConvert length]; lia|].
  all: split; [intros Hin; in_trace Hin|].
  all: split;
    [eexists; split; [reflexivity|];
     unfold header, IndexTs.debugHeadersOf; cbn [headers]; cbv beta iota;
     repeat match goal with |- context [if ?c then _ else _] => destruct c end;
     rewrite withDefaultType_other by reflexivity;
     repeat rewrite headers_get_set_other by reflexivity;
     apply headers_get_set; reflexivity|].
  all: intros Hb; try congruence.
  all: try (rewrite Hb in *); cbn [andb] in *; rewrite ?andb_false_r in *.
  all: try congruence.
  all: split; reflexivity.
Qed.

(** X15 (index.ts, lines 81-190): a request on the conversion path
    writes under its key, under the key with [.source.html] appended and
    under the key with [.ai-failed.txt] appended, and nowhere else.  What it
    writes under the key is a text that, trimmed, does not begin with [<],
    declared as markdown.  Every other object of the store is left as it
    was, and no object is removed. *)
Theorem writes_stay_under_the_key (w : World) (request : Request) (pathname : jsstring)
    (objects : gmap jsstring R2Object) (out : Res Response) (s1 : State) :
  decodedPath request = Some pathname ->
  IndexTs.triggered request pathname = true ->
  IndexTs.fetch w request (start objects) = (out, s1) ->
  let key := IndexTs.keyOf request pathname in
  (forall k content ct, In (EPut k content ct) (trace s1) ->
     k = key \/ k = sourceKey key \/ k = failedKey key)
  /\ (forall content ct, In (EPut key content ct) (trace s1) ->
        ct = JS.lit "text/markdown; charset=utf-8"
        /\ exists markdown,
             content = BodyText markdown
             /\ JS.startsWith (JS.trim markdown) (JS.lit "<") = false)
  /\ (forall k, k <> key -> k <> sourceKey key -> k <> failedKey key ->
        store s1 !! k = objects !! k)
  /\ (forall k, is_Some (objects !! k) -> is_Some (store s1 !! k)).
Proof.
  intros Hd Ht Hrun.
  destruct (index_run_invariants _ _ _ _ _ _ Hd Ht Hrun)
    as (Hputs & Hkey & _ & Hother & Hkept & _).
  cbv zeta. auto.
Qed.

(** X16 (index.ts, lines 83-91 and the guards on MARKDOWN_BUCKET): the
    only key that is read is the key of the request, and without a store
    bound no call to the store is made at all. *)
Theorem store_is_read_at_the_key_only (w : World) (request : Request) (pathname : jsstring)
    (objects : gmap jsstring R2Object) (out : Res Response) (s1 : State) :
  decodedPath request = Some pathname ->
  IndexTs.triggered request pathname = true ->
  IndexTs.fetch w request (start objects) = (out, s1) ->
  let key := IndexTs.keyOf request pathname in
  (forall k, In (EGet k) (trace s1) \/ In (EText k) (trace s1) -> k = key)
  /\ (w_bucket w = false ->
      List.filter isStoreCall (trace s1) = [] /\ store s1 = objects).
Proof.
  intros Hd Ht Hrun.
  destruct (index_run_invariants _ _ _ _ _ _ Hd Ht Hrun)
    as (_ & _ & Hreads & _ & _ & _ & _ & _ & Hnone).
  cbv zeta. auto.
Qed.

(** X17 (index.ts, lines 81-190): a request on the conversion path
    fetches the source at most once and calls the converter at most once,
    whatever fails on the way, and it never hands the request itself to the
    origin. *)
Theorem one_fetch_one_conversion (w : World) (request : Request) (pathname : jsstring)
    (objects : gmap jsstring R2Object) (out : Res Response) (s1 : State) :
  decodedPath request = Some pathname ->
  IndexTs.triggered request pathname = true ->
  IndexTs.fetch w request (start objects) = (out, s1) ->
  (length (List.filter isFetch (trace s1)) <= 1)%nat
  /\ (length (List.filter isConvert (trace s1)) <= 1)%nat
  /\ ~ In EProxy (trace s1).
Proof.
  intros Hd Ht Hrun.
  destruct (index_run_invariants _ _ _ _ _ _ Hd Ht Hrun)
    as (_ & _ & _ & _ & _ & (Hfetch & Hconv) & Hproxy & _).
  auto.
Qed.

(** X18 (index.ts, lines 76-79 and 186-189): every answer on the
    conversion path, whether served from the store, converted, quarantined
    or an error, carries the correlation id of the request in the header
    X-Debug-Request-Id. *)
Theorem every_answer_carries_the_request_id (w : World) (request : Request)
    (pathname : jsstring) (objects : gmap jsstring R2Object) (out : Res Response)
    (s1 : State) :
  decodedPath request = Some pathname ->
  IndexTs.triggered request pathname = true ->
  IndexTs.fetch w request (start objects) = (out, s1) ->
  exists resp, out = Ok resp /\ header resp "X-Debug-Request-Id" = Some (w_reqId w).
Proof.
  intros Hd Ht Hrun.
  destruct (index_run_invariants _ _ _ _ _ _ Hd Ht Hrun)
    as (_ & _ & _ & _ & _ & _ & _ & Hid & _).
  exact Hid.
Qed.

End Invariants.

(** A run of X15: a conversion with [saveHtml=1] leaves an object
    under another key as it was. *)
Lemma writes_stay_under_the_key_run :
  let objects : gmap jsstring R2Object :=
    {[ JS.lit "notes/other.md" := Toy.cached "# Other" dayMs ]} in
  let run := IndexTs.fetch (Toy.world "# Foo")
               (Toy.get "/articles/foo.md" [("saveHtml", "1")]%string None)
               (start objects) in
  store (snd run) !! JS.lit "notes/other.md" = Some (Toy.cached "# Other" dayMs)
  /\ is_Some (store (snd run) !! JS.lit "articles/foo.md").
Proof.
  cbv zeta.
  set (objects := ({[ JS.lit "notes/other.md" := Toy.cached "# Other" dayMs ]}
                    : gmap jsstring R2Object)).
  set (request := Toy.get "/articles/foo.md" [("saveHtml", "1")]%string None).
  set (run := IndexTs.fetch (Toy.world "# Foo") request (start objects)).
  pose proof (writes_stay_under_the_key (Toy.world "# Foo") request
                (JS.lit "/articles/foo.md") objects (fst run) (snd run)
                eq_refl eq_refl (surjective_pairing _)) as Hw.
  cbv zeta in Hw. destruct Hw as (_ & _ & Hother & _).
  split; [|vm_compute; eauto].
  rewrite (Hother (JS.lit "notes/other.md")).
  - apply lookup_singleton_eq.
  - vm_compute. discriminate.
  - vm_compute. discriminate.
  - vm_compute. discriminate.
Defined.

(** A run of X16: without a store the request fetches and converts, and
    calls nothing else. *)
Lemma store_is_read_at_the_key_only_run :
  let run := IndexTs.fetch (withoutStore (Toy.world "# Foo"))
               (Toy.get "/articles/foo.md" [] None) (start ∅) in
  List.filter isStoreCall (trace (snd run)) = [] /\ store (snd run) = ∅.
Proof.
  cbv zeta.
  set (run := IndexTs.fetch (withoutStore (Toy.world "# Foo"))
                (Toy.get "/articles/foo.md" [] None) (start ∅)).
  pose proof (store_is_read_at_the_key_only (withoutStore (Toy.world "# Foo"))
                (Toy.get "/articles/foo.md" [] None) (JS.lit "/articles/foo.md") ∅
                (fst run) (snd run) eq_refl eq_refl (surjective_pairing _)) as Hs.
  cbv zeta in Hs. apply (proj2 Hs). reflexivity.
Defined.

(** A run of X17: the origin cannot be reached. *)
Lemma one_fetch_one_conversion_run :
  let run := IndexTs.fetch Toy.worldFetchThrows (Toy.get "/articles/foo.md" [] None)
               (start ∅) in
  (length (List.filter isFetch (trace (snd run))) <= 1)%nat
  /\ (length (List.filter isConvert (trace (snd run))) <= 1)%nat.
Proof.
  cbv zeta.
  set (run := IndexTs.fetch Toy.worldFetchThrows (Toy.get "/articles/foo.md" [] None)
                (start ∅)).
  destruct (one_fetch_one_conversion Toy.worldFetchThrows
              (Toy.get "/articles/foo.md" [] None) (JS.lit "/articles/foo.md") ∅
              (fst run) (snd run) eq_refl eq_refl (surjective_pairing _))
    as (Hf & Hc & _).
  split; assumption.
Defined.

(** A run of X18: the 502 for an origin that answers 404. *)
Lemma every_answer_carries_the_request_id_run :
  let run := IndexTs.fetch Toy.worldOrigin404 (Toy.get "/articles/foo.md" [] None)
               (start ∅) in
  exists resp,
    fst run = Ok resp /\ header resp "X-Debug-Request-Id" = Some (JS.lit "req-1").
Proof.
  cbv zeta.
  exact (every_answer_carries_the_request_id Toy.worldOrigin404
           (Toy.get "/articles/foo.md" [] None) (JS.lit "/articles/foo.md") ∅ _ _
           eq_refl eq_refl (surjective_pairing _)).
Defined.

(** ** The two other variants *)

Section Variants.
Context `{Platform}.




(** X20 (worker-md-final.ts, lines 54-65; index.ts, lines 43-47):
    worker-md-final.ts looks at the path alone.  A request whose path does
    not end in [.md] is handed to the origin whatever its Accept header
    says: one call, and the response of the origin as it is (without
    [debug=1]).  When the header asks for markdown, index.ts converts the
    same request instead and never hands it to the origin. *)
Theorem final_looks_at_the_path_alone (w : World) (request : Request)
    (pathname : jsstring) (objects : gmap jsstring R2Object) :
  decodedPath request = Some pathname ->
  JS.endsWith pathname (JS.lit ".md") = false ->
  flagSet (req_url request) "debug" = false ->
  WorkerMdFinal.fetch w request (start objects)
  = (match w_proxy w with
     | Ok proxied => Ok (passThrough proxied)
     | Throw err => Throw err
     end,
     {| store := objects; trace := [EProxy] |})
  /\ (IndexTs.prefersMarkdownByPresence (req_accept request) = true ->
      ~ In EProxy (trace (snd (IndexTs.fetch w request (start objects))))).
Proof.
  intros Hd Hmd Hdebug. split.
  - unfold decodedPath in Hd. unfold WorkerMdFinal.fetch. rewrite Hd, Hmd, Hdebug.
    cbv [negb start bind proxyFetch emit liftRes ret store trace app].
    destruct (w_proxy w); reflexivity.
  - intros Hacc.
    assert (Ht : IndexTs.triggered request pathname = true)
      by (unfold IndexTs.triggered; rewrite Hacc; reflexivity).
    destruct (index_run_invariants w request pathname objects _ _ Hd Ht
                (surjective_pairing _)) as (_ & _ & _ & _ & _ & _ & Hproxy & _).
    exact Hproxy.
Qed.

End Variants.


(** A run of X20: [/page] with [Accept: text/markdown]. *)
Lemma final_looks_at_the_path_alone_run :
  let request := Toy.get "/page" [] (Some "text/markdown"%string) in
  let w := Toy.world "# Page" in
  trace (snd (WorkerMdFinal.fetch w request (start ∅))) = [EProxy]
  /\ ~ In EProxy (trace (snd (IndexTs.fetch w request (start ∅)))).
Proof.
  cbv zeta.
  destruct (final_looks_at_the_path_alone (Toy.world "# Page")
              (Toy.get "/page" [] (Some "text/markdown"%string)) (JS.lit "/page") ∅
              eq_refl eq_refl eq_refl) as [Hfinal Hindex].
  split; [rewrite Hfinal; reflexivity|]. apply Hindex. reflexivity.
Defined.

(** ** Where the variants differ *)

Section Differences.
Context `{Platform}.

(** X22 (index.ts, lines 90-99): a hit of index.ts is answered
    with status 200, the text read from the store, [X-Cache: r2] and the
    target as X-Source-URL.  The branch sets no content type, so the
    response carries the one that the Response constructor gives to a string
    body; under [debug=1] it also carries the upload time and the stored
    content type, and without it neither. *)
Theorem index_hit_headers (w : World) (request : Request) (pathname : jsstring)
    (objects : gmap jsstring R2Object) (obj : R2Object) (text declared : jsstring)
    (time : Z) :
  decodedPath request = Some pathname ->
  IndexTs.triggered request pathname = true ->
  w_bucket w = true ->
  flagSet (req_url request) "refresh" = false ->
  let key := IndexTs.keyOf request pathname in
  w_get w key = None ->
  objects !! key = Some obj ->
  contentType obj = DeclaredString declared ->
  JS.startsWith (JS.toLowerCase declared) (JS.lit "text/markdown") = true ->
  uploaded obj = UploadedDate time ->
  (w_now w - time < MAX_AGE_MS)%Z ->
  w_text w key obj = Ok text ->
  exists resp,
    IndexTs.fetch w request (start objects)
    = (Ok resp, {| store := objects; trace := [EGet key; EText key] |})
    /\ status resp = 200 /\ body resp = BodyText text
    /\ header resp "X-Cache" = Some (JS.lit "r2")
    /\ header resp "X-Source-URL" = Some (IndexTs.targetOf request pathname)
    /\ header resp "Content-Type" = Some (JS.lit "text/plain;charset=UTF-8")
    /\ header resp "X-Debug-R2-Uploaded"
       = (if flagSet (req_url request) "debug" then Some (date_toISOString time) else None)
    /\ header resp "X-Debug-R2-ContentType"
       = (if flagSet (req_url request) "debug" then Some declared else None).
Proof.
  intros Hd Ht Hb Hr key Hget Hobj Hct Hmd Hup Hage Htext. subst key.
  rewrite (index_fetch_triggered _ _ _ Hd Ht).
  unfold IndexTs.tryBlock, IndexTs.guarded, IndexTs.cacheCheck.
  rewrite Hb, Hr. cbn [andb negb].
  cbv [tryCatch bind bucketGet objectText respond liftRes ret emit start store trace app
       newResponse].
  rewrite Hget. cbv beta iota. rewrite Hobj. cbv beta iota.
  unfold IndexTs.ageOk, IndexTs.isMarkdownCT, IndexTs.getTimeIfDate,
    IndexTs.contentTypeOrEmpty.
  rewrite Hct, Hup, Hmd. cbn [getTime]. rewrite (proj2 (Z.ltb_lt _ _) Hage), Htext.
  cbv beta iota. cbn [fst snd N.leb andb negb isNullBodyStatus].
  eexists. split; [reflexivity|]. split; [reflexivity|]. split; [reflexivity|].
  unfold header, IndexTs.debugHeadersOf. cbn [headers].
  destruct (flagSet (req_url request) "debug"); repeat split; reflexivity.
Qed.

(** X23 (worker-md-accept-presence-logs.ts, lines 167-189): in the
    logging variant the write of genuine markdown is not guarded.  When the
    store rejects it, the catch block answers 500 with the text of the error
    and no correlation id, and the key holds what it held; the markdown is
    delivered exactly when no store is bound or the write goes through. *)
Theorem logs_delivers_only_what_it_stored (w : World) (request : Request)
    (pathname : jsstring) (objects : gmap jsstring R2Object) (out : Res Response)
    (s1 : State) (name : jsstring) (blob : Blob) (entry : AiEntry)
    (markdown : jsstring) :
  decodedPath request = Some pathname ->
  WorkerMdAcceptPresenceLogs.triggered request pathname = true ->
  WorkerMdAcceptPresenceLogs.fetch w request (start objects) = (out, s1) ->
  In (EToMarkdown name blob) (trace s1) ->
  w_toMarkdown w name blob = Ok (AiArray (Some entry)) ->
  ai_data entry = Some markdown ->
  JS.startsWith (JS.trimStart markdown) (JS.lit "<") = false ->
  let key := WorkerMdAcceptPresenceLogs.keyOf request pathname in
  (w_bucket w = true ->
   forall err, w_put w key (BodyText markdown) = Some err ->
     (exists resp,
        out = Ok resp /\ status resp = 500
        /\ body resp = BodyText (String_of_thrown err)
        /\ header resp "X-Debug-Request-Id" = None)
     /\ store s1 !! key = objects !! key)
  /\ (w_bucket w = false \/ w_put w key (BodyText markdown) = None ->
      delivered markdown out).
Proof.
  intros Hd Ht Hrun. rewrite <- looksLikeHtml_trimStart. cbv zeta.
  rewrite (logs_fetch_triggered _ _ _ Hd Ht) in Hrun. wp_start Hrun.
  unfold WorkerMdAcceptPresenceLogs.tryBlock, WorkerMdAcceptPresenceLogs.guarded,
    WorkerMdAcceptPresenceLogs.cacheCheck, WorkerMdAcceptPresenceLogs.convert,
    WorkerMdAcceptPresenceLogs.onUnhandled, start.
  wp_steps.
  all: intros Hin Hor Hdata Htrim.
  all: converter_facts Hin Hor Hdata.
  all: try congruence.
  all: cbn [store trace]; unfold delivered, header.
  all: split;
    [intros Hb err Hput; first
       [congruence
       |match goal with
        | E : w_put _ _ _ = Some _ |- _ => rewrite Hput in E; injection E as <-
        end;
        split;
        [eexists; split; [reflexivity|]; split; [reflexivity|]; split; reflexivity
        |rewrite ?lookup_insert_ne by distinct_keys; first [reflexivity | assumption]]]
    |intros [Hb|Hput]; first
       [congruence
       |eexists; split; [reflexivity|]; split; [reflexivity|]; split; [reflexivity|];
        header_value]].
Qed.

(** X24 (index.ts, lines 151-166): when the text of the converter looks
    like HTML, the header X-Note of the answer tells what became of the
    quarantine write: [ai-output-looks-like-html-saved] when it went
    through, [ai-output-looks-like-html-save-failed] when the store rejected
    it, and no X-Note at all when no store is bound.  A write that went
    through leaves the text under the quarantine key as plain text. *)
Theorem quarantine_note_reports_the_write (w : World) (request : Request)
    (pathname : jsstring) (objects : gmap jsstring R2Object) (out : Res Response)
    (s1 : State) (name : jsstring) (blob : Blob) (entry : AiEntry)
    (markdown : jsstring) :
  decodedPath request = Some pathname ->
  IndexTs.triggered request pathname = true ->
  IndexTs.fetch w request (start objects) = (out, s1) ->
  In (EToMarkdown name blob) (trace s1) ->
  w_toMarkdown w name blob = Ok (AiArray (Some entry)) ->
  ai_data entry = Some markdown ->
  JS.startsWith (JS.trimStart markdown) (JS.lit "<") = true ->
  let side := failedKey (IndexTs.keyOf request pathname) in
  (exists resp,
     out = Ok resp
     /\ header resp "X-Note"
        = (if w_bucket w then
             match w_put w side (BodyText markdown) with
             | None => Some (JS.lit "ai-output-looks-like-html-saved")
             | Some _ => Some (JS.lit "ai-output-looks-like-html-save-failed")
             end
           else None))
  /\ (w_bucket w = true -> w_put w side (BodyText markdown) = None ->
      store s1 !! side
      = Some (written w (BodyText markdown) (JS.lit "text/plain; charset=utf-8")
                [(JS.lit "source", IndexTs.targetOf request pathname);
                 (JS.lit "note", JS.lit "ai-output-looks-like-html");
                 (JS.lit "time", w_nowIso w); (JS.lit "reqId", w_reqId w)])).
Proof.
  intros Hd Ht Hrun. rewrite <- looksLikeHtml_trimStart. cbv zeta. unfold failedKey.
  rewrite (index_fetch_triggered _ _ _ Hd Ht) in Hrun. wp_start Hrun.
  unfold IndexTs.tryBlock, IndexTs.guarded, IndexTs.cacheCheck, IndexTs.convert,
    IndexTs.onUnhandled, start.
  wp_steps.
  all: intros Hin Hor Hdata Htrim.
  all: converter_facts Hin Hor Hdata.
  all: try congruence.
  all: cbn [store trace]; unfold written.
  all: split;
    [eexists; split; [reflexivity|];
     repeat match goal with
            | E : w_put _ _ _ = _ |- _ => rewrite E; clear E
            end;
     cbv beta iota;
     first [header_other
           |unfold header, IndexTs.debugHeadersOf; cbn [headers];
            rewrite withDefaultType_other by reflexivity;
            repeat rewrite headers_get_set_other by reflexivity; reflexivity]
    |intros Hb Hput; first
       [congruence | rewrite lookup_insert_eq; reflexivity]].
Qed.

End Differences.

(** A run of X22: the object stored a day ago, asked for with
    [debug=1]. *)
Lemma index_hit_headers_run :
  let request := Toy.get "/articles/foo.md" [("debug", "1")]%string None in
  let objects : gmap jsstring R2Object :=
    {[ JS.lit "articles/foo.md" := Toy.cached "# Old" dayMs ]} in
  exists resp,
    fst (IndexTs.fetch (Toy.world "# Foo") request (start objects)) = Ok resp
    /\ body resp = BodyText (JS.lit "# Old")
    /\ header resp "Content-Type" = Some (JS.lit "text/plain;charset=UTF-8")
    /\ header resp "X-Debug-R2-ContentType"
       = Some (JS.lit "text/markdown; charset=utf-8").
Proof.
  cbv zeta.
  set (request := Toy.get "/articles/foo.md" [("debug", "1")]%string None).
  set (objects := ({[ JS.lit "articles/foo.md" := Toy.cached "# Old" dayMs ]}
                    : gmap jsstring R2Object)).
  assert (Hobj : objects !! IndexTs.keyOf request (JS.lit "/articles/foo.md")
                 = Some (Toy.cached "# Old" dayMs)) by apply lookup_singleton_eq.
  destruct (index_hit_headers (Toy.world "# Foo") request (JS.lit "/articles/foo.md")
              objects (Toy.cached "# Old" dayMs) (JS.lit "# Old")
              (JS.lit "text/markdown; charset=utf-8") (1700000000000 - dayMs)%Z
              eq_refl eq_refl eq_refl eq_refl eq_refl Hobj eq_refl eq_refl eq_refl
              eq_refl eq_refl)
    as (resp & Hrun & _ & Hbody & _ & _ & Hct & _ & Hdeclared).
  exists resp. rewrite Hrun. auto.
Defined.

(** A run of X23: the store rejects the write. *)
Lemma logs_delivers_only_what_it_stored_run :
  let run := WorkerMdAcceptPresenceLogs.fetch (Toy.worldPutFails "# Foo")
               (Toy.get "/articles/foo.md" [] None) (start ∅) in
  exists resp,
    fst run = Ok resp /\ status resp = 500
    /\ body resp = BodyText (JS.lit "Error: put failed").
Proof.
  cbv zeta.
  set (run := WorkerMdAcceptPresenceLogs.fetch (Toy.worldPutFails "# Foo")
                (Toy.get "/articles/foo.md" [] None) (start ∅)).
  assert (Hin : In (EToMarkdown (JS.lit "foo")
                      {| blob_bytes := Toy.htmlPage; blob_type := JS.lit "text/html" |})
                   (trace (snd run))) by (vm_compute; auto 10).
  pose proof (logs_delivers_only_what_it_stored (Toy.worldPutFails "# Foo")
                (Toy.get "/articles/foo.md" [] None) (JS.lit "/articles/foo.md") ∅
                (fst run) (snd run) _ _ (Toy.entry "# Foo") (JS.lit "# Foo")
                eq_refl eq_refl (surjective_pairing _) Hin eq_refl eq_refl eq_refl) as Hl.
  cbv zeta in Hl. destruct Hl as [Hfail _].
  destruct (Hfail eq_refl _ eq_refl) as ((resp & Hout & Hst & Hbody & _) & _).
  exists resp. auto.
Defined.

(** A run of X24: the converter echoes the page and the store rejects
    the write. *)
Lemma quarantine_note_reports_the_write_run :
  let run := IndexTs.fetch (Toy.worldPutFails "<html>...</html>")
               (Toy.get "/articles/foo.md" [] None) (start ∅) in
  exists resp,
    fst run = Ok resp
    /\ header resp "X-Note" = Some (JS.lit "ai-output-looks-like-html-save-failed").
Proof.
  cbv zeta.
  set (run := IndexTs.fetch (Toy.worldPutFails "<html>...</html>")
                (Toy.get "/articles/foo.md" [] None) (start ∅)).
  assert (Hin : In (EToMarkdown (JS.lit "foo")
                      {| blob_bytes := Toy.htmlPage; blob_type := JS.lit "text/html" |})
                   (trace (snd run))) by (vm_compute; auto 10).
  pose proof (quarantine_note_reports_the_write (Toy.worldPutFails "<html>...</html>")
                (Toy.get "/articles/foo.md" [] None) (JS.lit "/articles/foo.md") ∅
                (fst run) (snd run) _ _ (Toy.entry "<html>...</html>")
                (JS.lit "<html>...</html>")
                eq_refl eq_refl (surjective_pairing _) Hin eq_refl eq_refl eq_refl) as Hn.
  cbv zeta in Hn. destruct Hn as ((resp & Hout & Hnote) & _).
  exists resp. split; [exact Hout|exact Hnote].
Defined.

(** ** A forced refresh *)

Section Refresh.
Context `{Platform}.

(** index.ts with [refresh=1]: the store is not read, and the first call is
    the fetch of the source. *)
Lemma index_refresh_run (w : World) (request : Request) (pathname : jsstring)
    (objects : gmap jsstring R2Object) (out : Res Response) (s1 : State) :
  decodedPath request = Some pathname ->
  IndexTs.triggered request pathname = true ->
  flagSet (req_url request) "refresh" = true ->
  IndexTs.fetch w request (start objects) = (out, s1) ->
  (forall key, ~ In (EGet key) (trace s1))
  /\ (forall key, ~ In (EText key) (trace s1))
  /\ exists rest,
       trace s1 = EFetch (IndexTs.targetOf request pathname) (userAgent request) :: rest.
Proof.
  intros Hd Ht Hr Hrun. rewrite (index_fetch_triggered _ _ _ Hd Ht) in Hrun.
  wp_start Hrun.
  unfold IndexTs.tryBlock, IndexTs.guarded, IndexTs.cacheCheck. rewrite Hr, andb_false_r.
  unfold IndexTs.convert, IndexTs.onUnhandled, start.
  wp_steps.
  all: split; [intros key Hin; in_trace Hin|].
  all: split; [intros key Hin; in_trace Hin|].
  all: trace_eq.
Qed.

(** C8: with [refresh=1] a request on the conversion path never reads the
    store, neither the key nor the body of an object, whatever the store
    holds: its first call is the fetch of the source, as on a miss.  When
    the source answers with a 2xx status and a body that can be read, the
    converter is called once, on that body; and when it returns genuine
    markdown, the markdown is delivered with status 200 and, with a store
    bound, written to the key as the last call of the request, so that the
    key holds the new markdown once the write has gone through. *)
Theorem refresh_bypasses_store (w : World) (request : Request) (pathname : jsstring)
    (objects : gmap jsstring R2Object) (out : Res Response) (s1 : State) :
  decodedPath request = Some pathname ->
  IndexTs.triggered request pathname = true ->
  flagSet (req_url request) "refresh" = true ->
  IndexTs.fetch w request (start objects) = (out, s1) ->
  let key := IndexTs.keyOf request pathname in
  let target := IndexTs.targetOf request pathname in
  let ua := userAgent request in
  let name := filenameOf target in
  let ct := JS.lit "text/markdown; charset=utf-8" in
  (forall key, ~ In (EGet key) (trace s1))
  /\ (forall key, ~ In (EText key) (trace s1))
  /\ (exists rest, trace s1 = EFetch target ua :: rest)
  /\ forall upstream bytes,
       w_fetch w target ua = Ok upstream ->
       ok upstream = true ->
       f_body upstream = Ok bytes ->
       let blob :=
         newBlob bytes (JS.orElse (declaredType upstream) (JS.lit "text/html")) in
       List.filter isConvert (trace s1) = [EToMarkdown name blob]
       /\ forall entry markdown,
            w_toMarkdown w name blob = Ok (AiArray (Some entry)) ->
            ai_data entry = Some markdown ->
            JS.startsWith (JS.trimStart markdown) (JS.lit "<") = false ->
            delivered markdown out
            /\ (w_bucket w = true ->
                last (trace s1) = Some (EPut key (BodyText markdown) ct)
                /\ (w_put w key (BodyText markdown) = None ->
                    store s1 !! key
                    = Some (written w (BodyText markdown) ct
                              [(JS.lit "source", target);
                               (JS.lit "generatedAt", w_nowIso w);
                               (JS.lit "reqId", w_reqId w)]))).
Proof.
  intros Hd Ht Hr Hrun. cbv zeta.
  destruct (index_refresh_run _ _ _ _ _ _ Hd Ht Hr Hrun) as (Hget & Htext & Hfirst).
  split; [exact Hget|]. split; [exact Htext|]. split; [exact Hfirst|].
  intros upstream bytes Hfetch Hok Hbody.
  assert (Hin : In (EFetch (IndexTs.targetOf request pathname) (userAgent request))
                   (trace s1))
    by (destruct Hfirst as [rest ->]; left; reflexivity).
  destruct (index_origin_page_run _ _ _ _ _ _ _ _ _ _ Hd Ht Hrun Hin Hfetch Hok Hbody)
    as (_ & Hcall & _).
  cbv zeta in Hcall. split; [exact Hcall|].
  intros entry markdown Hor Hdata Hgen.
  assert (Hconv : In (EToMarkdown
                        (filenameOf (IndexTs.targetOf request pathname))
                        (newBlob bytes
                           (JS.orElse (declaredType upstream) (JS.lit "text/html"))))
                     (trace s1)).
  { apply (proj1 (List.filter_In isConvert _ (trace s1))).
    rewrite Hcall. left. reflexivity. }
  destruct (index_genuine_run _ _ _ _ _ _ _ _ _ _ Hd Ht Hrun Hconv Hor Hdata Hgen)
    as (Hresp & Hlast & _ & Hstore & _).
  cbv zeta in Hresp, Hlast, Hstore.
  split.
  - destruct Hresp as (resp & -> & Hst & Hb & Hct & _).
    exists resp. auto.
  - intros Hb. split; [exact (Hlast Hb)|]. intros Hput. exact (Hstore Hb Hput).
Qed.

End Refresh.

(** A run of C8: the object under [articles/foo.md] is a day old, and with
    [refresh=1] it is not looked at: the source is fetched and converted,
    and the key holds the new markdown. *)
Lemma refresh_bypasses_store_run :
  let request := Toy.get "/articles/foo.md" [("refresh", "1")]%string None in
  let w := Toy.world "# Foo" in
  let run := IndexTs.fetch w request
               (start {[ JS.lit "articles/foo.md" := Toy.cached "# Old" dayMs ]}) in
  (forall key, ~ In (EGet key) (trace (snd run)))
  /\ (exists rest,
        trace (snd run)
        = EFetch (JS.lit "https://example.com/articles/foo?refresh=1")
            DEFAULT_USER_AGENT :: rest)
  /\ delivered (JS.lit "# Foo") (fst run)
  /\ payload <$> (store (snd run) !! JS.lit "articles/foo.md")
     = Some (BodyText (JS.lit "# Foo")).
Proof.
  cbv zeta.
  destruct (refresh_bypasses_store (Toy.world "# Foo")
              (Toy.get "/articles/foo.md" [("refresh", "1")]%string None)
              (JS.lit "/articles/foo.md")
              {[ JS.lit "articles/foo.md" := Toy.cached "# Old" dayMs ]} _ _
              eq_refl eq_refl eq_refl (surjective_pairing _))
    as (Hget & _ & Hfirst & Hregen).
  split; [exact Hget|]. split; [exact Hfirst|].
  destruct (Hregen examplePage Toy.htmlPage)
    as (_ & Hconv); [reflexivity | reflexivity | reflexivity |].
  destruct (Hconv (Toy.entry "# Foo") (JS.lit "# Foo"))
    as (Hdel & Hput); [reflexivity | reflexivity | reflexivity |].
  split; [exact Hdel|].
  destruct (Hput eq_refl) as (_ & Hstore).
  change (IndexTs.keyOf (Toy.get "/articles/foo.md" [("refresh", "1")]%string None)
            (JS.lit "/articles/foo.md"))
    with (JS.lit "articles/foo.md") in Hstore.
  rewrite (Hstore eq_refl). reflexivity.
Defined.

(** ** The catch block of worker-md-final.ts under [debug=1] *)

(** The origin cannot be reached and the text of the error holds a line
    feed.  Without [debug=1] the request is answered with status 500; with
    it the catch block throws on the header and the request is not
    answered. *)
Example final_catch_throws_run :
  let fault :=
    ThrownError (JS.lit "TypeError")
      (JS.lit "fetch failed:" ++ [10] ++ JS.lit "connection reset") None in
  let w := withOrigin (Toy.world "# Foo") (Throw fault) in
  (exists resp,
     fst (WorkerMdFinal.fetch w (Toy.get "/articles/foo.md" [] None) (start ∅))
     = Ok resp
     /\ status resp = 500)
  /\ fst (WorkerMdFinal.fetch w (Toy.get "/articles/foo.md" [("debug", "1")]%string None)
            (start ∅))
     = Throw Headers.invalidValue.
Proof.
  cbv zeta. split; [eexists; split; [vm_compute; reflexivity|reflexivity]|].
  vm_compute. reflexivity.
Qed.

(** The type of a Blob is held in lower case, and a type with a unit outside
    U+0020..U+007E is dropped. *)
Example blob_type_run :
  blob_type (newBlob [] (JS.lit "Text/HTML; Charset=UTF-8"))
  = JS.lit "text/html; charset=utf-8"
  /\ blob_type (newBlob [] (JS.lit "text/html" ++ [233])) = [].
Proof. split; reflexivity. Qed.
